(** * Skills Factory backend: the analysis-to-artifact pipeline

    A shallow embedding of the JavaScript sources
    ([utils/claudeClient.js], [services/contentAnalysis.js],
    [services/skillGeneration.js], [api/analyze.js], [api/skills.js],
    [server.js]) and the properties the specification states about
    them.

    Conventions of the embedding.
    - A JavaScript string is a Rocq [string]; each [ascii] stands for one
      UTF-16 code unit in the range 0..255 (the Latin-1 fragment), so
      [String.length] is the JavaScript [.length] on that fragment.
    - A thrown exception is a value of a result type ([Throw e]).
    - The database, the in-memory cache, the timers, the clock and the
      external services are explicit state that every operation threads.
    - JavaScript objects used as records with a fixed shape are Rocq
      records; objects used as dictionaries are association lists in
      insertion order, or [gmap]s where the order is never observed. *)

From Stdlib Require Import ZArith QArith List String Ascii Lia Bool DecimalString.
From stdpp Require Import base option list gmap strings.
Import ListNotations.

Local Open Scope string_scope.
Local Open Scope Z_scope.
Local Set Warnings "-register-all".

(** ** JavaScript strings *)

Module Js.

Definition chars (s : string) : list ascii := list_ascii_of_string s.
Definition str (l : list ascii) : string := string_of_list_ascii l.

Definition code (c : ascii) : Z := Z.of_N (N_of_ascii c).
Definition chr (n : Z) : ascii := ascii_of_N (Z.to_N n).

Definition between (lo hi : Z) (c : ascii) : bool :=
  (lo <=? code c) && (code c <=? hi).

(** [String.prototype.length] *)
Definition len (s : string) : Z := Z.of_nat (String.length s).

(** [String.prototype.toLowerCase] on the code units 0..255: A-Z and the
    Latin-1 capitals U+00C0..U+00DE (without the sign U+00D7) move down
    by 32, everything else is its own lower case. *)
Definition lower_char (c : ascii) : ascii :=
  if between 65 90 c || (between 192 222 c && negb (code c =? 215))
  then chr (code c + 32) else c.

Definition toLowerCase (s : string) : string := str (map lower_char (chars s)).

(** White space and line terminators that [trim] removes (0..255). *)
Definition is_space (c : ascii) : bool :=
  between 9 13 c || (code c =? 32) || (code c =? 160).

Fixpoint dropWhile {A} (p : A -> bool) (l : list A) : list A :=
  match l with
  | [] => []
  | x :: r => if p x then dropWhile p r else l
  end.

(** Removes the longest suffix whose elements all satisfy [p]. *)
Fixpoint dropWhileEnd {A} (p : A -> bool) (l : list A) : list A :=
  match l with
  | [] => []
  | x :: r =>
      match dropWhileEnd p r with
      | [] => if p x then [] else [x]
      | r' => x :: r'
      end
  end.

(** [String.prototype.trim] *)
Definition trim (s : string) : string :=
  str (dropWhileEnd is_space (dropWhile is_space (chars s))).

(** [o !== undefined] *)
Definition defined {A} (o : option A) : bool :=
  match o with Some _ => true | None => false end.

(** [strip_prefix pat s]: what follows [pat] when [s] starts with it. *)
Fixpoint strip_prefix (pat s : string) : option string :=
  match pat, s with
  | EmptyString, _ => Some s
  | String a p, String c r => if Ascii.eqb a c then strip_prefix p r else None
  | String _ _, EmptyString => None
  end.

(** [split_first pat s]: the text before and the text after the first
    occurrence of [pat] in [s]. *)
Fixpoint split_first (pat s : string) : option (string * string) :=
  match strip_prefix pat s with
  | Some rest => Some (EmptyString, rest)
  | None =>
      match s with
      | EmptyString => None
      | String c r =>
          match split_first pat r with
          | Some (before, rest) => Some (String c before, rest)
          | None => None
          end
      end
  end.

(** [split_last c s]: the text before and the text after the last
    occurrence of the character [c] in [s]. *)
Fixpoint split_last (c : ascii) (s : string) : option (string * string) :=
  match s with
  | EmptyString => None
  | String a r =>
      match split_last c r with
      | Some (before, rest) => Some (String a before, rest)
      | None => if Ascii.eqb a c then Some (EmptyString, r) else None
      end
  end.

(** [s.includes(pat)] *)
Definition includes (pat s : string) : bool := defined (split_first pat s).

(** Truthiness of a string value: only the empty string is falsy. *)
Definition truthy (s : string) : bool := negb (String.eqb s EmptyString).

(** Truthiness of a possibly [undefined] string. *)
Definition truthy_opt (o : option string) : bool :=
  match o with Some s => truthy s | None => false end.

(** [s.startsWith(pat)] *)
Definition startsWith (pat s : string) : bool := defined (strip_prefix pat s).

(** The names that every object inherits from [Object.prototype]: a
    lookup [o[k]] on an object literal finds a truthy value under
    them. *)
Definition prototype_keys : list string :=
  ["constructor"; "__defineGetter__"; "__defineSetter__"; "hasOwnProperty";
   "__lookupGetter__"; "__lookupSetter__"; "isPrototypeOf";
   "propertyIsEnumerable"; "toString"; "valueOf"; "__proto__"; "toLocaleString"].

End Js.

(** ** services/skillGeneration.js: skill names *)

Module SkillName.

(** The character class [[a-z0-9]]. *)
Definition is_alnum (c : ascii) : bool :=
  Js.between 97 122 c || Js.between 48 57 c.

Definition hyphen : ascii := "-"%char.
Definition is_hyphen (c : ascii) : bool := Js.code c =? 45.

(** [.replace(/[^a-z0-9]+/g, '-')]: every maximal run of characters
    outside [[a-z0-9]] becomes one hyphen.  [in_run] tells that the
    previous character already belonged to the run being replaced. *)
Fixpoint replace_runs (in_run : bool) (l : list ascii) : list ascii :=
  match l with
  | [] => []
  | c :: r =>
      if is_alnum c then c :: replace_runs false r
      else if in_run then replace_runs true r
      else hyphen :: replace_runs true r
  end.

Definition replace_non_alnum (s : string) : string :=
  Js.str (replace_runs false (Js.chars s)).

(** [.replace(/^-+|-+$/g, '')]: the leading and the trailing run of
    hyphens are removed. *)
Definition strip_hyphens (s : string) : string :=
  Js.str (Js.dropWhileEnd is_hyphen (Js.dropWhile is_hyphen (Js.chars s))).

(** [formatSkillName(name)] *)
Definition formatSkillName (name : string) : string :=
  strip_hyphens (replace_non_alnum (Js.trim (Js.toLowerCase name))).

(** [/^[a-z0-9-]+$/.test(s)] *)
Definition slug_regex_test (s : string) : bool :=
  negb (String.eqb s EmptyString) &&
  forallb (fun c => is_alnum c || is_hyphen c) (Js.chars s).

(** The last character of [l] is a hyphen. *)
Fixpoint ends_hyphen (l : list ascii) : bool :=
  match l with
  | [] => false
  | [c] => is_hyphen c
  | _ :: r => ends_hyphen r
  end.

(** The first character of [l] is a hyphen. *)
Definition starts_hyphen (l : list ascii) : bool :=
  match l with
  | c :: _ => is_hyphen c
  | [] => false
  end.

(** The normal form as the specification describes it: lower-case
    letters, digits and hyphens only, no hyphen first and no hyphen
    last. *)
Definition normalized_as_described (s : string) : bool :=
  forallb (fun c => is_alnum c || is_hyphen c) (Js.chars s)
  && negb (starts_hyphen (Js.chars s))
  && negb (ends_hyphen (Js.chars s)).

(** [single_hyphens prev l]: every character of [l] is in [[a-z0-9-]]
    and no hyphen follows a hyphen; [prev] tells that the character
    before [l] is a hyphen. *)
Fixpoint single_hyphens (prev : bool) (l : list ascii) : bool :=
  match l with
  | [] => true
  | c :: r =>
      if is_alnum c then single_hyphens false r
      else is_hyphen c && negb prev && single_hyphens true r
  end.

(** The names [formatSkillName] leaves unchanged: words over [[a-z0-9]]
    separated by single hyphens. *)
Definition is_slug (s : string) : bool :=
  single_hyphens true (Js.chars s) && negb (ends_hyphen (Js.chars s)).

End SkillName.

(** ** Results of operations that may throw *)

Inductive result (E A : Type) : Type :=
| Ok (a : A)
| Throw (e : E).
Arguments Ok {E A} a.
Arguments Throw {E A} e.

(** ** JSON values, as [JSON.parse] produces them *)

Module Json.

(** A number that [JSON.parse] can return: a finite double (a rational;
    the sign of zero is not kept) or an infinity (a literal too large
    for a double).  [JSON.parse] never returns NaN. *)
Inductive number : Type :=
| Fin (q : Q)
| PosInf
| NegInf.

Inductive value : Type :=
| Null
| Bool (b : bool)
| Num (n : number)
| Str (s : string)
| Arr (items : list value)
| Obj (fields : list (string * value)).

(** [n < 0] and [n > 1] on JavaScript numbers *)
Definition lt_zero (n : number) : bool :=
  match n with
  | Fin q => negb (Qle_bool 0 q)
  | PosInf => false
  | NegInf => true
  end.

Definition gt_one (n : number) : bool :=
  match n with
  | Fin q => negb (Qle_bool q 1)
  | PosInf => true
  | NegInf => false
  end.

Definition is_zero (n : number) : bool :=
  match n with
  | Fin q => Qeq_bool q 0
  | _ => false
  end.

(** Truthiness: [null], [false], [0] and the empty string are falsy. *)
Definition truthy (v : value) : bool :=
  match v with
  | Null => false
  | Bool b => b
  | Num n => negb (is_zero n)
  | Str s => Js.truthy s
  | Arr _ => true
  | Obj _ => true
  end.

(** Truthiness of a property that may be [undefined]. *)
Definition truthy_opt (o : option value) : bool :=
  match o with Some v => truthy v | None => false end.

(** [typeof v === 'object'] *)
Definition typeof_object (v : value) : bool :=
  match v with
  | Null | Arr _ | Obj _ => true
  | _ => false
  end.

Fixpoint assoc (k : string) (fields : list (string * value)) : option value :=
  match fields with
  | [] => None
  | (k', v) :: r => if String.eqb k k' then Some v else assoc k r
  end.

(** [o[k] = v] on an object's own properties: an existing key keeps its
    place, a new key goes last. *)
Fixpoint assoc_set (k : string) (v : value) (fields : list (string * value))
  : list (string * value) :=
  match fields with
  | [] => [(k, v)]
  | (k', v') :: r =>
      if String.eqb k k' then (k, v) :: r else (k', v') :: assoc_set k v r
  end.

(** [v.k] for a name [k] that no prototype defines: [undefined] on
    everything but an object that has the property. *)
Definition get (k : string) (v : value) : option value :=
  match v with
  | Obj fields => assoc k fields
  | _ => None
  end.

(** [n < q] for a JavaScript number [n] and a finite double [q]. *)
Definition lt (n : number) (q : Q) : bool :=
  match n with
  | Fin x => negb (Qle_bool q x)
  | PosInf => false
  | NegInf => true
  end.

(** The names of an object's own properties, each once. *)
Fixpoint own_keys (fields : list (string * value)) : list string :=
  match fields with
  | [] => []
  | (k, _) :: r => k :: List.filter (fun k' => negb (String.eqb k' k)) (own_keys r)
  end.

(** The values that [Object.entries(v)] lists, for a [v] that is
    neither null nor undefined: the properties of an object, the items
    of an array, the characters of a string, nothing for a number or a
    boolean.  [Object.keys(v)] has as many entries. *)
Definition own_values (v : value) : list value :=
  match v with
  | Obj fields =>
      flat_map (fun k => match assoc k fields with Some x => [x] | None => [] end)
               (own_keys fields)
  | Arr items => items
  | Str s => map (fun c => Str (String c EmptyString)) (Js.chars s)
  | _ => []
  end.

End Json.

(** ** The SQLite store (db/migrations/001_initial_schema.sql)

    The JSON columns [references] and [metadata] hold what
    [JSON.stringify] wrote; they are kept here as the values that
    [JSON.parse] gives back. *)

Module Store.

(** [references]: file name to content. *)
Definition refs : Type := list (string * string).

Record extracted_from : Type := {
  ef_analysisId : string;
  ef_contentType : string;
  ef_analysisDate : string;
  ef_confidence : Q
}.

Record github_info : Type := {
  gh_repositoryUrl : string;
  gh_repositoryName : string;
  gh_publishedAt : Z;
  gh_installCommand : string
}.

Record metadata : Type := {
  md_tags : list string;
  md_fileCount : Z;
  md_totalSize : Z;
  md_extractedFrom : extracted_from;
  md_github : option github_info
}.

(** A row of [skills]. *)
Record skill : Type := {
  sk_id : Z;
  sk_name : string;
  sk_description : string;
  sk_type : string;
  sk_version : Z;
  sk_main_content : string;
  sk_references : refs;
  sk_metadata : metadata;
  sk_created_at : Z;
  sk_updated_at : Z
}.

(** A row of [skill_versions]. *)
Record skill_version : Type := {
  sv_skill_id : Z;
  sv_version : Z;
  sv_main_content : string;
  sv_references : refs;
  sv_metadata : metadata;
  sv_created_at : Z
}.

(** The database: the two tables, the AUTOINCREMENT counter of [skills]
    (the largest id ever given out) and the connection's
    [foreign_keys] pragma, which db/database.js sets. *)
Record db : Type := {
  skills : list skill;
  skill_versions : list skill_version;
  skills_seq : Z;
  foreign_keys : bool
}.

Definition empty (fk : bool) : db :=
  {| skills := []; skill_versions := []; skills_seq := 0; foreign_keys := fk |}.

Definition skill_types : list string := ["copywriting"; "process"; "technical"].

Definition mem (x : string) (l : list string) : bool :=
  existsb (String.eqb x) l.

(** [SELECT ... FROM skills WHERE id = ?] *)
Definition select_by_id (id : Z) (d : db) : option skill :=
  find (fun s => sk_id s =? id) (skills d).

(** [SELECT id FROM skills WHERE name = ?] *)
Definition select_by_name (n : string) (d : db) : option skill :=
  find (fun s => String.eqb (sk_name s) n) (skills d).

(** The rows of [skill_versions] of one skill. *)
Definition versions_of (id : Z) (d : db) : list skill_version :=
  List.filter (fun v => sv_skill_id v =? id) (skill_versions d).

(** What a new row of [skills] brings; the id and the two time stamps
    are set by the database. *)
Record skill_data : Type := {
  sd_name : string;
  sd_description : string;
  sd_skill_type : string;
  sd_version : Z;
  sd_main_content : string;
  sd_references : refs;
  sd_metadata : metadata
}.

(** [INSERT INTO skills (...) VALUES (...)]: [skill_type] is CHECKed,
    then [name] is tested for being UNIQUE; the id is AUTOINCREMENT. *)
Definition insert_skill (x : skill_data) (now : Z) (d : db)
  : result string (Z * db) :=
  if negb (mem (sd_skill_type x) skill_types) then
    Throw "CHECK constraint failed: skill_type IN ('copywriting', 'process', 'technical')"
  else if Js.defined (select_by_name (sd_name x) d) then
    Throw "UNIQUE constraint failed: skills.name"
  else
    let id := skills_seq d + 1 in
    let row := {| sk_id := id; sk_name := sd_name x;
                  sk_description := sd_description x;
                  sk_type := sd_skill_type x; sk_version := sd_version x;
                  sk_main_content := sd_main_content x;
                  sk_references := sd_references x;
                  sk_metadata := sd_metadata x;
                  sk_created_at := now; sk_updated_at := now |} in
    Ok (id, {| skills := skills d ++ [row];
               skill_versions := skill_versions d;
               skills_seq := id;
               foreign_keys := foreign_keys d |}).

(** [INSERT INTO skill_versions (...) VALUES (...)]:
    UNIQUE(skill_id, version) and the foreign key to [skills]. *)
Definition insert_version (v : skill_version) (d : db) : result string db :=
  if existsb (fun w => (sv_skill_id w =? sv_skill_id v) && (sv_version w =? sv_version v))
       (skill_versions d) then
    Throw "UNIQUE constraint failed: skill_versions.skill_id, skill_versions.version"
  else if foreign_keys d && negb (Js.defined (select_by_id (sv_skill_id v) d)) then
    Throw "FOREIGN KEY constraint failed"
  else
    Ok {| skills := skills d;
          skill_versions := skill_versions d ++ [v];
          skills_seq := skills_seq d;
          foreign_keys := foreign_keys d |}.

(** One item of the SET list of an UPDATE of [skills]. *)
Inductive assignment : Type :=
| SetName (v : string)
| SetDescription (v : string)
| SetMainContent (v : string)
| SetReferences (v : refs)
| SetMetadata (v : metadata)
| IncrementVersion          (* version = version + 1 *)
| TouchUpdatedAt.           (* updated_at = CURRENT_TIMESTAMP *)

(** Every right-hand side is evaluated on the row as it was ([old]). *)
Definition assign (old : skill) (now : Z) (a : assignment) (s : skill) : skill :=
  match a with
  | SetName v =>
      {| sk_id := sk_id s; sk_name := v; sk_description := sk_description s;
         sk_type := sk_type s; sk_version := sk_version s;
         sk_main_content := sk_main_content s; sk_references := sk_references s;
         sk_metadata := sk_metadata s; sk_created_at := sk_created_at s;
         sk_updated_at := sk_updated_at s |}
  | SetDescription v =>
      {| sk_id := sk_id s; sk_name := sk_name s; sk_description := v;
         sk_type := sk_type s; sk_version := sk_version s;
         sk_main_content := sk_main_content s; sk_references := sk_references s;
         sk_metadata := sk_metadata s; sk_created_at := sk_created_at s;
         sk_updated_at := sk_updated_at s |}
  | SetMainContent v =>
      {| sk_id := sk_id s; sk_name := sk_name s; sk_description := sk_description s;
         sk_type := sk_type s; sk_version := sk_version s;
         sk_main_content := v; sk_references := sk_references s;
         sk_metadata := sk_metadata s; sk_created_at := sk_created_at s;
         sk_updated_at := sk_updated_at s |}
  | SetReferences v =>
      {| sk_id := sk_id s; sk_name := sk_name s; sk_description := sk_description s;
         sk_type := sk_type s; sk_version := sk_version s;
         sk_main_content := sk_main_content s; sk_references := v;
         sk_metadata := sk_metadata s; sk_created_at := sk_created_at s;
         sk_updated_at := sk_updated_at s |}
  | SetMetadata v =>
      {| sk_id := sk_id s; sk_name := sk_name s; sk_description := sk_description s;
         sk_type := sk_type s; sk_version := sk_version s;
         sk_main_content := sk_main_content s; sk_references := sk_references s;
         sk_metadata := v; sk_created_at := sk_created_at s;
         sk_updated_at := sk_updated_at s |}
  | IncrementVersion =>
      {| sk_id := sk_id s; sk_name := sk_name s; sk_description := sk_description s;
         sk_type := sk_type s; sk_version := sk_version old + 1;
         sk_main_content := sk_main_content s; sk_references := sk_references s;
         sk_metadata := sk_metadata s; sk_created_at := sk_created_at s;
         sk_updated_at := sk_updated_at s |}
  | TouchUpdatedAt =>
      {| sk_id := sk_id s; sk_name := sk_name s; sk_description := sk_description s;
         sk_type := sk_type s; sk_version := sk_version s;
         sk_main_content := sk_main_content s; sk_references := sk_references s;
         sk_metadata := sk_metadata s; sk_created_at := sk_created_at s;
         sk_updated_at := now |}
  end.

Definition assign_all (sets : list assignment) (now : Z) (old : skill) : skill :=
  fold_left (fun s a => assign old now a s) sets old.

(** [UPDATE skills SET ... WHERE id = ?]: the row keeps its place; the
    statement fails when the new name is the name of another row. *)
Definition update_skill (sets : list assignment) (id : Z) (now : Z) (d : db)
  : result string db :=
  match select_by_id id d with
  | None => Ok d
  | Some old =>
      let new := assign_all sets now old in
      if existsb (fun s => negb (sk_id s =? id) && String.eqb (sk_name s) (sk_name new))
           (skills d) then
        Throw "UNIQUE constraint failed: skills.name"
      else
        Ok {| skills := map (fun s => if sk_id s =? id then new else s) (skills d);
              skill_versions := skill_versions d;
              skills_seq := skills_seq d;
              foreign_keys := foreign_keys d |}
  end.

(** [DELETE FROM skills WHERE id = ?], with ON DELETE CASCADE on
    [skill_versions] when foreign keys are enforced. *)
Definition delete_skill (id : Z) (d : db) : db :=
  {| skills := List.filter (fun s => negb (sk_id s =? id)) (skills d);
     skill_versions :=
       if foreign_keys d
       then List.filter (fun v => negb (sv_skill_id v =? id)) (skill_versions d)
       else skill_versions d;
     skills_seq := skills_seq d;
     foreign_keys := foreign_keys d |}.

End Store.

(** ** JSZip, as services/skillGeneration.js uses it

    The library is an external collaborator.  An archive is kept as the
    list of its entries together with the options it was generated with;
    the DEFLATE byte stream itself is the library's business, and reading
    an archive back returns the stored entries.  The date that the
    library stamps on each entry when the archive is built is not kept:
    two archives that are equal here hold the same entries, and their
    bytes may differ. *)

Module JSZip.

Record entry : Type := {
  e_name : string;
  e_dir : bool;
  e_data : string
}.

(** [zip.files], in insertion order. *)
Definition t : Type := list entry.

Fixpoint put (e : entry) (z : t) : t :=
  match z with
  | [] => [e]
  | e' :: r => if String.eqb (e_name e') (e_name e) then e :: r else e' :: put e r
  end.

(** [folder.file(name, data)] where [root] is the folder's path.  Data
    that is [undefined] or empty is stored as an empty file. *)
Definition file (root name : string) (data : option string) (z : t) : t :=
  put {| e_name := root ++ name; e_dir := false;
         e_data := match data with Some s => s | None => EmptyString end |} z.

(** [folder.folder(name)]: the new root and the archive with the
    directory entry. *)
Definition folder (root name : string) (z : t) : string * t :=
  let path := root ++ name ++ "/" in
  (path,
   if existsb (fun e => String.eqb (e_name e) path) z then z
   else (z ++ [{| e_name := path; e_dir := true; e_data := EmptyString |}])%list).

Record options : Type := {
  compression : string;
  level : Z
}.

Record archive : Type := {
  entries : t;
  generated_with : options
}.

(** [zip.generateAsync({type: 'nodebuffer', compression, compressionOptions})] *)
Definition generateAsync (o : options) (z : t) : archive :=
  {| entries := z; generated_with := o |}.

(** The files that unpacking an archive yields: path and content. *)
Definition unpack (a : archive) : list (string * string) :=
  map (fun e => (e_name e, e_data e)) (List.filter (fun e => negb (e_dir e)) (entries a)).

End JSZip.

(** ** services/skillGeneration.js *)

Module SkillGeneration.

Import Store.

(** The object [{ [main_key]: main_doc, references }]: generateSkillFiles
    builds it with the key ['skill.md']. *)
Record skill_files : Type := {
  main_key : string;
  main_doc : string;
  references : refs
}.

(** [skillFiles[k]] for the key of a document. *)
Definition get_file (k : string) (f : skill_files) : option string :=
  if String.eqb k (main_key f) then Some (main_doc f) else None.

Record analysis_data : Type := {
  a_analysisId : string;
  a_contentType : string;
  a_extractedData : option Json.value;
  a_timestamp : string;
  a_confidence : Q
}.

Record template_data : Type := {
  t_skillName : string;
  t_description : string;
  t_extractedData : option Json.value;
  t_contentType : string
}.

(** The templates of one skill type in [TEMPLATES]. *)
Inductive template : Type := skillMd | practicesMd | structureMd | examplesMd.

(** [Object.keys(TEMPLATES)] *)
Definition template_types : list string := ["copywriting"; "process"; "technical"].

(** [createSkillZip(skillFiles, skillName)] *)
Definition createSkillZip (skillFiles : skill_files) (skillName : string)
  : JSZip.archive :=
  let zip := JSZip.file EmptyString "skill.md" (get_file "skill.md" skillFiles) [] in
  let zip :=
    if (0 <? Z.of_nat (length (references skillFiles))) then
      let '(referencesFolder, zip) := JSZip.folder EmptyString "references" zip in
      fold_left (fun z '(filename, content) =>
                   JSZip.file referencesFolder filename (Some content) z)
                (references skillFiles) zip
    else zip in
  JSZip.generateAsync {| JSZip.compression := "DEFLATE"; JSZip.level := 9 |} zip.

(** [Buffer.byteLength(s, 'utf8')] on code units 0..255 *)
Definition byteLength (s : string) : Z :=
  fold_right (fun c n => (if Js.code c <? 128 then 1 else 2) + n) 0 (Js.chars s).

(** [calculateTotalSize(skillFiles)] *)
Definition calculateTotalSize (skillFiles : skill_files) : result string Z :=
  match get_file "skill.md" skillFiles with
  | None => Throw "The 'string' argument must be of type string"
  | Some main =>
      Ok (fold_left (fun n '(_, content) => n + byteLength content)
                    (references skillFiles) (byteLength main))
  end.

(** [validateSkillType(skillType)] *)
Definition validateSkillType (skillType : string) : result string unit :=
  if mem skillType template_types then Ok tt
  else Throw ("Invalid skill type: " ++ skillType
              ++ ". Valid types: copywriting, process, technical").

(** [validateSkillName(name)] *)
Definition validateSkillName (name : string) (d : db) : result string unit :=
  if negb (Js.truthy name) || (Js.len name <? 3) then
    Throw "Skill name must be at least 3 characters"
  else if 50 <? Js.len name then
    Throw "Skill name must be less than 50 characters"
  else
    let formatted := SkillName.formatSkillName name in
    if negb (SkillName.slug_regex_test formatted) then
      Throw "Skill name must contain only lowercase letters, numbers, and hyphens"
    else
      match select_by_name formatted d with
      | Some _ => Throw "Skill with this name already exists"
      | None => Ok tt
      end.

(** [saveSkillToDatabase(skillData)] *)
Definition saveSkillToDatabase (skillData : skill_data) (now : Z) (d : db)
  : result string (Z * db) :=
  insert_skill skillData now d.

(** What [generateSkill] returns. *)
Record skill_package : Type := {
  p_skillId : Z;
  p_skillName : string;
  p_version : Z;
  p_files : skill_files;
  p_metadata : metadata;
  p_zipBuffer : JSZip.archive;
  p_createdAt : Z
}.

Section Generate.

(** The external renderer: [Handlebars.compile(TEMPLATES[type][t])(data)]. *)
Variable Handlebars : string -> template -> template_data -> string.

(** [generateDescription(analysisData, skillType)], a string built
    from the analysis. *)
Variable generateDescription : analysis_data -> string -> string.

(** [generateSkillFiles(skillType, templateData)]; every skill type
    of [TEMPLATES] has the three reference templates.  Under a name
    that [TEMPLATES] inherits, the lookup finds an object without
    templates, and [Handlebars.compile] refuses the main template, which
    is undefined. *)
Definition generateSkillFiles (skillType : string) (templateData : template_data)
  : result string skill_files :=
  if negb (mem skillType template_types) then
    Throw (if mem skillType Js.prototype_keys
           then "You must pass a string or Handlebars AST to Handlebars.compile. You passed undefined"
           else "No template found for skill type: " ++ skillType)
  else
    Ok {| main_key := "skill.md";
          main_doc := Handlebars skillType skillMd templateData;
          references :=
            [("practices.md", Handlebars skillType practicesMd templateData);
             ("structure.md", Handlebars skillType structureMd templateData);
             ("examples.md", Handlebars skillType examplesMd templateData)] |}.

(** The body of the [try] block of [generateSkill]. *)
Definition generateSkill_body
    (analysisData : option analysis_data) (skillName skillType : string)
    (description : option string) (tags : option (list string))
    (now : Z) (d : db) : result string (skill_package * db) :=
  match validateSkillName skillName d with
  | Throw e => Throw e
  | Ok _ =>
  match validateSkillType skillType with
  | Throw e => Throw e
  | Ok _ =>
  match analysisData with
  | None => Throw "Invalid analysis data provided"
  | Some analysis =>
  if negb (Json.truthy_opt (a_extractedData analysis)) then
    Throw "Invalid analysis data provided"
  else
    let templateData :=
      {| t_skillName := SkillName.formatSkillName skillName;
         t_description :=
           if Js.truthy_opt description
           then match description with Some s => s | None => EmptyString end
           else generateDescription analysis skillType;
         t_extractedData := a_extractedData analysis;
         t_contentType := skillType |} in
    match generateSkillFiles skillType templateData with
    | Throw e => Throw e
    | Ok skillFiles =>
    match calculateTotalSize skillFiles with
    | Throw e => Throw e
    | Ok totalSize =>
    let metadata :=
      {| md_tags := match tags with Some l => l | None => [] end;
         md_fileCount := 1 + Z.of_nat (length (references skillFiles));
         md_totalSize := totalSize;
         md_extractedFrom :=
           {| ef_analysisId := a_analysisId analysis;
              ef_contentType := a_contentType analysis;
              ef_analysisDate := a_timestamp analysis;
              ef_confidence := a_confidence analysis |};
         md_github := None |} in
    match saveSkillToDatabase
            {| sd_name := t_skillName templateData;
               sd_description := t_description templateData;
               sd_skill_type := skillType;
               sd_version := 1;
               sd_main_content := main_doc skillFiles;
               sd_references := references skillFiles;
               sd_metadata := metadata |} now d with
    | Throw e => Throw e
    | Ok (skillId, d') =>
        let zipBuffer := createSkillZip skillFiles (t_skillName templateData) in
        Ok ({| p_skillId := skillId;
               p_skillName := t_skillName templateData;
               p_version := 1;
               p_files := skillFiles;
               p_metadata := metadata;
               p_zipBuffer := zipBuffer;
               p_createdAt := now |}, d')
    end end end end end end.

(** [generateSkill(analysisData, skillName, skillType, description, tags)] *)
Definition generateSkill
    (analysisData : option analysis_data) (skillName skillType : string)
    (description : option string) (tags : option (list string))
    (now : Z) (d : db) : result string (skill_package * db) :=
  match generateSkill_body analysisData skillName skillType description tags now d with
  | Ok r => Ok r
  | Throw message => Throw ("Skill generation failed: " ++ message)
  end.

End Generate.

(** [isValidMarkdown(content)]; reading [includes] of a content that is
    undefined throws. *)
Definition isValidMarkdown (content : option string) : result string bool :=
  match content with
  | None => Throw "Cannot read properties of undefined (reading 'includes')"
  | Some c =>
      Ok (Js.includes "#" c && (50 <? Js.len c) && negb (Js.includes "{{" c))
  end.

(** What [validateSkillPackage] returns. *)
Record package_report : Type := {
  isValid : bool;
  issues : list string;
  packageSize : Z
}.

(** [validateSkillPackage(skillFiles)] *)
Definition validateSkillPackage (skillFiles : skill_files)
  : result string package_report :=
  let main := get_file "skill.md" skillFiles in
  let issues1 :=
    if negb (Js.truthy_opt main) then ["Missing skill.md file"]
    else if Js.len (match main with Some c => c | None => EmptyString end) <? 100
         then ["skill.md content seems too short"]
         else [] in
  match isValidMarkdown main with
  | Throw e => Throw e
  | Ok valid =>
      let issues2 := if valid then [] else ["skill.md contains invalid markdown"] in
      let refCount := Z.of_nat (length (references skillFiles)) in
      let issues3 :=
        if refCount =? 0
        then ["No reference files generated - skill may be incomplete"]
        else [] in
      match calculateTotalSize skillFiles with
      | Throw e => Throw e
      | Ok totalSize =>
          let issues4 :=
            if 1024 * 1024 <? totalSize
            then ["Skill package is larger than 1MB - may be too verbose"]
            else [] in
          let issues := (issues1 ++ issues2 ++ issues3 ++ issues4)%list in
          Ok {| isValid := Nat.eqb (length issues) 0;
                issues := issues;
                packageSize := totalSize |}
      end
  end.

(** *** The description that is generated when none is given *)

(** [o?.[k]] for a name [k] that no prototype defines. *)
Definition chain (k : string) (o : option Json.value) : option Json.value :=
  match o with
  | None | Some Json.Null => None
  | Some v => Json.get k v
  end.

(** [o?.[0]]: the first item of an array, the first character of a
    string, the property "0" of an object. *)
Definition chain0 (o : option Json.value) : option Json.value :=
  match o with
  | Some (Json.Arr (x :: _)) => Some x
  | Some (Json.Str (String c _)) => Some (Json.Str (String c EmptyString))
  | Some (Json.Obj fields) => Json.assoc "0" fields
  | _ => None
  end.

Section Describe.

(** [Number.prototype.toString], the built-in. *)
Variable Number_toString : Json.number -> string.

(** The conversion to a string that a template literal applies.  An
    array is joined with commas, null items giving the empty string; an
    object gives "[object Object]", and one that has a property named
    toString of its own cannot be converted. *)
Fixpoint ToString (v : Json.value) : result string string :=
  match v with
  | Json.Null => Ok "null"
  | Json.Bool b => Ok (if b then "true" else "false")
  | Json.Num n => Ok (Number_toString n)
  | Json.Str s => Ok s
  | Json.Arr items =>
      let fix each (l : list Json.value) : result string (list string) :=
        match l with
        | [] => Ok []
        | x :: r =>
            match (match x with Json.Null => Ok EmptyString | _ => ToString x end) with
            | Throw e => Throw e
            | Ok s =>
                match each r with
                | Throw e => Throw e
                | Ok rest => Ok (s :: rest)
                end
            end
        end in
      match each items with
      | Throw e => Throw e
      | Ok l => Ok (String.concat "," l)
      end
  | Json.Obj fields =>
      if Js.defined (Json.assoc "toString" fields)
      then Throw "Cannot convert object to primitive value"
      else Ok "[object Object]"
  end.

(** [${o || fallback}] *)
Definition or_else (o : option Json.value) (fallback : string) : result string string :=
  match o with
  | Some v => if Json.truthy v then ToString v else Ok fallback
  | None => Ok fallback
  end.

(** [generateDescription(analysisData, skillType)] *)
Definition generateDescription (analysisData : analysis_data) (skillType : string)
  : result string string :=
  let data := a_extractedData analysisData in
  let read (k : string) : result string (option Json.value) :=
    match data with
    | None => Throw ("Cannot read properties of undefined (reading '" ++ k ++ "')")
    | Some Json.Null => Throw ("Cannot read properties of null (reading '" ++ k ++ "')")
    | Some v => Ok (Json.get k v)
    end in
  if String.eqb skillType "copywriting" then
    match read "style" with
    | Throw e => Throw e
    | Ok style =>
        match or_else (chain "toneVoice" style) "effective" with
        | Throw e => Throw e
        | Ok tone =>
            match read "structure" with
            | Throw e => Throw e
            | Ok structure =>
                match or_else (chain "narrativeFlow" structure) "proven" with
                | Throw e => Throw e
                | Ok flow =>
                    Ok ("Generates " ++ tone ++ " copy using the " ++ flow ++ " framework")
                end
            end
        end
    end
  else if String.eqb skillType "process" then
    match read "workflow" with
    | Throw e => Throw e
    | Ok workflow =>
        match or_else (chain "name" (chain0 (chain "steps" workflow)))
                      "process execution" with
        | Throw e => Throw e
        | Ok step => Ok ("Structured workflow for " ++ step)
        end
    end
  else if String.eqb skillType "technical" then
    match read "concepts" with
    | Throw e => Throw e
    | Ok concepts =>
        match or_else (chain0 (chain "mainConcepts" concepts)) "implementation" with
        | Throw e => Throw e
        | Ok concept => Ok ("Technical guide for " ++ concept)
        end
    end
  else Ok ("Claude skill for " ++ skillType ++ " tasks").

End Describe.

End SkillGeneration.

(** ** api/skills.js: the routes that read and write skills *)

Module SkillsApi.

Import Store.

(** The body of PUT /skills/:id, with the fields it may carry.  A field
    of the wrong JSON type is refused by the schema and has no
    counterpart here. *)
Record update_request : Type := {
  name : option string;
  description : option string;
  mainContent : option string;
  references : option refs;
  tags : option (list string)
}.

Definition opt_all {A} (p : A -> bool) (o : option A) : bool :=
  match o with Some a => p a | None => true end.

(** [UpdateSkillRequestSchema.parse(req.body)]: [None] stands for the
    ZodError. *)
Definition UpdateSkillRequestSchema (body : update_request) : option update_request :=
  if opt_all (fun s => (3 <=? Js.len s) && (Js.len s <=? 50)) (name body)
     && opt_all (fun s => 100 <=? Js.len s) (mainContent body)
  then Some body else None.

Inductive payload : Type :=
| Updated (id version : Z)                 (* { id, version, message } *)
| Deleted (id : Z) (skill_name : string)   (* { message, deletedSkill } *)
| Zip (filename : string) (zipBuffer : JSZip.archive)
| Published (info : github_info)
| Failure (error message : string).

Record response : Type := {
  status : Z;
  body : payload
}.

Definition set_tags (m : metadata) (tags : list string) : metadata :=
  {| md_tags := tags; md_fileCount := md_fileCount m;
     md_totalSize := md_totalSize m; md_extractedFrom := md_extractedFrom m;
     md_github := md_github m |}.

(** The SET list that the update transaction builds, field by field. *)
Definition updateFields (validatedData : update_request) (currentSkill : skill)
  : list assignment :=
  (match name validatedData with
   | Some v => if Js.truthy v then [SetName v] else []
   | None => []
   end)
  ++ (match description validatedData with
      | Some v => if Js.truthy v then [SetDescription v] else []
      | None => []
      end)
  ++ (match mainContent validatedData with
      | Some v => if Js.truthy v then [SetMainContent v] else []
      | None => []
      end)
  ++ (match references validatedData with
      | Some v => [SetReferences v]
      | None => []
      end)
  ++ (match tags validatedData with
      | Some v => [SetMetadata (set_tags (sk_metadata currentSkill) v)]
      | None => []
      end)
  ++ [IncrementVersion; TouchUpdatedAt].

(** The row of [skill_versions] that keeps the current state of a skill. *)
Definition snapshot (skillId : Z) (currentSkill : skill) (now : Z) : skill_version :=
  {| sv_skill_id := skillId;
     sv_version := sk_version currentSkill;
     sv_main_content := sk_main_content currentSkill;
     sv_references := sk_references currentSkill;
     sv_metadata := sk_metadata currentSkill;
     sv_created_at := now |}.

(** The function given to [db.transaction]: when it throws, nothing it
    wrote is kept (the result carries no database). *)
Definition updateSkill (skillId : Z) (validatedData : update_request)
    (now : Z) (d : db) : result string (Z * db) :=
  match select_by_id skillId d with
  | None => Throw "Cannot read properties of undefined (reading 'version')"
  | Some currentSkill =>
      match insert_version (snapshot skillId currentSkill now) d with
      | Throw e => Throw e
      | Ok d1 =>
          match update_skill (updateFields validatedData currentSkill) skillId now d1 with
          | Throw e => Throw e
          | Ok d2 =>
              match select_by_id skillId d2 with
              | Some s => Ok (sk_version s, d2)
              | None => Throw "Cannot read properties of undefined (reading 'version')"
              end
          end
      end
  end.

(** PUT /api/skills/:id.  [id] is [parseInt(req.params.id)], [None]
    for NaN. *)
Definition put_skill (id : option Z) (req : update_request) (now : Z) (d : db)
  : response * db :=
  match id with
  | None =>
      ({| status := 400;
          body := Failure "Invalid skill ID" "Skill ID must be a number" |}, d)
  | Some skillId =>
      match UpdateSkillRequestSchema req with
      | None =>
          ({| status := 400; body := Failure "Validation failed" EmptyString |}, d)
      | Some validatedData =>
          match select_by_id skillId d with
          | None =>
              ({| status := 404;
                  body := Failure "Skill not found"
                                  "The specified skill does not exist" |}, d)
          | Some _ =>
              match updateSkill skillId validatedData now d with
              | Ok (version, d') =>
                  ({| status := 200; body := Updated skillId version |}, d')
              | Throw message =>
                  ({| status := 500;
                      body := Failure "Failed to update skill" message |}, d)
              end
          end
      end
  end.

(** DELETE /api/skills/:id *)
Definition delete_skill_route (id : option Z) (d : db) : response * db :=
  match id with
  | None =>
      ({| status := 400;
          body := Failure "Invalid skill ID" "Skill ID must be a number" |}, d)
  | Some skillId =>
      match select_by_id skillId d with
      | None =>
          ({| status := 404;
              body := Failure "Skill not found"
                              "The specified skill does not exist" |}, d)
      | Some skill =>
          ({| status := 200; body := Deleted skillId (sk_name skill) |},
           delete_skill skillId d)
      end
  end.

(** GET /api/skills/:id/download, with the key under which the route
    files the main document: the first copy of api/skills.js writes
    ['skill.md'], the copy that also has the publish route writes
    ['SKILL.md']. *)
Definition download_with (key : string) (id : option Z) (d : db) : response :=
  match id with
  | None =>
      {| status := 400;
         body := Failure "Invalid skill ID" "Skill ID must be a number" |}
  | Some skillId =>
      match select_by_id skillId d with
      | None =>
          {| status := 404;
             body := Failure "Skill not found"
                             "The specified skill does not exist" |}
      | Some skill =>
          let skillFiles :=
            {| SkillGeneration.main_key := key;
               SkillGeneration.main_doc := sk_main_content skill;
               SkillGeneration.references := sk_references skill |} in
          let zipBuffer := SkillGeneration.createSkillZip skillFiles (sk_name skill) in
          {| status := 200; body := Zip (sk_name skill ++ ".zip") zipBuffer |}
      end
  end.

(** The route of the first copy of api/skills.js. *)
Definition download_skill_md (id : option Z) (d : db) : response :=
  download_with "skill.md" id d.

(** The route of the copy with the publish route (the later one). *)
Definition download (id : option Z) (d : db) : response :=
  download_with "SKILL.md" id d.

(** POST /api/skills/:id/publish.  [token] is the first of the request
    body's token, the header and the environment's; [published] is what
    publishSkillToGitHub returned, or the message of the error it
    threw. *)
Definition publish (id : option Z) (token : option string)
    (published : result string github_info) (d : db) (now : Z) : response * db :=
  let failed (message : string) :=
    if Js.includes "already exists" message then
      {| status := 409; body := Failure "Repository already exists" message |}
    else if Js.includes "authentication" message || Js.includes "401" message then
      {| status := 401;
         body := Failure "GitHub authentication failed" "Invalid or expired GitHub token" |}
    else
      {| status := 500; body := Failure "Failed to publish skill to GitHub" message |} in
  match id with
  | None =>
      ({| status := 400;
          body := Failure "Invalid skill ID" "Skill ID must be a number" |}, d)
  | Some skillId =>
      if negb (Js.truthy_opt token) then
        ({| status := 401;
            body := Failure "GitHub authentication required" EmptyString |}, d)
      else
        match select_by_id skillId d with
        | None =>
            ({| status := 404;
                body := Failure "Skill not found"
                                "The specified skill does not exist" |}, d)
        | Some skill =>
            match published with
            | Throw message => (failed message, d)
            | Ok info =>
                let m := sk_metadata skill in
                let metadata :=
                  {| md_tags := md_tags m; md_fileCount := md_fileCount m;
                     md_totalSize := md_totalSize m;
                     md_extractedFrom := md_extractedFrom m;
                     md_github := Some info |} in
                match update_skill [SetMetadata metadata; TouchUpdatedAt] skillId now d with
                | Ok d' => ({| status := 200; body := Published info |}, d')
                | Throw message => (failed message, d)
                end
            end
        end
  end.

(** A request without the fields whose value is falsy. *)
Definition keep_truthy (o : option string) : option string :=
  match o with
  | Some v => if Js.truthy v then Some v else None
  | None => None
  end.

(** A request without its description. *)
Definition omit_description (req : update_request) : update_request :=
  {| name := name req;
     description := None;
     mainContent := mainContent req;
     references := references req;
     tags := tags req |}.

Definition drop_falsy (req : update_request) : update_request :=
  {| name := keep_truthy (name req);
     description := keep_truthy (description req);
     mainContent := keep_truthy (mainContent req);
     references := references req;
     tags := tags req |}.

(** GET /api/skills/:id: the status, and the row with all its columns
    or the error and its message. *)
Definition get_skill (id : option Z) (d : db) : Z * result (string * string) skill :=
  match id with
  | None => (400, Throw ("Invalid skill ID", "Skill ID must be a number"))
  | Some skillId =>
      match select_by_id skillId d with
      | None => (404, Throw ("Skill not found", "The specified skill does not exist"))
      | Some skill => (200, Ok skill)
      end
  end.

End SkillsApi.

(** ** The life of the store: every operation that writes [skills] *)

Module Lifecycle.

Import Store.

Inductive op : Type :=
| Generate (analysisData : option SkillGeneration.analysis_data)
           (skillName skillType : string) (description : option string)
           (tags : option (list string)) (now : Z)
| Put (id : option Z) (req : SkillsApi.update_request) (now : Z)
| Delete (id : option Z)
| Publish (id : option Z) (token : option string)
          (published : result string github_info) (now : Z).

Section Run.

Variable Handlebars :
  string -> SkillGeneration.template -> SkillGeneration.template_data -> string.
Variable generateDescription : SkillGeneration.analysis_data -> string -> string.

(** The database after one operation. *)
Definition exec (o : op) (d : db) : db :=
  match o with
  | Generate analysisData skillName skillType description tags now =>
      match SkillGeneration.generateSkill Handlebars generateDescription
              analysisData skillName skillType description tags now d with
      | Ok (_, d') => d'
      | Throw _ => d
      end
  | Put id req now => snd (SkillsApi.put_skill id req now d)
  | Delete id => snd (SkillsApi.delete_skill_route id d)
  | Publish id token published now =>
      snd (SkillsApi.publish id token published d now)
  end.

(** [o] is an update of skill [id] that is answered with 200. *)
Definition updates (id : Z) (o : op) (d : db) : bool :=
  match o with
  | Put (Some i) req now =>
      (i =? id) && (SkillsApi.status (fst (SkillsApi.put_skill (Some i) req now d)) =? 200)
  | _ => false
  end.

Fixpoint run (ops : list op) (d : db) : db :=
  match ops with
  | [] => d
  | o :: r => run r (exec o d)
  end.

(** The number of successful updates of skill [id] along [run ops d]. *)
Fixpoint successful_updates (id : Z) (ops : list op) (d : db) : nat :=
  match ops with
  | [] => O
  | o :: r =>
      ((if updates id o d then 1 else 0) + successful_updates id r (exec o d))%nat
  end.

End Run.

(** [o] is an update that carries a (truthy) name. *)
Definition renames (o : op) : bool :=
  match o with
  | Put _ req _ => Js.truthy_opt (SkillsApi.name req)
  | _ => false
  end.

(** [o] is a DELETE of skill [id], or a PUT for skill [id] that
    carries a (truthy) name. *)
Definition frees_name (id : Z) (o : op) : bool :=
  match o with
  | Delete (Some i) => i =? id
  | Put (Some i) req _ => (i =? id) && Js.truthy_opt (SkillsApi.name req)
  | _ => false
  end.

(** A history of [n] snapshots: [n] rows with distinct versions, all
    between 1 and [n]. *)
Definition history_ok (n : nat) (vs : list skill_version) : Prop :=
  length vs = n
  /\ List.NoDup (map sv_version vs)
  /\ forall v, In v vs -> 1 <= sv_version v <= Z.of_nat n.

(** The invariant of the store; [c id] counts the successful updates
    of skill [id] so far. *)
Record consistent (c : Z -> nat) (d : db) : Prop := {
  ids_distinct : List.NoDup (map sk_id (skills d));
  ids_given : forall s, In s (skills d) -> sk_id s <= skills_seq d;
  rows_given : forall v, In v (skill_versions d) -> sv_skill_id v <= skills_seq d;
  fresh_count : forall id, skills_seq d < id -> c id = O;
  version_count :
    forall s, In s (skills d) -> sk_version s = 1 + Z.of_nat (c (sk_id s));
  history_count :
    forall s, In s (skills d) -> history_ok (c (sk_id s)) (versions_of (sk_id s) d)
}.

End Lifecycle.

(** ** The process: clock, timers, rate-limiter ledger, cache

    All of it is module-level state of utils/claudeClient.js and
    services/contentAnalysis.js.  Time is the clock's value in
    milliseconds; it moves only while the code awaits something. *)

Module Runtime.

(** The object that [analyzeContent] returns and caches; a property
    read from the validated response is [None] when it is undefined. *)
Record analysis_result : Type := {
  analysisId : nat;                (* generateUUID(): a fresh token *)
  contentType : string;
  extractedData : option Json.value;
  confidence : option Json.value;
  processingTime : Q;
  notes : Json.value;
  timestamp : Z
}.

Record world : Type := {
  w_now : Z;                                   (* Date.now() *)
  w_requests : list Z;                         (* rateLimiter.requests *)
  w_calls : nat;                               (* calls of the external service so far *)
  w_uuids : nat;                               (* tokens given out so far *)
  w_cache : gmap string analysis_result;       (* analysisCache *)
  w_timers : list (Z * string)                 (* pending setTimeout: due time, cache key *)
}.

Definition initial : world :=
  {| w_now := 0; w_requests := []; w_calls := O; w_uuids := O;
     w_cache := ∅; w_timers := [] |}.

(** The event loop runs the timers that are due: each deletes its key
    from the cache. *)
Definition due (t : Z) (timer : Z * string) : bool := fst timer <=? t.

Definition run_timers (t : Z) (timers : list (Z * string))
    (cache : gmap string analysis_result) : gmap string analysis_result :=
  fold_left (fun c timer => if due t timer then delete (snd timer) c else c)
            timers cache.

(** [ms] milliseconds pass while the code awaits. *)
Definition advance (ms : Z) (w : world) : world :=
  let t := w_now w + Z.max 0 ms in
  {| w_now := t;
     w_requests := w_requests w;
     w_calls := w_calls w;
     w_uuids := w_uuids w;
     w_cache := run_timers t (w_timers w) (w_cache w);
     w_timers := List.filter (fun timer => negb (due t timer)) (w_timers w) |}.

(** [await sleep(ms)] *)
Definition sleep (ms : Z) (w : world) : world := advance ms w.

Definition set_requests (l : list Z) (w : world) : world :=
  {| w_now := w_now w; w_requests := l; w_calls := w_calls w;
     w_uuids := w_uuids w; w_cache := w_cache w; w_timers := w_timers w |}.

Definition count_call (w : world) : world :=
  {| w_now := w_now w; w_requests := w_requests w; w_calls := S (w_calls w);
     w_uuids := w_uuids w; w_cache := w_cache w; w_timers := w_timers w |}.

(** [generateUUID()] *)
Definition generateUUID (w : world) : nat * world :=
  (w_uuids w,
   {| w_now := w_now w; w_requests := w_requests w; w_calls := w_calls w;
      w_uuids := S (w_uuids w); w_cache := w_cache w; w_timers := w_timers w |}).

(** [analysisCache.set(key, result); setTimeout(() =>
    analysisCache.delete(key), ttl)] *)
Definition cache_set (key : string) (r : analysis_result) (ttl : Z) (w : world)
  : world :=
  {| w_now := w_now w; w_requests := w_requests w; w_calls := w_calls w;
     w_uuids := w_uuids w;
     w_cache := <[key := r]> (w_cache w);
     w_timers := w_timers w ++ [(w_now w + ttl, key)] |}.

(** No timer is pending for [key]. *)
Definition no_timer (key : string) (w : world) : Prop :=
  forall t, ~ In (t, key) (w_timers w).

(** Each pending timer is the only one for its key, and its key is in
    the cache: what the timers look like as long as calls do not
    overlap. *)
Definition timers_consistent (w : world) : Prop :=
  List.NoDup (map snd (w_timers w))
  /\ forall t k, In (t, k) (w_timers w) -> is_Some (w_cache w !! k).

(** A property of the process that the passing of time, the counting
    of a call and a write to the ledger keep. *)
Definition stable (P : world -> Prop) : Prop :=
  (forall ms w, P w -> P (advance ms w))
  /\ (forall w, P w -> P (count_call w))
  /\ (forall l w, P w -> P (set_requests l w)).

End Runtime.

(** ** utils/claudeClient.js *)

Module ClaudeClient.

Import Runtime.

Inductive error_class : Type :=
| Error                (* a plain Error *)
| ClaudeAPIError
| AnalysisError
| RateLimitError
| ServiceError.

(** [error.retryAfter]: the text of the retry-after header, or a
    number of seconds. *)
Inductive retry_after : Type :=
| HeaderValue (text : string)
| Seconds (n : Z).

Record js_error : Type := {
  class : error_class;
  message : string;
  code : string;
  status : Z;
  retryable : bool;
  retryAfter : option retry_after
}.

(** [new Error(message)]: code, status and retryable are undefined. *)
Definition plainError (m : string) : js_error :=
  {| class := Error; message := m; code := EmptyString; status := 0;
     retryable := false; retryAfter := None |}.

Definition newClaudeAPIError (m c : string) (st : Z) (r : bool) : js_error :=
  {| class := ClaudeAPIError; message := m; code := c; status := st;
     retryable := r; retryAfter := None |}.

Definition newAnalysisError (m : string) : js_error :=
  {| class := AnalysisError; message := m; code := "ANALYSIS_ERROR"; status := 0;
     retryable := false; retryAfter := None |}.

Definition retry_truthy (r : retry_after) : bool :=
  match r with
  | HeaderValue text => Js.truthy text
  | Seconds n => negb (n =? 0)
  end.

(** [new RateLimitError(message, retryAfter)], with
    [this.retryAfter = retryAfter || 60]. *)
Definition newRateLimitError (m : string) (r : retry_after) : js_error :=
  {| class := RateLimitError; message := m; code := "RATE_LIMIT"; status := 429;
     retryable := true;
     retryAfter := Some (if retry_truthy r then r else Seconds 60) |}.

Definition newServiceError (m : string) (r : bool) : js_error :=
  {| class := ServiceError; message := m; code := "SERVER_ERROR"; status := 500;
     retryable := r; retryAfter := None |}.

(** What the SDK throws: the fields that [callClaudeAPI] reads. *)
Record sdk_error : Type := {
  sdk_status : option Z;
  sdk_retry_after : option string;     (* error.headers?.['retry-after'] *)
  sdk_code : option string;
  sdk_message : string
}.

(** One answer of the external service: how long it took, and the text
    of the response or the error. *)
Record reply : Type := {
  latency : Z;
  outcome : result sdk_error string
}.

Definition retry_text (r : retry_after) : string :=
  match r with
  | HeaderValue text => text
  | Seconds n => NilZero.string_of_int (Z.to_int n)
  end.

Definition status_is (n : Z) (e : sdk_error) : bool :=
  match sdk_status e with Some st => st =? n | None => false end.

Definition code_is (c : string) (e : sdk_error) : bool :=
  match sdk_code e with Some x => String.eqb x c | None => false end.

(** [error.headers?.['retry-after'] || 60] *)
Definition retry_hint (error : sdk_error) : retry_after :=
  match sdk_retry_after error with
  | Some text => if Js.truthy text then HeaderValue text else Seconds 60
  | None => Seconds 60
  end.

(** The [catch] block of [callClaudeAPI]: the classification. *)
Definition classify (error : sdk_error) : js_error :=
  if status_is 429 error then
    let retryAfter := retry_hint error in
    newRateLimitError
      ("Rate limit exceeded. Retry after " ++ retry_text retryAfter ++ "s") retryAfter
  else if status_is 401 error then
    newClaudeAPIError "Invalid API key" "AUTH_ERROR" 401 false
  else if match sdk_status error with Some st => 500 <=? st | None => false end then
    newServiceError "Claude API server error" true
  else if status_is 400 error then
    newClaudeAPIError ("Invalid request: " ++ sdk_message error) "INVALID_REQUEST" 400 false
  else if code_is "ETIMEDOUT" error || code_is "ECONNRESET" error then
    newClaudeAPIError "Network timeout" "TIMEOUT" 0 true
  else
    newClaudeAPIError (sdk_message error) "UNKNOWN"
      (match sdk_status error with Some st => st | None => 0 end) false.

(** [estimateTokens(text)]: [Math.ceil(text.length / 4)] *)
Definition estimateTokens (text : string) : Z := (Js.len text + 3) / 4.

(** [shouldAnalyzeContent(content)] *)
Definition shouldAnalyzeContent (content : string) : bool :=
  estimateTokens content <=? 150000.

(** *** The rate limiter: [new RateLimiter(50, 60000)] *)

Definition maxRequests : Z := 50.
Definition windowMs : Z := 60000.

(** [Math.min(...l)] on a ledger that is not empty. *)
Definition minimum (l : list Z) : Z :=
  match l with
  | [] => 0
  | x :: r => fold_left Z.min r x
  end.

(** [rateLimiter.acquire()].  [fuel] bounds the number of times the
    method calls itself; [acquire] gives it one more than the ledger is
    long, which is never used up. *)
Fixpoint acquire_loop (fuel : nat) (w : world) : world :=
  let now := w_now w in
  let requests := List.filter (fun time => now - time <? windowMs) (w_requests w) in
  if maxRequests <=? Z.of_nat (length requests) then
    let oldestRequest := minimum requests in
    let waitTime := windowMs - (now - oldestRequest) in
    match fuel with
    | O => set_requests requests w
    | S k => acquire_loop k (sleep waitTime (set_requests requests w))
    end
  else
    set_requests (requests ++ [now]) w.

Definition acquire (w : world) : world :=
  acquire_loop (S (length (w_requests w))) w.

(** *** Parsing and validating the response *)

Definition nl : string := String "010"%char EmptyString.
Definition fence_open : string := "```json" ++ nl.
Definition fence_close : string := nl ++ "```".

(** [responseText.match(/```json\n([\s\S]*?)\n```/)]: the group, i.e.
    the text between the first opening fence and the first closing
    fence after it. *)
Definition match_fenced (text : string) : option string :=
  match Js.split_first fence_open text with
  | None => None
  | Some (_, rest) =>
      match Js.split_first fence_close rest with
      | None => None
      | Some (inner, _) => Some inner
      end
  end.

(** [responseText.match(/\{[\s\S]*\}/)]: from the first opening brace
    to the last closing brace after it. *)
Definition match_braces (text : string) : option string :=
  match Js.split_first "{" text with
  | None => None
  | Some (_, rest) =>
      match Js.split_last "}"%char rest with
      | None => None
      | Some (inside, _) => Some ("{" ++ inside ++ "}")
      end
  end.

(** [inner] is the interior of a fenced block labelled json in [text]. *)
Definition fenced_block (text inner : string) : Prop :=
  exists before rest, text = before ++ fence_open ++ inner ++ fence_close ++ rest.

(** [inner] is the interior of the first fenced block labelled json in
    [text]: no opening fence starts before the one of this block, and
    the closing fence of the block is the first one that starts after
    its opening fence, so that none starts inside [inner]. *)
Definition first_fenced_block (text inner : string) : Prop :=
  exists before rest,
    text = before ++ fence_open ++ inner ++ fence_close ++ rest
    /\ (forall before' rest',
          text = before' ++ fence_open ++ rest' ->
          (String.length before <= String.length before')%nat)
    /\ (forall inner' rest',
          inner ++ fence_close ++ rest = inner' ++ fence_close ++ rest' ->
          (String.length inner <= String.length inner')%nat).

Definition has_char (c : ascii) (s : string) : Prop :=
  exists before rest, s = before ++ String c rest.




Section Parse.

(** [JSON.parse]; [None] stands for the SyntaxError. *)
Variable JSON_parse : string -> option Json.value.

(** [parseClaudeResponse(responseText)] *)
Definition parseClaudeResponse (responseText : string)
  : result js_error Json.value :=
  match JSON_parse responseText with
  | Some v => Ok v
  | None =>
      match match_fenced responseText with
      | Some inner =>
          match JSON_parse inner with
          | Some v => Ok v
          | None => Throw (plainError "Failed to parse JSON from markdown block")
          end
      | None =>
          match match_braces responseText with
          | Some object =>
              match JSON_parse object with
              | Some v => Ok v
              | None => Throw (plainError "Failed to parse extracted JSON object")
              end
          | None => Throw (plainError "No valid JSON found in response")
          end
      end
  end.


End Parse.

(** [typeof v !== 'number' || v < 0 || v > 1] for a property that may
    be undefined. *)
Definition invalid_confidence (c : option Json.value) : bool :=
  match c with
  | Some (Json.Num n) => Json.lt_zero n || Json.gt_one n
  | _ => true
  end.

(** [validateAnalysisResponse(parsed)]; it writes the default into
    [parsed] and returns [parsed]. *)
Definition validateAnalysisResponse (parsed : Json.value)
  : result js_error Json.value :=
  if negb (Json.truthy parsed) || negb (Json.typeof_object parsed) then
    Throw (plainError "Response must be an object")
  else if negb (Json.truthy_opt (Json.get "extractedData" parsed)) then
    Throw (plainError "Missing extractedData field")
  else if invalid_confidence (Json.get "confidence" parsed) then
    match parsed with
    | Json.Obj fields =>
        Ok (Json.Obj (Json.assoc_set "confidence" (Json.Num (Json.Fin (1 # 2))) fields))
    | other => Ok other
    end
  else Ok parsed.

(** *** Calling the service *)

Section Call.

(** The external service: the answer to its [n]-th call. *)
Variable service : nat -> reply.

(** [callClaudeAPI(prompt, options)] *)
Definition callClaudeAPI (w : world) : result js_error string * world :=
  let r := service (w_calls w) in
  let w' := advance (latency r) (count_call w) in
  match outcome r with
  | Ok text => (Ok text, w')
  | Throw error => (Throw (classify error), w')
  end.

(** The loop of [callClaudeWithRetry], from [attempt] on; [remaining]
    is the number of attempts the loop condition still allows.  The
    error is [None] when [undefined] is thrown. *)
Fixpoint retry_loop (remaining : nat) (attempt maxRetries : Z)
    (lastError : option js_error) (w : world)
  : result (option js_error) string * world :=
  match remaining with
  | O => (Throw lastError, w)
  | S k =>
      match callClaudeAPI w with
      | (Ok text, w1) => (Ok text, w1)
      | (Throw error, w1) =>
          if negb (retryable error) then (Throw (Some error), w1)
          else if attempt =? maxRetries then (Throw (Some error), w1)
          else
            let backoffMs := Z.min (2 ^ attempt * 1000) 30000 in
            retry_loop k (attempt + 1) maxRetries (Some error) (sleep backoffMs w1)
      end
  end.

(** [callClaudeWithRetry(prompt, options, maxRetries)] *)
Definition callClaudeWithRetry (maxRetries : Z) (w : world)
  : result (option js_error) string * world :=
  retry_loop (Z.to_nat maxRetries) 1 maxRetries None w.

(** [callClaudeWithRateLimit(prompt, options)] *)
Definition callClaudeWithRateLimit (w : world)
  : result (option js_error) string * world :=
  callClaudeWithRetry 3 (acquire w).

End Call.

End ClaudeClient.

(** ** services/contentAnalysis.js *)

Module ContentAnalysis.

Import Runtime ClaudeClient.

(** [Object.keys(FRAMEWORKS)] *)
Definition framework_keys : list string := ["copywriting"; "process"; "technical"].

(** The names that every object inherits from [Object.prototype]; a
    lookup [FRAMEWORKS[k]] finds a truthy value under them too. *)
Definition prototype_keys : list string := Js.prototype_keys.

(** [!!FRAMEWORKS[contentType]] *)
Definition has_framework (contentType : string) : bool :=
  Store.mem contentType framework_keys || Store.mem contentType prototype_keys.

(** The time a cached result lives: 15 minutes. *)
Definition ttl : Z := 15 * 60 * 1000.

(** [error instanceof AnalysisError || error instanceof RateLimitError
    || error instanceof ServiceError] *)
Definition known_error (error : js_error) : bool :=
  match class error with
  | AnalysisError | RateLimitError | ServiceError => true
  | _ => false
  end.

Section Analyze.

Variable JSON_parse : string -> option Json.value.
Variable service : nat -> reply.

(** [crypto.createHash('md5').update(s).digest('hex')] *)
Variable md5_hex : string -> string.

(** [getCacheKey(content, contentType)] *)
Definition getCacheKey (content contentType : string) : string :=
  contentType ++ ":" ++ md5_hex (content ++ contentType).

(** The inner [try] block of [analyzeContent]: the call of the
    service, then parsing, validation and the cache write.  Its
    [catch] logs and throws the error again. *)
Definition analyze_uncached (content contentType cacheKey : string) (w : world)
  : result js_error analysis_result * world :=
  let startTime := w_now w in
  match callClaudeWithRateLimit service w with
  | (Throw None, w1) =>
      (Throw (plainError "Cannot read properties of undefined (reading 'message')"), w1)
  | (Throw (Some error), w1) => (Throw error, w1)
  | (Ok responseText, w1) =>
      let processingTime := (w_now w1 - startTime) # 1000 in
      match parseClaudeResponse JSON_parse responseText with
      | Throw error => (Throw error, w1)
      | Ok parsed =>
          match validateAnalysisResponse parsed with
          | Throw error => (Throw error, w1)
          | Ok validated =>
              let '(id, w2) := generateUUID w1 in
              let result :=
                {| analysisId := id;
                   contentType := contentType;
                   extractedData := Json.get "extractedData" validated;
                   confidence := Json.get "confidence" validated;
                   processingTime := processingTime;
                   notes :=
                     match Json.get "notes" validated with
                     | Some v => if Json.truthy v then v else Json.Str EmptyString
                     | None => Json.Str EmptyString
                     end;
                   timestamp := w_now w2 |} in
              (Ok result, cache_set cacheKey result ttl w2)
          end
      end
  end.

(** The outer [try] block of [analyzeContent]. *)
Definition analyzeContent_try (content contentType : string) (w : world)
  : result js_error analysis_result * world :=
  if negb (Js.truthy content) || (Js.len content <? 10) then
    (Throw (newAnalysisError "Content too short for analysis"), w)
  else if 50000 <? Js.len content then
    (Throw (newAnalysisError "Content too long (max 50,000 characters)"), w)
  else if negb (has_framework contentType) then
    (Throw (newAnalysisError
              ("Unknown content type: " ++ contentType
               ++ ". Supported types: copywriting, process, technical")), w)
  else
    let cacheKey := getCacheKey content contentType in
    match w_cache w !! cacheKey with
    | Some cached => (Ok cached, w)
    | None =>
        if negb (shouldAnalyzeContent content) then
          (Throw (newAnalysisError
                    "Content too large for analysis. Consider breaking it into smaller chunks."), w)
        else analyze_uncached content contentType cacheKey w
    end.

(** [analyzeContent(content, contentType)] *)
Definition analyzeContent (content contentType : string) (w : world)
  : result js_error analysis_result * world :=
  match analyzeContent_try content contentType w with
  | (Ok result, w') => (Ok result, w')
  | (Throw error, w') =>
      if known_error error then (Throw error, w')
      else (Throw (newAnalysisError ("Analysis failed: " ++ message error)), w')
  end.

End Analyze.

(** [isRetryableError(error)] *)
Definition isRetryableError (error : js_error) : bool :=
  existsb (Z.eqb (status error)) [429; 500; 502; 503; 504]
  || existsb (String.eqb (code error)) ["ETIMEDOUT"; "ECONNRESET"; "ENOTFOUND"]
  || retryable error.

(** [error instanceof AnalysisError] *)
Definition isAnalysisError (error : js_error) : bool :=
  match class error with
  | AnalysisError => true
  | _ => false
  end.

Section Retry.

Variable JSON_parse : string -> option Json.value.
Variable service : nat -> reply.
Variable md5_hex : string -> string.

(** The loop of [analyzeContentWithRetry], from [attempt] on;
    [remaining] is the number of attempts the loop condition still
    allows.  The error is [None] when [undefined] is thrown. *)
Fixpoint retry_analysis (remaining : nat) (attempt maxRetries : Z)
    (lastError : option js_error) (content contentType : string) (w : world)
  : result (option js_error) analysis_result * world :=
  match remaining with
  | O => (Throw lastError, w)
  | S k =>
      match analyzeContent JSON_parse service md5_hex content contentType w with
      | (Ok result, w1) => (Ok result, w1)
      | (Throw error, w1) =>
          if isAnalysisError error && negb (retryable error) then
            (Throw (Some error), w1)
          else if (attempt <? maxRetries) && isRetryableError error then
            let backoffMs := 2 ^ attempt * 1000 in
            retry_analysis k (attempt + 1) maxRetries (Some error) content contentType
              (sleep backoffMs w1)
          else
            retry_analysis k (attempt + 1) maxRetries (Some error) content contentType w1
      end
  end.

(** [analyzeContentWithRetry(content, contentType, maxRetries)] *)
Definition analyzeContentWithRetry (content contentType : string) (maxRetries : Z)
    (w : world) : result (option js_error) analysis_result * world :=
  retry_analysis (Z.to_nat maxRetries) 1 maxRetries None content contentType w.

End Retry.

(** *** The quality of an analysis *)

(** The doubles 0.7 and 0.8. *)
Definition seven_tenths : Q := 3152519739159347 # 4503599627370496.
Definition eight_tenths : Q := 3602879701896397 # 4503599627370496.

(** What [validateAnalysisQuality] returns; [packageSize] has no
    counterpart here. *)
Record quality : Type := {
  isValid : bool;
  issues : list string;
  requiresReview : bool
}.

(** [value === null || value === '' || (Array.isArray(value) &&
    value.length === 0)] *)
Definition is_empty_field (value : Json.value) : bool :=
  match value with
  | Json.Null => true
  | Json.Str s => String.eqb s EmptyString
  | Json.Arr [] => true
  | _ => false
  end.

(** [!extractedData.core?.[k]] *)
Definition core_missing (k : string) (extractedData : Json.value) : bool :=
  match Json.get "core" extractedData with
  | None | Some Json.Null => true
  | Some core => negb (Json.truthy_opt (Json.get k core))
  end.

Section Quality.

(** The conversion to a number that [<] applies to a string, an array
    or an object; [None] is NaN, and the conversion of an object may
    throw. *)
Variable ToNumber : Json.value -> result js_error (option Json.number).

(** [v < q] for a property [v] that may be undefined. *)
Definition less_than (v : option Json.value) (q : Q) : result js_error bool :=
  match v with
  | None => Ok false
  | Some (Json.Num n) => Ok (Json.lt n q)
  | Some Json.Null => Ok (Json.lt (Json.Fin 0) q)
  | Some (Json.Bool b) => Ok (Json.lt (Json.Fin (if b then 1 else 0)) q)
  | Some other =>
      match ToNumber other with
      | Ok (Some n) => Ok (Json.lt n q)
      | Ok None => Ok false
      | Throw e => Throw e
      end
  end.

(** [validateAnalysisQuality(analysisResult)] *)
Definition validateAnalysisQuality (analysisResult : analysis_result)
  : result js_error quality :=
  match less_than (confidence analysisResult) seven_tenths with
  | Throw e => Throw e
  | Ok low =>
  let issues1 := if low then ["Low confidence analysis - may need review"] else [] in
  match extractedData analysisResult with
  | None =>
      if String.eqb (Runtime.contentType analysisResult) "copywriting"
      then Throw (plainError "Cannot read properties of undefined (reading 'core')")
      else Throw (plainError "Cannot convert undefined or null to object")
  | Some Json.Null =>
      if String.eqb (Runtime.contentType analysisResult) "copywriting"
      then Throw (plainError "Cannot read properties of null (reading 'core')")
      else Throw (plainError "Cannot convert undefined or null to object")
  | Some extractedData =>
  let issues2 :=
    if String.eqb (Runtime.contentType analysisResult) "copywriting" then
      ((if core_missing "bigIdea" extractedData
        then ["Missing big idea - core concept not identified"] else [])
       ++ (if core_missing "hook" extractedData
           then ["Missing hook - attention-grabbing element not found"] else []))%list
    else [] in
  let emptyFields := List.filter is_empty_field (Json.own_values extractedData) in
  let issues3 :=
    if Z.of_nat (length (Json.own_values extractedData)) <? 2 * Z.of_nat (length emptyFields)
    then ["More than 50% of fields are empty - content may not match expected type"]
    else [] in
  let issues := (issues1 ++ issues2 ++ issues3)%list in
  match (if negb (Nat.eqb (length issues) 0) then Ok true
         else less_than (confidence analysisResult) eight_tenths) with
  | Throw e => Throw e
  | Ok review =>
      Ok {| isValid := Nat.eqb (length issues) 0;
            issues := issues;
            requiresReview := review |}
  end
  end
  end.

End Quality.

(** *** What a completed analysis looks like *)

(** The result carries a content type that has a framework, extracted
    data that are truthy and a confidence in [0,1]. *)
Definition validated (r : analysis_result) : Prop :=
  has_framework (Runtime.contentType r) = true
  /\ Json.truthy_opt (extractedData r) = true
  /\ exists q, confidence r = Some (Json.Num (Json.Fin q)) /\ (0 <= q <= 1)%Q.

(** Every cached result is such a result, filed under a key that
    starts with its own content type. *)
Definition cache_validated (w : world) : Prop :=
  forall k r, w_cache w !! k = Some r ->
    validated r /\ exists digest, k = Runtime.contentType r ++ ":" ++ digest.

(** *** A process that serves one analysis after the other *)

Inductive event : Type :=
| Analyze (content contentType : string)   (* a call of analyzeContent, awaited *)
| Wait (ms : Z).                           (* time that passes between two calls *)

Section Replay.

Variable JSON_parse : string -> option Json.value.
Variable service : nat -> reply.
Variable md5_hex : string -> string.

Definition step (w : world) (e : event) : world :=
  match e with
  | Analyze content contentType =>
      snd (analyzeContent JSON_parse service md5_hex content contentType w)
  | Wait ms => advance ms w
  end.

Definition replay (events : list event) (w : world) : world :=
  fold_left step events w.

End Replay.

(** The result [r] is cached under [key] as long as the time [t] has
    not come, when the timer of the entry is due. *)
Definition cached_until (key : string) (r : analysis_result) (t : Z) (w : world)
  : Prop :=
  w_now w < t -> w_cache w !! key = Some r /\ In (t, key) (w_timers w).

(** Every cached result has a timer that will delete it within the
    time to live. *)
Definition cache_expires (w : world) : Prop :=
  forall k r, w_cache w !! k = Some r ->
    exists t, In (t, k) (w_timers w) /\ w_now w < t <= w_now w + ttl.

End ContentAnalysis.

(** ** api/analyze.js *)

Module AnalyzeApi.

Import Runtime ClaudeClient.

(** The body of POST /analyze: two strings. *)
Record analyze_request : Type := {
  content : string;
  contentType : string
}.

(** [AnalyzeRequestSchema.parse(req.body)]; [None] is the ZodError. *)
Definition AnalyzeRequestSchema (body : analyze_request) : option analyze_request :=
  if (10 <=? Js.len (content body)) && (Js.len (content body) <=? 50000)
     && Store.mem (contentType body) ["copywriting"; "process"; "technical"]
  then Some body else None.

Inductive payload : Type :=
| Analysis (result : analysis_result)
| ValidationFailed                                   (* 'Validation failed' *)
| RateLimited (retryAfter : retry_after) (message : string)
| Failed (error message : string) (retryable : bool).

Record response : Type := {
  status : Z;
  body : payload
}.

Section Route.

Variable JSON_parse : string -> option Json.value.
Variable service : nat -> reply.
Variable md5_hex : string -> string.

(** POST /api/analyze *)
Definition post_analyze (req : analyze_request) (w : world) : response * world :=
  match AnalyzeRequestSchema req with
  | None => ({| status := 400; body := ValidationFailed |}, w)
  | Some validatedData =>
      match ContentAnalysis.analyzeContent JSON_parse service md5_hex
              (content validatedData) (contentType validatedData) w with
      | (Ok analysis, w') => ({| status := 200; body := Analysis analysis |}, w')
      | (Throw error, w') =>
          if String.eqb (code error) "RATE_LIMIT" then
            ({| status := 429;
                body := RateLimited
                          (match retryAfter error with
                           | Some r => if retry_truthy r then r else Seconds 60
                           | None => Seconds 60
                           end) (message error) |}, w')
          else if String.eqb (code error) "ANALYSIS_ERROR" then
            ({| status := 400;
                body := Failed "Analysis failed" (message error) false |}, w')
          else
            ({| status := 500;
                body := Failed "Analysis failed" (message error) (retryable error) |}, w')
      end
  end.

End Route.

End AnalyzeApi.

(** ** JSON.parse on texts of code units 0..255

    A reference implementation of the built-in, used to run the model on
    concrete responses.  A [\u] escape above 00FF leaves the fragment of
    strings modelled here and is refused.  The order in which JavaScript
    lists integer-like keys is not reproduced; the code only looks
    properties up. *)

Module JsonText.

Definition is_ws (c : ascii) : bool :=
  (Js.code c =? 32) || (Js.code c =? 9) || (Js.code c =? 10) || (Js.code c =? 13).

Fixpoint skip_ws (l : list ascii) : list ascii :=
  match l with
  | c :: r => if is_ws c then skip_ws r else l
  | [] => []
  end.

Definition digit (c : ascii) : option Z :=
  if Js.between 48 57 c then Some (Js.code c - 48) else None.

Definition hex (c : ascii) : option Z :=
  if Js.between 48 57 c then Some (Js.code c - 48)
  else if Js.between 97 102 c then Some (Js.code c - 87)
  else if Js.between 65 70 c then Some (Js.code c - 55)
  else None.

(** The longest run of digits at the head of [l]: its value after
    [acc], how many digits it has, and the rest. *)
Fixpoint digits (l : list ascii) (acc count : Z) : Z * Z * list ascii :=
  match l with
  | c :: r =>
      match digit c with
      | Some v => digits r (10 * acc + v) (count + 1)
      | None => (acc, count, l)
      end
  | [] => (acc, count, [])
  end.

(** *** Decimal to double

    [round_ratio n d] is the integer nearest to [n/d], ties to even. *)
Definition round_ratio (n d : Z) : Z :=
  let q := n / d in
  let r := n mod d in
  match 2 * r ?= d with
  | Lt => q
  | Gt => q + 1
  | Eq => if Z.even q then q else q + 1
  end.

(** The double nearest to [n/d], for [0 < n] and [0 < d]. *)
Definition nearest_double (n d : Z) : Json.number :=
  let e0 := Z.log2 n - Z.log2 d in
  let below := if 0 <=? e0 then n <? d * 2 ^ e0 else n * 2 ^ (- e0) <? d in
  let e := if below then e0 - 1 else e0 in
  let p := Z.max (e - 52) (-1074) in
  let m := if 0 <=? p then round_ratio n (d * 2 ^ p) else round_ratio (n * 2 ^ (- p)) d in
  if (971 <=? p) && (2 ^ 53 <=? m * 2 ^ (p - 971)) then Json.PosInf
  else if 0 <=? p then Json.Fin (inject_Z (m * 2 ^ p))
  else Json.Fin (Qred (Qmake m (Z.to_pos (2 ^ (- p))))).

(** The number with decimal digits [mantissa], scaled by [10^exponent]. *)
Definition decimal (negative : bool) (mantissa exponent : Z) : Json.number :=
  if mantissa =? 0 then Json.Fin 0
  else
    let n :=
      if 0 <=? exponent
      then nearest_double (mantissa * 10 ^ exponent) 1
      else nearest_double mantissa (10 ^ (- exponent)) in
    if negative then
      match n with
      | Json.Fin q => Json.Fin (Qopp q)
      | Json.PosInf => Json.NegInf
      | Json.NegInf => Json.PosInf
      end
    else n.

Definition is_char (n : Z) (c : ascii) : bool := Js.code c =? n.

Local Open Scope char_scope.

(** A JSON number at the head of [l]. *)
Definition parse_number (l : list ascii) : option (Json.number * list ascii) :=
  let '(negative, l1) :=
    match l with
    | "-" :: r => (true, r)
    | _ => (false, l)
    end in
  let int_part :=
    match l1 with
    | "0" :: r => Some (0%Z, r)
    | c :: _ =>
        match digit c with
        | Some _ => let '(v, _, r) := digits l1 0%Z 0%Z in Some (v, r)
        | None => None
        end
    | [] => None
    end in
  match int_part with
  | None => None
  | Some (i, l2) =>
      let frac_part :=
        match l2 with
        | "." :: r =>
            let '(v, count, r') := digits r i 0%Z in
            if (count =? 0)%Z then None else Some (v, count, r')
        | _ => Some (i, 0%Z, l2)
        end in
      match frac_part with
      | None => None
      | Some (mantissa, scale, l3) =>
          let exp_part :=
            match l3 with
            | c :: r =>
                if is_char 101 c || is_char 69 c then
                  let '(minus, r1) :=
                    match r with
                    | "-" :: r' => (true, r')
                    | "+" :: r' => (false, r')
                    | _ => (false, r)
                    end in
                  let '(v, count, r2) := digits r1 0%Z 0%Z in
                  if (count =? 0)%Z then None
                  else Some (if minus then (- v)%Z else v, r2)
                else Some (0%Z, l3)
            | [] => Some (0%Z, l3)
            end in
          match exp_part with
          | None => None
          | Some (exponent, l4) =>
              Some (decimal negative mantissa (exponent - scale)%Z, l4)
          end
      end
  end.

(** The rest of a JSON string after its opening quote: the characters
    up to the closing quote, with the escapes decoded. *)
Fixpoint parse_string (l : list ascii) (acc : list ascii)
  : option (string * list ascii) :=
  match l with
  | [] => None
  | c :: r =>
      if is_char 34 c then Some (Js.str (rev acc), r)
      else if is_char 92 c then
        match r with
        | "034" :: r' => parse_string r' ("034" :: acc)
        | "\" :: r' => parse_string r' ("\" :: acc)
        | "/" :: r' => parse_string r' ("/" :: acc)
        | "b" :: r' => parse_string r' ("008" :: acc)
        | "f" :: r' => parse_string r' ("012" :: acc)
        | "n" :: r' => parse_string r' ("010" :: acc)
        | "r" :: r' => parse_string r' ("013" :: acc)
        | "t" :: r' => parse_string r' ("009" :: acc)
        | "u" :: h1 :: h2 :: h3 :: h4 :: r' =>
            match hex h1, hex h2, hex h3, hex h4 with
            | Some a, Some b, Some c', Some d =>
                if ((a =? 0) && (b =? 0))%Z
                then parse_string r' (Js.chr (16 * c' + d)%Z :: acc)
                else None
            | _, _, _, _ => None
            end
        | _ => None
        end
      else if (Js.code c <? 32)%Z then None
      else parse_string r (c :: acc)
  end.

(** A JSON value at the head of [l], after white space. *)
Fixpoint parse_value (fuel : nat) (l : list ascii)
  : option (Json.value * list ascii) :=
  match fuel with
  | O => None
  | S k =>
      match skip_ws l with
      | [] => None
      | "{" :: r =>
          match skip_ws r with
          | "}" :: r' => Some (Json.Obj [], r')
          | _ => parse_members k r []
          end
      | "[" :: r =>
          match skip_ws r with
          | "]" :: r' => Some (Json.Arr [], r')
          | _ => parse_elements k r []
          end
      | "034" :: r =>
          match parse_string r [] with
          | Some (s, r') => Some (Json.Str s, r')
          | None => None
          end
      | "t" :: "r" :: "u" :: "e" :: r => Some (Json.Bool true, r)
      | "f" :: "a" :: "l" :: "s" :: "e" :: r => Some (Json.Bool false, r)
      | "n" :: "u" :: "l" :: "l" :: r => Some (Json.Null, r)
      | other =>
          match parse_number other with
          | Some (n, r) => Some (Json.Num n, r)
          | None => None
          end
      end
  end
with parse_elements (fuel : nat) (l : list ascii) (acc : list Json.value)
  : option (Json.value * list ascii) :=
  match fuel with
  | O => None
  | S k =>
      match parse_value k l with
      | None => None
      | Some (v, r) =>
          match skip_ws r with
          | "," :: r' => parse_elements k r' (v :: acc)
          | "]" :: r' => Some (Json.Arr (rev (v :: acc)), r')
          | _ => None
          end
      end
  end
with parse_members (fuel : nat) (l : list ascii) (acc : list (string * Json.value))
  : option (Json.value * list ascii) :=
  match fuel with
  | O => None
  | S k =>
      match skip_ws l with
      | "034" :: r =>
          match parse_string r [] with
          | None => None
          | Some (key, r1) =>
              match skip_ws r1 with
              | ":" :: r2 =>
                  match parse_value k r2 with
                  | None => None
                  | Some (v, r3) =>
                      match skip_ws r3 with
                      | "," :: r4 => parse_members k r4 (Json.assoc_set key v acc)
                      | "}" :: r4 => Some (Json.Obj (Json.assoc_set key v acc), r4)
                      | _ => None
                      end
                  end
              | _ => None
              end
          end
      | _ => None
      end
  end.

(** [JSON.parse(text)]; [None] is the SyntaxError. *)
Definition JSON_parse (text : string) : option Json.value :=
  let l := Js.chars text in
  match parse_value (S (length l)) l with
  | Some (v, r) =>
      match skip_ws r with
      | [] => Some v
      | _ => None
      end
  | None => None
  end.

End JsonText.

(** ** MD5 (RFC 1321), as [crypto.createHash('md5')] computes it

    A reference implementation of the built-in, used to run the model on
    concrete contents. *)

Module Md5.

Definition mask (x : Z) : Z := Z.land x 4294967295.
Definition add32 (x y : Z) : Z := mask (x + y).
Definition not32 (x : Z) : Z := Z.lxor x 4294967295.
Definition rotl (x n : Z) : Z :=
  mask (Z.lor (Z.shiftl x n) (Z.shiftr x (32 - n))).

(** The bytes of a string in UTF-8, for code units 0..255. *)
Definition utf8 (s : string) : list Z :=
  flat_map (fun c => let n := Js.code c in
                     if n <? 128 then [n]
                     else [192 + Z.shiftr n 6; 128 + Z.land n 63])
           (Js.chars s).

(** The [n] low bytes of [x], least significant first. *)
Fixpoint le_bytes (n : nat) (x : Z) : list Z :=
  match n with
  | O => []
  | S k => Z.land x 255 :: le_bytes k (Z.shiftr x 8)
  end.

(** The message followed by the bit 1, zeros up to 56 modulo 64 bytes,
    and the length in bits on 8 bytes. *)
Definition pad (msg : list Z) : list Z :=
  let len := Z.of_nat (length msg) in
  let zeros := Z.to_nat ((55 - len) mod 64) in
  msg ++ [128] ++ repeat 0 zeros ++ le_bytes 8 (8 * len).

Fixpoint words (n : nat) (bytes : list Z) : list Z :=
  match n with
  | O => []
  | S k =>
      match bytes with
      | b0 :: b1 :: b2 :: b3 :: r =>
          (b0 + Z.shiftl b1 8 + Z.shiftl b2 16 + Z.shiftl b3 24) :: words k r
      | _ => []
      end
  end.

Definition shifts : list Z :=
  [7; 12; 17; 22; 7; 12; 17; 22; 7; 12; 17; 22; 7; 12; 17; 22;
   5; 9; 14; 20; 5; 9; 14; 20; 5; 9; 14; 20; 5; 9; 14; 20;
   4; 11; 16; 23; 4; 11; 16; 23; 4; 11; 16; 23; 4; 11; 16; 23;
   6; 10; 15; 21; 6; 10; 15; 21; 6; 10; 15; 21; 6; 10; 15; 21].

(** [floor(2^32 * abs(sin(i + 1)))] for i = 0..63 *)
Definition sines : list Z :=
    [3614090360; 3905402710; 606105819; 3250441966;
     4118548399; 1200080426; 2821735955; 4249261313;
     1770035416; 2336552879; 4294925233; 2304563134;
     1804603682; 4254626195; 2792965006; 1236535329;
     4129170786; 3225465664; 643717713; 3921069994;
     3593408605; 38016083; 3634488961; 3889429448;
     568446438; 3275163606; 4107603335; 1163531501;
     2850285829; 4243563512; 1735328473; 2368359562;
     4294588738; 2272392833; 1839030562; 4259657740;
     2763975236; 1272893353; 4139469664; 3200236656;
     681279174; 3936430074; 3572445317; 76029189;
     3654602809; 3873151461; 530742520; 3299628645;
     4096336452; 1126891415; 2878612391; 4237533241;
     1700485571; 2399980690; 4293915773; 2240044497;
     1873313359; 4264355552; 2734768916; 1309151649;
     4149444226; 3174756917; 718787259; 3951481745].

Record state : Type := { sa : Z; sb : Z; sc : Z; sd : Z }.

Definition init : state :=
  {| sa := 1732584193; sb := 4023233417; sc := 2562383102; sd := 271733878 |}.

Definition step (m : list Z) (st : state) (i : Z) : state :=
  let '(f, g) :=
    if i <? 16 then
      (Z.lor (Z.land (sb st) (sc st)) (Z.land (not32 (sb st)) (sd st)), i)
    else if i <? 32 then
      (Z.lor (Z.land (sd st) (sb st)) (Z.land (not32 (sd st)) (sc st)), (5 * i + 1) mod 16)
    else if i <? 48 then
      (Z.lxor (sb st) (Z.lxor (sc st) (sd st)), (3 * i + 5) mod 16)
    else
      (Z.lxor (sc st) (Z.lor (sb st) (not32 (sd st))), (7 * i) mod 16) in
  let k := nth (Z.to_nat i) sines 0 in
  let s := nth (Z.to_nat i) shifts 0 in
  let w := nth (Z.to_nat g) m 0 in
  let f' := add32 (add32 (add32 f (sa st)) k) w in
  {| sa := sd st; sd := sc st; sc := sb st; sb := add32 (sb st) (rotl f' s) |}.

Definition block (st : state) (m : list Z) : state :=
  let r := fold_left (step m) (map Z.of_nat (seq 0 64)) st in
  {| sa := add32 (sa st) (sa r); sb := add32 (sb st) (sb r);
     sc := add32 (sc st) (sc r); sd := add32 (sd st) (sd r) |}.

Fixpoint blocks (n : nat) (bytes : list Z) (st : state) : state :=
  match n with
  | O => st
  | S k => blocks k (skipn 64 bytes) (block st (words 16 bytes))
  end.

Definition digest (msg : list Z) : list Z :=
  let bytes := pad msg in
  let st := blocks (Nat.div (length bytes) 64) bytes init in
  le_bytes 4 (sa st) ++ le_bytes 4 (sb st) ++ le_bytes 4 (sc st) ++ le_bytes 4 (sd st).

Definition hex_digit (n : Z) : ascii :=
  if n <? 10 then Js.chr (48 + n) else Js.chr (87 + n).

(** [crypto.createHash('md5').update(s).digest('hex')] *)
Definition md5_hex (s : string) : string :=
  Js.str (flat_map (fun b => [hex_digit (Z.shiftr b 4); hex_digit (Z.land b 15)])
                   (digest (utf8 s))).

End Md5.

(** ** server.js: the origins that CORS lets in *)

Module Server.

(** The two variables of [process.env] that the check reads. *)
Record env : Type := {
  NODE_ENV : option string;
  FRONTEND_URL : option string
}.

Definition allowedOrigins (e : env) : list string :=
  if match NODE_ENV e with Some v => String.eqb v "production" | None => false end
  then
    ((if Js.truthy_opt (FRONTEND_URL e)
      then match FRONTEND_URL e with Some u => [u] | None => [] end
      else [])
     ++ ["https://frontend-khaki-six-59.vercel.app";
         "https://frontend-ec4x3btwv-sperry-entelechs-projects.vercel.app";
         "https://claude-skills-factory.vercel.app"])%list
  else ["http://localhost:5173"; "http://localhost:3000"].

(** [corsOptions.origin(origin, callback)]: [Ok true] is
    [callback(null, true)], and the error is the one given to the
    callback.  The origin is undefined when the request has no Origin
    header. *)
Definition origin (e : env) (origin : option string) : result string bool :=
  if negb (Js.truthy_opt origin) then Ok true
  else
    let o := match origin with Some o => o | None => EmptyString end in
    let isVercelFrontend :=
      Store.mem o (allowedOrigins e)
      || Js.includes ".vercel.app" o
      || (Js.includes "sperry-entelechs-projects" o && Js.includes ".vercel.app" o) in
    if isVercelFrontend || existsb (fun allowed => Js.startsWith allowed o) (allowedOrigins e)
    then Ok true
    else Throw "Not allowed by CORS".

End Server.

(** ** Sample data for running the model *)

Module Samples.

Import Store SkillGeneration.

(** A stand-in for the template renderer. *)
Definition Handlebars (skillType : string) (t : template) (data : template_data)
  : string :=
  match t with
  | skillMd => "# " ++ t_skillName data ++ " skill"
  | practicesMd => "# Practices"
  | structureMd => "# Structure"
  | examplesMd => "# Examples"
  end.

Definition generateDescription (a : analysis_data) (skillType : string) : string :=
  "Claude skill for " ++ skillType ++ " tasks".

Definition analysis : analysis_data :=
  {| a_analysisId := "1b4e28ba-2fa1-41d2-883f-0016d3cca427";
     a_contentType := "process";
     a_extractedData := Some (Json.Obj [("workflow", Json.Null)]);
     a_timestamp := "2025-01-01 00:00:00";
     a_confidence := 9 # 10 |}.

Definition rename (n : string) : SkillsApi.update_request :=
  {| SkillsApi.name := Some n; SkillsApi.description := None;
     SkillsApi.mainContent := None; SkillsApi.references := None;
     SkillsApi.tags := None |}.

(** The body [{}] and the body [{ mainContent: '' }]. *)
Definition no_fields : SkillsApi.update_request :=
  {| SkillsApi.name := None; SkillsApi.description := None;
     SkillsApi.mainContent := None; SkillsApi.references := None;
     SkillsApi.tags := None |}.

Definition empty_main_document : SkillsApi.update_request :=
  {| SkillsApi.name := None; SkillsApi.description := None;
     SkillsApi.mainContent := Some EmptyString; SkillsApi.references := None;
     SkillsApi.tags := None |}.

Definition describe (s : string) : SkillsApi.update_request :=
  {| SkillsApi.name := None; SkillsApi.description := Some s;
     SkillsApi.mainContent := None; SkillsApi.references := None;
     SkillsApi.tags := None |}.

(** One skill is generated and then updated twice. *)
Definition create : Lifecycle.op :=
  Lifecycle.Generate (Some analysis) "My Skill!!" "process" None None 1000.

Definition two_updates : list Lifecycle.op :=
  [create;
   Lifecycle.Put (Some 1) (describe "first") 2000;
   Lifecycle.Put (Some 1) (describe "second") 3000].

Definition run (ops : list Lifecycle.op) : db :=
  Lifecycle.run Handlebars generateDescription ops (empty true).

(** The store with the one generated skill. *)
Definition created : db := run [create].

Definition created_row : skill :=
  {| sk_id := 1; sk_name := "my-skill";
     sk_description := "Claude skill for process tasks";
     sk_type := "process"; sk_version := 1;
     sk_main_content := "# my-skill skill";
     sk_references := [("practices.md", "# Practices");
                       ("structure.md", "# Structure");
                       ("examples.md", "# Examples")];
     sk_metadata :=
       {| md_tags := []; md_fileCount := 4; md_totalSize := 48;
          md_extractedFrom :=
            {| ef_analysisId := "1b4e28ba-2fa1-41d2-883f-0016d3cca427";
               ef_contentType := "process";
               ef_analysisDate := "2025-01-01 00:00:00";
               ef_confidence := 9 # 10 |};
          md_github := None |};
     sk_created_at := 1000; sk_updated_at := 1000 |}.

Definition set_row (s : skill) (version : Z) (description : string) (updated : Z)
  : skill :=
  {| sk_id := sk_id s; sk_name := sk_name s; sk_description := description;
     sk_type := sk_type s; sk_version := version;
     sk_main_content := sk_main_content s; sk_references := sk_references s;
     sk_metadata := sk_metadata s; sk_created_at := sk_created_at s;
     sk_updated_at := updated |}.

(** An update that replaces the main document by 120 characters. *)
Definition rewrite_main : SkillsApi.update_request :=
  {| SkillsApi.name := None; SkillsApi.description := None;
     SkillsApi.mainContent := Some (Js.str (repeat "#"%char 120));
     SkillsApi.references := None; SkillsApi.tags := None |}.

(** The store with a second generated skill. *)
Definition create_second : Lifecycle.op :=
  Lifecycle.Generate (Some analysis) "Second skill" "process" None None 5000.

Definition two_skills : db := run [create; create_second].

(** The store after an update of skill 1 that carries an empty
    description. *)
Definition after_empty_description : db :=
  snd (SkillsApi.put_skill (Some 1) (describe EmptyString) 2000 created).

(** *** Answers of the external service *)

Import ClaudeClient.

Definition quoted (s : string) : string :=
  String "034"%char s ++ String "034"%char EmptyString.

(** The service rejects the call with HTTP 429 after 100 ms. *)
Definition rate_limited (header : option string) : reply :=
  {| latency := 100;
     outcome := Throw {| sdk_status := Some 429; sdk_retry_after := header;
                         sdk_code := None; sdk_message := "Too Many Requests" |} |}.

(** The service answers with [text] after 2 s. *)
Definition answers (text : string) : reply :=
  {| latency := 2000; outcome := Ok text |}.

(** A well-formed analysis of a process with an empty workflow. *)
Definition good_response : string :=
  "{" ++ quoted "extractedData" ++ ": {" ++ quoted "workflow" ++ ": {"
      ++ quoted "steps" ++ ": []}}, " ++ quoted "confidence" ++ ": 0.75, "
      ++ quoted "notes" ++ ": " ++ quoted "empty workflow" ++ "}".

Definition good_value : Json.value :=
  Json.Obj [("extractedData",
             Json.Obj [("workflow", Json.Obj [("steps", Json.Arr [])])]);
            ("confidence", Json.Num (Json.Fin (3 # 4)));
            ("notes", Json.Str "empty workflow")].

(** Three rejections, then a good answer to the fourth call. *)
Definition rejects_three_times (n : nat) : reply :=
  match n with
  | 0%nat => rate_limited (Some "10")
  | 1%nat => rate_limited (Some "20")
  | 2%nat => rate_limited (Some "30")
  | _ => answers good_response
  end.

(** Two rejections, then a good answer to the third call. *)
Definition rejects_twice (n : nat) : reply :=
  match n with
  | 0%nat => rate_limited (Some "10")
  | 1%nat => rate_limited None
  | _ => answers good_response
  end.

(** One rejection, then good answers. *)
Definition rejects_once (n : nat) : reply :=
  match n with
  | 0%nat => rate_limited None
  | _ => answers good_response
  end.



(** Every call is rejected. *)
Definition rejects_always (n : nat) : reply :=
  rate_limited (Some (NilZero.string_of_int (Z.to_int (10 * Z.of_nat (S n))))).

(** An answer that is no JSON, then a good answer. *)
Definition garbled_once (n : nat) : reply :=
  match n with
  | 0%nat => answers "I could not analyze this."
  | _ => answers good_response
  end.

Definition always_good (n : nat) : reply := answers good_response.

Definition analyze (service : nat -> reply) (content contentType : string)
    (w : Runtime.world) :=
  ContentAnalysis.analyzeContent JsonText.JSON_parse service Md5.md5_hex
    content contentType w.

(** *** Two analyses of the same content *)

Definition content : string := "How we onboard a new customer, step by step.".

(** The process after a first analysis that the service answers well. *)
Definition after_first : Runtime.world :=
  snd (analyze always_good content "process" Runtime.initial).

Definition first_result : Runtime.analysis_result :=
  {| Runtime.analysisId := 0;
     Runtime.contentType := "process";
     Runtime.extractedData :=
       Some (Json.Obj [("workflow", Json.Obj [("steps", Json.Arr [])])]);
     Runtime.confidence := Some (Json.Num (Json.Fin (3 # 4)));
     Runtime.processingTime := 2000 # 1000;
     Runtime.notes := Json.Str "empty workflow";
     Runtime.timestamp := 2000 |}.

(** The process after a first analysis that needed a second attempt. *)
Definition after_retry : Runtime.world :=
  snd (analyze rejects_once content "process" Runtime.initial).

(** The process after a first analysis whose answer is no JSON. *)
Definition after_garbled : Runtime.world :=
  snd (analyze garbled_once content "process" Runtime.initial).

(** The service refuses the API key (HTTP 401) after 100 ms. *)
Definition unauthorized : reply :=
  {| latency := 100;
     outcome := Throw {| sdk_status := Some 401; sdk_retry_after := None;
                         sdk_code := None; sdk_message := "invalid x-api-key" |} |}.

Definition always_unauthorized (n : nat) : reply := unauthorized.

(** The service fails with HTTP 503 after 100 ms, every time. *)
Definition always_unavailable (n : nat) : reply :=
  {| latency := 100;
     outcome := Throw {| sdk_status := Some 503; sdk_retry_after := None;
                         sdk_code := None; sdk_message := "Service Unavailable" |} |}.


End Samples.

(** * Properties *)

Example formatSkillName_example :
  SkillName.formatSkillName "  Hello,   World -- 42 " = "hello-world-42".
Proof. reflexivity. Qed.

(** ** Skill-name normalization *)

Section SkillNameFacts.
Import SkillName.

Lemma chars_str l : Js.chars (Js.str l) = l.
Proof. apply list_ascii_of_string_of_list_ascii. Qed.

Lemma str_chars s : Js.str (Js.chars s) = s.
Proof. apply string_of_list_ascii_of_string. Qed.

Lemma code_inj c d : Js.code c = Js.code d -> c = d.
Proof.
  unfold Js.code. intros H. apply N2Z.inj in H.
  rewrite <- (ascii_N_embedding c), <- (ascii_N_embedding d). now rewrite H.
Qed.

Lemma is_hyphen_eq c : is_hyphen c = true -> c = hyphen.
Proof. unfold is_hyphen. intros H. apply Z.eqb_eq in H. now apply code_inj. Qed.

Lemma alnum_not_hyphen c : is_alnum c = true -> is_hyphen c = false.
Proof.
  unfold is_alnum, is_hyphen, Js.between. generalize (Js.code c). intros z H.
  apply Z.eqb_neq. lia.
Qed.

Lemma slug_char_lower c :
  is_alnum c || is_hyphen c = true -> Js.lower_char c = c.
Proof.
  unfold is_alnum, is_hyphen, Js.lower_char, Js.between.
  generalize (Js.code c). intros z H.
  replace ((65 <=? z) && (z <=? 90) || (192 <=? z) && (z <=? 222) && negb (z =? 215))
    with false; [reflexivity | lia].
Qed.

Lemma slug_char_not_space c :
  is_alnum c || is_hyphen c = true -> Js.is_space c = false.
Proof.
  unfold is_alnum, is_hyphen, Js.is_space, Js.between.
  generalize (Js.code c). intros z H. lia.
Qed.

(** Lists on which the dropping functions do nothing. *)
Lemma dropWhile_none {A} (p : A -> bool) l :
  forallb (fun x => negb (p x)) l = true -> Js.dropWhile p l = l.
Proof.
  destruct l as [|x r]; simpl; [reflexivity|].
  intros H. apply andb_prop in H as [Hx _].
  apply negb_true_iff in Hx. now rewrite Hx.
Qed.

Lemma dropWhileEnd_none {A} (p : A -> bool) l :
  forallb (fun x => negb (p x)) l = true -> Js.dropWhileEnd p l = l.
Proof.
  induction l as [|x r IH]; simpl; [reflexivity|].
  intros H. apply andb_prop in H as [Hx Hr].
  apply negb_true_iff in Hx. rewrite (IH Hr), Hx. now destruct r.
Qed.

Lemma slug_chars_no_space l :
  forallb (fun c => is_alnum c || is_hyphen c) l = true ->
  forallb (fun c => negb (Js.is_space c)) l = true.
Proof.
  induction l as [|c r IH]; simpl; [reflexivity|].
  intros H. apply andb_prop in H as [Hc Hr].
  now rewrite (slug_char_not_space c Hc), (IH Hr).
Qed.

Lemma slug_chars_lower l :
  forallb (fun c => is_alnum c || is_hyphen c) l = true ->
  map Js.lower_char l = l.
Proof.
  induction l as [|c r IH]; simpl; [reflexivity|].
  intros H. apply andb_prop in H as [Hc Hr].
  now rewrite (slug_char_lower c Hc), (IH Hr).
Qed.

Lemma single_hyphens_chars prev l :
  single_hyphens prev l = true ->
  forallb (fun c => is_alnum c || is_hyphen c) l = true.
Proof.
  revert prev. induction l as [|c r IH]; simpl; intros prev H; [reflexivity|].
  destruct (is_alnum c) eqn:Ha; simpl.
  - eauto.
  - apply andb_prop in H as [H Hr]. apply andb_prop in H as [Hh _].
    rewrite Hh. eauto.
Qed.

(** What [replace_runs] produces, and what it leaves alone. *)
Lemma replace_runs_single prev l :
  single_hyphens prev (replace_runs prev l) = true.
Proof.
  revert prev. induction l as [|c r IH]; intros prev; simpl; [reflexivity|].
  destruct (is_alnum c) eqn:Ha.
  - simpl. rewrite Ha. apply IH.
  - destruct prev; [apply IH|].
    simpl. replace (is_alnum hyphen) with false by reflexivity.
    simpl. apply IH.
Qed.

Lemma replace_runs_fixed prev l :
  single_hyphens prev l = true -> replace_runs prev l = l.
Proof.
  revert prev. induction l as [|c r IH]; intros prev; simpl; [reflexivity|].
  destruct (is_alnum c) eqn:Ha.
  - intros H. now rewrite (IH _ H).
  - intros H. apply andb_prop in H as [H Hr]. apply andb_prop in H as [Hh Hp].
    apply negb_true_iff in Hp. subst prev.
    now rewrite (IH _ Hr), (is_hyphen_eq c Hh).
Qed.

(** Dropping the hyphens at both ends. *)
Lemma dropWhile_hyphen_single prev l :
  single_hyphens prev l = true ->
  single_hyphens true (Js.dropWhile is_hyphen l) = true.
Proof.
  revert prev. induction l as [|c r IH]; intros prev; simpl; [reflexivity|].
  destruct (is_alnum c) eqn:Ha.
  - rewrite (alnum_not_hyphen c Ha). simpl. now rewrite Ha.
  - intros H. apply andb_prop in H as [H Hr]. apply andb_prop in H as [Hh _].
    rewrite Hh. eauto.
Qed.

Lemma dropWhileEnd_hyphen_single prev l :
  single_hyphens prev l = true ->
  single_hyphens prev (Js.dropWhileEnd is_hyphen l) = true.
Proof.
  revert prev. induction l as [|c r IH]; intros prev; simpl; [reflexivity|].
  destruct (is_alnum c) eqn:Ha.
  - intros H. specialize (IH _ H).
    rewrite (alnum_not_hyphen c Ha).
    destruct (Js.dropWhileEnd is_hyphen r); simpl; now rewrite Ha.
  - intros H. apply andb_prop in H as [H Hr]. apply andb_prop in H as [Hh Hp].
    specialize (IH _ Hr). rewrite Hh.
    destruct (Js.dropWhileEnd is_hyphen r) as [|d r'] eqn:E; [reflexivity|].
    cbn [single_hyphens]. rewrite Ha, Hh, Hp. exact IH.
Qed.

Lemma dropWhileEnd_hyphen_end l :
  ends_hyphen (Js.dropWhileEnd is_hyphen l) = false.
Proof.
  induction l as [|c r IH]; simpl; [reflexivity|].
  destruct (Js.dropWhileEnd is_hyphen r) as [|d r'] eqn:E.
  - destruct (is_hyphen c) eqn:Hc; simpl; [reflexivity | exact Hc].
  - exact IH.
Qed.

Lemma dropWhile_hyphen_fixed l :
  single_hyphens true l = true -> Js.dropWhile is_hyphen l = l.
Proof.
  destruct l as [|c r]; simpl; [reflexivity|].
  destruct (is_alnum c) eqn:Ha.
  - now rewrite (alnum_not_hyphen c Ha).
  - rewrite andb_false_r. discriminate.
Qed.

Lemma dropWhileEnd_hyphen_fixed l :
  ends_hyphen l = false -> Js.dropWhileEnd is_hyphen l = l.
Proof.
  induction l as [|c r IH]; simpl; [reflexivity|].
  destruct r as [|d r'].
  - simpl. now intros ->.
  - intros H. rewrite (IH H). reflexivity.
Qed.

Lemma formatSkillName_is_slug name : is_slug (formatSkillName name) = true.
Proof.
  unfold is_slug, formatSkillName, strip_hyphens, replace_non_alnum.
  rewrite !chars_str.
  rewrite dropWhileEnd_hyphen_end.
  rewrite (dropWhileEnd_hyphen_single true); [reflexivity|].
  apply (dropWhile_hyphen_single false), replace_runs_single.
Qed.

Lemma formatSkillName_fixes_slug name :
  is_slug name = true -> formatSkillName name = name.
Proof.
  unfold is_slug. intros H. apply andb_prop in H as [Hs He].
  apply negb_true_iff in He.
  pose proof (single_hyphens_chars _ _ Hs) as Hc.
  unfold formatSkillName, strip_hyphens, replace_non_alnum, Js.trim, Js.toLowerCase.
  rewrite !chars_str.
  rewrite (slug_chars_lower _ Hc).
  rewrite (dropWhile_none _ _ (slug_chars_no_space _ Hc)).
  rewrite (dropWhileEnd_none _ _ (slug_chars_no_space _ Hc)).
  assert (Hf : single_hyphens false (Js.chars name) = true).
  { destruct (Js.chars name) as [|c r]; [reflexivity|].
    simpl in *. destruct (is_alnum c); [exact Hs|].
    rewrite andb_false_r in Hs. discriminate. }
  rewrite (replace_runs_fixed _ _ Hf).
  rewrite (dropWhile_hyphen_fixed _ Hs).
  rewrite (dropWhileEnd_hyphen_fixed _ He).
  apply str_chars.
Qed.

End SkillNameFacts.

(** C6 (as amended).  Normalization is idempotent, and it leaves unchanged
    every name made of words over [a-z0-9] separated by single hyphens,
    with no hyphen first or last; "My Skill!!" becomes "my-skill". *)
Theorem formatSkillName_idempotent (name : string) :
  (SkillName.is_slug name = true -> SkillName.formatSkillName name = name)
  /\ SkillName.formatSkillName (SkillName.formatSkillName name)
     = SkillName.formatSkillName name
  /\ SkillName.formatSkillName "My Skill!!" = "my-skill".
Proof.
  split; [apply formatSkillName_fixes_slug|].
  split; [|reflexivity].
  apply formatSkillName_fixes_slug, formatSkillName_is_slug.
Qed.

(** The slug "my-skill" is left as it is. *)
Lemma formatSkillName_idempotent_witness :
  SkillName.is_slug "my-skill" = true
  /\ SkillName.formatSkillName "my-skill" = "my-skill".
Proof.
  split; [reflexivity|].
  apply (proj1 (formatSkillName_idempotent "my-skill")). reflexivity.
Defined.

(** C6 (as stated) fails: "a--b" has only lower-case letters and hyphens,
    with no hyphen first or last, and normalization changes it. *)
Lemma formatSkillName_changes_double_hyphen :
  SkillName.normalized_as_described "a--b" = true
  /\ SkillName.formatSkillName "a--b" = "a-b"
  /\ SkillName.formatSkillName "a--b" <> "a--b".
Proof. split; [reflexivity|]. split; [reflexivity | discriminate]. Qed.

(** ** Versions and snapshots *)

Section VersionHistory.
Import Store SkillsApi Lifecycle.

Lemma select_by_id_some id d s :
  select_by_id id d = Some s -> In s (skills d) /\ sk_id s = id.
Proof.
  unfold select_by_id. intros H. apply find_some in H as [Hin Heq].
  split; [exact Hin | lia].
Qed.

Lemma select_by_id_none id d s :
  select_by_id id d = None -> In s (skills d) -> sk_id s <> id.
Proof.
  unfold select_by_id. intros H Hin.
  pose proof (find_none _ _ H s Hin) as Hn. simpl in Hn. lia.
Qed.

(** No assignment of the update's SET list touches the id, and the
    list always ends with the increment of the version. *)
Lemma assign_id old now a s : sk_id (assign old now a s) = sk_id s.
Proof. now destruct a. Qed.

Lemma assign_all_id sets now old : sk_id (assign_all sets now old) = sk_id old.
Proof.
  unfold assign_all.
  assert (H : forall s, sk_id (fold_left (fun s a => assign old now a s) sets s) = sk_id s).
  { induction sets as [|a r IH]; intros s; simpl; [reflexivity|].
    now rewrite IH, assign_id. }
  apply H.
Qed.

Lemma updateFields_version req cur now :
  sk_version (assign_all (updateFields req cur) now cur) = sk_version cur + 1.
Proof.
  unfold updateFields, assign_all.
  destruct (name req) as [n|]; [destruct (Js.truthy n)|];
    (destruct (description req) as [ds|]; [destruct (Js.truthy ds)|]);
    (destruct (mainContent req) as [m|]; [destruct (Js.truthy m)|]);
    destruct (references req), (tags req); reflexivity.
Qed.

Lemma replace_ids i new l :
  sk_id new = i ->
  map sk_id (map (fun s => if sk_id s =? i then new else s) l) = map sk_id l.
Proof.
  intros Hn. induction l as [|s r IH]; simpl; [reflexivity|].
  rewrite IH. destruct (Z.eqb_spec (sk_id s) i); congruence.
Qed.

Lemma in_replace i new l s' :
  In s' (map (fun s => if sk_id s =? i then new else s) l) ->
  (s' = new /\ exists s, In s l /\ sk_id s = i) \/ (In s' l /\ sk_id s' <> i).
Proof.
  intros H. apply in_map_iff in H as (s & Hs & Hin).
  destruct (Z.eqb_spec (sk_id s) i) as [E|E].
  - left. split; [congruence | eauto].
  - right. subst s'. auto.
Qed.

Lemma find_replace i new l cur :
  sk_id new = i ->
  find (fun s => sk_id s =? i) l = Some cur ->
  find (fun s => sk_id s =? i) (map (fun s => if sk_id s =? i then new else s) l)
  = Some new.
Proof.
  intros Hn. induction l as [|s r IH]; simpl; [discriminate|].
  destruct (Z.eqb_spec (sk_id s) i) as [E|E].
  - intros _. now rewrite Hn, Z.eqb_refl.
  - destruct (Z.eqb_spec (sk_id s) i); [contradiction | exact IH].
Qed.

(** What a successful [UPDATE skills] leaves. *)
Lemma update_skill_ok sets id now d d' :
  update_skill sets id now d = Ok d' ->
  (select_by_id id d = None /\ d' = d)
  \/ exists old,
       select_by_id id d = Some old
       /\ skills d' = map (fun s => if sk_id s =? id then assign_all sets now old else s)
                          (skills d)
       /\ skill_versions d' = skill_versions d
       /\ skills_seq d' = skills_seq d
       /\ foreign_keys d' = foreign_keys d.
Proof.
  unfold update_skill. destruct (select_by_id id d) as [old|].
  - destruct (existsb _ _); [discriminate|].
    intros H. inversion H; subst; clear H. right. exists old. simpl. auto.
  - intros H. inversion H. auto.
Qed.

(** What a committed update transaction leaves. *)
Lemma updateSkill_ok i req now d ver d' :
  updateSkill i req now d = Ok (ver, d') ->
  exists cur,
    select_by_id i d = Some cur
    /\ skills d' = map (fun s => if sk_id s =? i
                                 then assign_all (updateFields req cur) now cur
                                 else s) (skills d)
    /\ skill_versions d' = (skill_versions d ++ [snapshot i cur now])%list
    /\ skills_seq d' = skills_seq d
    /\ foreign_keys d' = foreign_keys d
    /\ ver = sk_version cur + 1.
Proof.
  unfold updateSkill. destruct (select_by_id i d) as [cur|] eqn:Hcur; [|discriminate].
  destruct (insert_version _ d) as [d1|] eqn:H1; [|discriminate].
  unfold insert_version in H1.
  destruct (existsb _ _); [discriminate|].
  destruct (_ && _); [discriminate|].
  inversion H1; subst d1; clear H1.
  destruct (update_skill _ i now _) as [d2|] eqn:H2; [|discriminate].
  apply update_skill_ok in H2 as [[Hn _]|(old & Ho & Hs & Hv & Hq & Hf)].
  - unfold select_by_id in *. simpl in Hn. congruence.
  - assert (old = cur) by (unfold select_by_id in *; simpl in Ho; congruence).
    subst old. simpl in *.
    pose proof (proj2 (select_by_id_some _ _ _ Hcur)) as Hid.
    unfold select_by_id at 1. rewrite Hs.
    erewrite find_replace;
      [| rewrite assign_all_id; exact Hid | exact Hcur].
    intros H. inversion H; subst ver d'; clear H.
    exists cur. rewrite updateFields_version. auto 10.
Qed.

Lemma history_snoc n vs v :
  history_ok n vs -> sv_version v = 1 + Z.of_nat n ->
  history_ok (S n) (vs ++ [v]).
Proof.
  intros (Hl & Hd & Hr) Hv. repeat split.
  - rewrite length_app, Hl. simpl. lia.
  - rewrite map_app. apply List.NoDup_app; [exact Hd | repeat constructor; intros [] |].
    intros a Ha [E|[]]. apply in_map_iff in Ha as (w & Hw & Hin).
    specialize (Hr w Hin). simpl in E. lia.
  - apply in_app_or in H as [H|[E|[]]]; [specialize (Hr v0 H); lia | subst; lia].
  - apply in_app_or in H as [H|[E|[]]]; [specialize (Hr v0 H); lia | subst; lia].
Qed.

Lemma consistent_ext c c' d :
  (forall id, c id = c' id) -> consistent c d -> consistent c' d.
Proof.
  intros E [H1 H2 H3 H4 H5 H6].
  split; auto; intros; rewrite <- E; auto.
Qed.

Lemma filter_nothing {A} (f : A -> bool) l :
  (forall x, In x l -> f x = false) -> List.filter f l = [].
Proof.
  induction l as [|x r IH]; simpl; intros H; [reflexivity|].
  rewrite (H x (or_introl eq_refl)). auto.
Qed.

Lemma filter_filter_other (i id : Z) (l : list skill_version) :
  i <> id ->
  List.filter (fun v => sv_skill_id v =? id)
    (List.filter (fun v => negb (sv_skill_id v =? i)) l)
  = List.filter (fun v => sv_skill_id v =? id) l.
Proof.
  intros Hne. induction l as [|v r IH]; simpl; [reflexivity|].
  destruct (Z.eqb_spec (sv_skill_id v) i) as [E|E]; simpl.
  - destruct (Z.eqb_spec (sv_skill_id v) id); [lia | exact IH].
  - now rewrite IH.
Qed.

Lemma NoDup_map_filter {A B} (f : A -> B) (p : A -> bool) l :
  List.NoDup (map f l) -> List.NoDup (map f (List.filter p l)).
Proof.
  induction l as [|x r IH]; simpl; intros H; [constructor|].
  inversion H as [|? ? Hn Hr]; subst.
  destruct (p x); simpl; auto.
  constructor; auto.
  intros Hin. apply Hn. apply in_map_iff in Hin as (y & Hy & Hin).
  apply filter_In in Hin as [Hin _]. apply in_map_iff. eauto.
Qed.

(** The update transaction keeps the invariant and counts one more
    update of skill [i]. *)
Lemma consistent_update c d d' i cur new v :
  consistent c d ->
  select_by_id i d = Some cur ->
  sk_id new = i -> sk_version new = sk_version cur + 1 ->
  skills d' = map (fun s => if sk_id s =? i then new else s) (skills d) ->
  skill_versions d' = (skill_versions d ++ [v])%list ->
  sv_skill_id v = i -> sv_version v = sk_version cur ->
  skills_seq d' = skills_seq d ->
  consistent (fun id => c id + (if (i =? id)%Z then 1 else 0))%nat d'.
Proof.
  intros [H1 H2 H3 H4 H5 H6] Hcur Hid Hver Hs Hv Hvi Hvv Hq.
  apply select_by_id_some in Hcur as [Hin Hci].
  split.
  - rewrite Hs, replace_ids; auto.
  - intros s Hs'. rewrite Hs in Hs'. rewrite Hq.
    apply in_replace in Hs' as [[-> _]|[Hs' _]]; [|auto].
    rewrite Hid, <- Hci. auto.
  - intros w Hw. rewrite Hv in Hw. rewrite Hq.
    apply in_app_or in Hw as [Hw|[<-|[]]]; [auto|].
    rewrite Hvi, <- Hci. auto.
  - intros id Hlt. rewrite Hq in Hlt. rewrite (H4 id Hlt).
    specialize (H2 cur Hin). destruct (Z.eqb_spec i id); [lia | reflexivity].
  - intros s Hs'. rewrite Hs in Hs'.
    apply in_replace in Hs' as [[-> _]|[Hs' Hne]].
    + rewrite Hid, Z.eqb_refl, Hver, (H5 cur Hin), Hci. lia.
    + destruct (Z.eqb_spec i (sk_id s)); [congruence|].
      rewrite (H5 s Hs'). lia.
  - intros s Hs'. rewrite Hs in Hs'.
    unfold versions_of. rewrite Hv, List.filter_app. simpl.
    apply in_replace in Hs' as [[-> _]|[Hs' Hne]].
    + rewrite Hid, Hvi, !Z.eqb_refl. rewrite Nat.add_1_r.
      apply history_snoc.
      * specialize (H6 cur Hin). now rewrite Hci in H6.
      * rewrite Hvv, (H5 cur Hin), Hci. reflexivity.
    + rewrite Hvi. destruct (Z.eqb_spec i (sk_id s)); [congruence|].
      rewrite app_nil_r, Nat.add_0_r. apply (H6 s Hs').
Qed.

(** An UPDATE that changes neither id nor version, and no snapshot. *)
Lemma consistent_touch c d d' i cur new :
  consistent c d ->
  select_by_id i d = Some cur ->
  sk_id new = i -> sk_version new = sk_version cur ->
  skills d' = map (fun s => if sk_id s =? i then new else s) (skills d) ->
  skill_versions d' = skill_versions d ->
  skills_seq d' = skills_seq d ->
  consistent c d'.
Proof.
  intros [H1 H2 H3 H4 H5 H6] Hcur Hid Hver Hs Hv Hq.
  apply select_by_id_some in Hcur as [Hin Hci].
  split.
  - rewrite Hs, replace_ids; auto.
  - intros s Hs'. rewrite Hs in Hs'. rewrite Hq.
    apply in_replace in Hs' as [[-> _]|[Hs' _]]; [|auto].
    rewrite Hid, <- Hci. auto.
  - intros w Hw. rewrite Hv in Hw. rewrite Hq. auto.
  - intros id Hlt. rewrite Hq in Hlt. auto.
  - intros s Hs'. rewrite Hs in Hs'.
    apply in_replace in Hs' as [[-> _]|[Hs' Hne]]; [|auto].
    rewrite Hid, Hver, (H5 cur Hin), Hci. reflexivity.
  - intros s Hs'. rewrite Hs in Hs'.
    unfold versions_of. rewrite Hv.
    apply in_replace in Hs' as [[-> _]|[Hs' Hne]]; [|apply (H6 s Hs')].
    rewrite Hid, <- Hci. apply (H6 cur Hin).
Qed.

(** A new skill starts at version 1 with no snapshot. *)
Lemma consistent_insert c d d' row :
  consistent c d ->
  skills d' = (skills d ++ [row])%list ->
  sk_id row = skills_seq d + 1 -> sk_version row = 1 ->
  skill_versions d' = skill_versions d ->
  skills_seq d' = skills_seq d + 1 ->
  consistent c d'.
Proof.
  intros [H1 H2 H3 H4 H5 H6] Hs Hid Hver Hv Hq.
  assert (Hc0 : c (sk_id row) = O) by (apply H4; lia).
  split.
  - rewrite Hs, map_app. apply List.NoDup_app; [exact H1 | repeat constructor; intros [] |].
    intros a Ha [E|[]]. apply in_map_iff in Ha as (w & Hw & Hin).
    specialize (H2 w Hin). simpl in E. lia.
  - intros s Hs'. rewrite Hs in Hs'. rewrite Hq.
    apply in_app_or in Hs' as [Hs'|[<-|[]]]; [specialize (H2 s Hs'); lia | lia].
  - intros w Hw. rewrite Hv in Hw. rewrite Hq. specialize (H3 w Hw). lia.
  - intros id Hlt. apply H4. lia.
  - intros s Hs'. rewrite Hs in Hs'.
    apply in_app_or in Hs' as [Hs'|[<-|[]]]; [auto|].
    rewrite Hver, Hc0. reflexivity.
  - intros s Hs'. rewrite Hs in Hs'.
    unfold versions_of. rewrite Hv.
    apply in_app_or in Hs' as [Hs'|[<-|[]]]; [apply (H6 s Hs')|].
    rewrite Hc0, filter_nothing.
    + split; [reflexivity|]. split; [apply List.NoDup_nil | intros ? []].
    + intros w Hw. specialize (H3 w Hw). apply Z.eqb_neq. lia.
Qed.

Lemma consistent_delete c d i :
  consistent c d -> consistent c (delete_skill i d).
Proof.
  intros [H1 H2 H3 H4 H5 H6]. unfold delete_skill.
  split; simpl.
  - now apply NoDup_map_filter.
  - intros s Hs. apply filter_In in Hs as [Hs _]. auto.
  - intros w Hw. destruct (foreign_keys d); [apply filter_In in Hw as [Hw _]|]; auto.
  - auto.
  - intros s Hs. apply filter_In in Hs as [Hs _]. auto.
  - intros s Hs. apply filter_In in Hs as [Hs Hne].
    unfold versions_of. simpl.
    destruct (foreign_keys d); [|apply (H6 s Hs)].
    rewrite filter_filter_other; [apply (H6 s Hs)|].
    apply negb_true_iff, Z.eqb_neq in Hne. congruence.
Qed.

Lemma insert_skill_ok x now d id d' :
  insert_skill x now d = Ok (id, d') ->
  exists row,
    skills d' = (skills d ++ [row])%list
    /\ sk_id row = skills_seq d + 1
    /\ sk_version row = sd_version x
    /\ sk_name row = sd_name x
    /\ select_by_name (sd_name x) d = None
    /\ skill_versions d' = skill_versions d
    /\ skills_seq d' = skills_seq d + 1.
Proof.
  unfold insert_skill.
  destruct (negb _); [discriminate|].
  destruct (select_by_name (sd_name x) d) eqn:Hn; simpl; [discriminate|].
  intros H. inversion H; subst; clear H. simpl. eauto 10.
Qed.

Variable Handlebars :
  string -> SkillGeneration.template -> SkillGeneration.template_data -> string.
Variable generateDescription : SkillGeneration.analysis_data -> string -> string.

(** A successful generation is one INSERT of a row at version 1 whose
    name is the normalized skill name. *)
Lemma generateSkill_ok analysisData skillName skillType description tags now d p d' :
  SkillGeneration.generateSkill Handlebars generateDescription
    analysisData skillName skillType description tags now d = Ok (p, d') ->
  exists x,
    insert_skill x now d = Ok (SkillGeneration.p_skillId p, d')
    /\ sd_version x = 1
    /\ sd_name x = SkillName.formatSkillName skillName
    /\ SkillName.slug_regex_test (SkillName.formatSkillName skillName) = true.
Proof.
  unfold SkillGeneration.generateSkill, SkillGeneration.generateSkill_body.
  destruct (SkillGeneration.validateSkillName skillName d) eqn:Hname; [|discriminate].
  destruct (SkillGeneration.validateSkillType skillType); [|discriminate].
  destruct analysisData as [analysis|]; [|discriminate].
  destruct (negb _); [discriminate|].
  destruct (SkillGeneration.generateSkillFiles _ _ _) as [files|]; [|discriminate].
  destruct (SkillGeneration.calculateTotalSize files); [|discriminate].
  unfold SkillGeneration.saveSkillToDatabase.
  match goal with
  | |- context [insert_skill ?x now d] =>
      destruct (insert_skill x now d) as [[id d1]|] eqn:Hins; [|discriminate];
      intros H; inversion H; subst; clear H; exists x
  end.
  simpl. repeat split; auto.
  unfold SkillGeneration.validateSkillName in Hname.
  destruct (_ || _); [discriminate|].
  destruct (50 <? _); [discriminate|].
  destruct (SkillName.slug_regex_test _); [reflexivity | discriminate].
Qed.

Lemma exec_consistent c d o :
  consistent c d ->
  consistent (fun id => c id + (if updates id o d then 1 else 0))%nat (exec Handlebars generateDescription o d).
Proof.
  intros Hc.
  assert (Hsame : forall d0, consistent c d0 ->
            consistent (fun id => c id + 0)%nat d0).
  { intros d0. apply consistent_ext. intros id. lia. }
  destruct o as [a n t ds tg now | [i|] req now | [i|] | [i|] tok pub now];
    simpl; auto.
  - (* generateSkill *)
    destruct (SkillGeneration.generateSkill _ _ _ _ _ _ _ _ _) as [[p d']|] eqn:H; auto.
    apply generateSkill_ok in H as (x & Hins & Hv & _).
    apply insert_skill_ok in Hins as (row & Hs & Hid & Hver & _ & _ & Hvs & Hq).
    apply Hsame. eapply consistent_insert; eauto. congruence.
  - (* PUT *)
    assert (Hkeep : consistent (fun id => c id + (if ((i =? id)%Z && false)%bool then 1 else 0))%nat d).
    { eapply consistent_ext; [|exact Hc]. intros id. rewrite andb_false_r. lia. }
    destruct (UpdateSkillRequestSchema req) as [vd|]; simpl; [|exact Hkeep].
    destruct (select_by_id i d) as [s0|] eqn:Hsel; simpl; [|exact Hkeep].
    destruct (updateSkill i vd now d) as [[ver d']|] eqn:Hup; simpl; [|exact Hkeep].
    apply updateSkill_ok in Hup as (cur & Hcur & Hs & Hv & Hq & _ & _).
    eapply consistent_ext;
      [intros id; simpl; now rewrite andb_true_r |].
    refine (consistent_update c d d' i cur _ _ Hc Hcur _ _ Hs Hv _ _ Hq).
    + rewrite assign_all_id. now apply select_by_id_some in Hcur.
    + apply updateFields_version.
    + reflexivity.
    + reflexivity.
  - (* DELETE *)
    destruct (select_by_id i d); simpl; auto.
    apply Hsame. now apply consistent_delete.
  - (* publish *)
    destruct (negb (Js.truthy_opt tok)); simpl; auto.
    destruct (select_by_id i d) as [sk|] eqn:Hsel; simpl; auto.
    destruct pub as [info|]; simpl; auto.
    destruct (update_skill _ i now d) as [d'|] eqn:Hup; simpl; auto.
    apply update_skill_ok in Hup as [[_ ->]|(old & Ho & Hs & Hv & Hq & _)]; auto.
    apply Hsame.
    refine (consistent_touch c d d' i old _ Hc Ho _ _ Hs Hv Hq).
    + rewrite assign_all_id. now apply select_by_id_some in Ho.
    + reflexivity.
Qed.

Lemma run_consistent ops :
  forall c d,
    consistent c d ->
    consistent (fun id => c id + successful_updates Handlebars generateDescription id ops d)%nat
               (run Handlebars generateDescription ops d).
Proof.
  induction ops as [|o r IH]; intros c d Hc; simpl.
  - eapply consistent_ext; [|exact Hc]. intros id. lia.
  - eapply consistent_ext; [|apply IH, exec_consistent, Hc].
    intros id. simpl. lia.
Qed.

Lemma empty_consistent fk : consistent (fun _ => O) (empty fk).
Proof.
  split; simpl; try (intros ? []); auto. constructor.
Qed.

(** C1.  After any sequence of operations on an empty store, every
    skill's version is 1 plus the number N of its successful updates,
    and the skill has exactly N snapshot rows, with distinct versions
    between 1 and N. *)
Theorem version_counts_snapshots (fk : bool) (ops : list op) (s : skill) :
  let d := run Handlebars generateDescription ops (empty fk) in
  let N := successful_updates Handlebars generateDescription (sk_id s) ops (empty fk) in
  In s (skills d) ->
  sk_version s = 1 + Z.of_nat N
  /\ sk_version s = 1 + Z.of_nat (length (versions_of (sk_id s) d))
  /\ length (versions_of (sk_id s) d) = N
  /\ List.NoDup (map sv_version (versions_of (sk_id s) d))
  /\ forall v, In v (versions_of (sk_id s) d) -> 1 <= sv_version v <= Z.of_nat N.
Proof.
  intros d N Hin.
  pose proof (run_consistent ops _ _ (empty_consistent fk)) as [_ _ _ _ H5 H6].
  specialize (H5 s Hin). specialize (H6 s Hin). simpl in H5, H6.
  destruct H6 as (Hl & Hd & Hr). fold d in Hl, Hd, Hr. fold N in H5, Hl, Hr.
  repeat split; auto; try apply Hr; auto. rewrite Hl. exact H5.
Qed.

End VersionHistory.

Example created_store :
  Store.skills Samples.created = [Samples.created_row]
  /\ Store.skill_versions Samples.created = [].
Proof. split; reflexivity. Qed.

(** A skill that is generated and then updated twice is at version 3 and
    has two snapshots. *)
Lemma version_counts_snapshots_witness :
  In (Samples.set_row Samples.created_row 3 "second" 3000)
     (Store.skills (Samples.run Samples.two_updates))
  /\ Store.sk_version (Samples.set_row Samples.created_row 3 "second" 3000) = 1 + Z.of_nat 2
  /\ length (Store.versions_of 1 (Samples.run Samples.two_updates)) = 2%nat.
Proof.
  split; [vm_compute; auto|].
  pose proof (version_counts_snapshots Samples.Handlebars Samples.generateDescription
                true Samples.two_updates
                (Samples.set_row Samples.created_row 3 "second" 3000)) as H.
  destruct H as (H1 & _ & H3 & _); [vm_compute; auto|].
  split; [exact H1 | exact H3].
Defined.

(** The scenario of two updates in a row: the live row is at version 3
    and the history holds the snapshots of versions 1 and 2. *)
Example two_updates_history :
  map Store.sk_version (Store.skills (Samples.run Samples.two_updates)) = [3]
  /\ map Store.sv_version (Store.versions_of 1 (Samples.run Samples.two_updates)) = [1; 2].
Proof. split; reflexivity. Qed.

(** ** Names of stored skills *)

(** C8 fails on the update route: a generated skill is stored under the
    normalized name, but PUT /skills/1 with the name "My Skill" is
    answered with 200 and stores the name as given, which is no slug. *)
Theorem update_stores_name_as_given :
  map Store.sk_name (Store.skills Samples.created) = ["my-skill"]
  /\ SkillsApi.status (fst (SkillsApi.put_skill (Some 1) (Samples.rename "My Skill") 2000
                             Samples.created)) = 200
  /\ map Store.sk_name
       (Store.skills (snd (SkillsApi.put_skill (Some 1) (Samples.rename "My Skill") 2000
                             Samples.created))) = ["My Skill"]
  /\ SkillName.slug_regex_test "My Skill" = false
  /\ SkillName.formatSkillName "My Skill" = "my-skill".
Proof. repeat split. Qed.

(** ** Fields of an update whose value is falsy *)

Section FalsyFields.
Import Store SkillsApi.

Lemma updateFields_drop_falsy req cur :
  updateFields (drop_falsy req) cur = updateFields req cur.
Proof.
  unfold updateFields, drop_falsy, keep_truthy. simpl.
  destruct (name req) as [n|]; [destruct (Js.truthy n) eqn:En|];
    (destruct (description req) as [ds|]; [destruct (Js.truthy ds) eqn:Ed|]);
    (destruct (mainContent req) as [m|]; [destruct (Js.truthy m) eqn:Em|]);
    rewrite ?En, ?Ed, ?Em; reflexivity.
Qed.

Lemma updateSkill_drop_falsy i req now d :
  updateSkill i (drop_falsy req) now d = updateSkill i req now d.
Proof.
  unfold updateSkill. destruct (select_by_id i d); [|reflexivity].
  now rewrite updateFields_drop_falsy.
Qed.

Lemma updateFields_omit_description req cur :
  Js.truthy_opt (description req) = false ->
  updateFields (omit_description req) cur = updateFields req cur.
Proof.
  unfold updateFields, omit_description. simpl.
  destruct (description req) as [ds|]; simpl; [|reflexivity].
  now intros ->.
Qed.

Lemma put_skill_omit_description id req now d :
  Js.truthy_opt (description req) = false ->
  put_skill id (omit_description req) now d = put_skill id req now d.
Proof.
  intros H. unfold put_skill, UpdateSkillRequestSchema. simpl.
  destruct id as [i|]; [|reflexivity].
  destruct (_ && _); [|reflexivity].
  destruct (select_by_id i d) eqn:Hs; [|reflexivity].
  unfold updateSkill. rewrite Hs.
  now rewrite updateFields_omit_description.
Qed.

(** The fields that an assignment list leaves alone. *)
Lemma updateFields_keeps req cur now :
  let new := assign_all (updateFields req cur) now cur in
  (Js.truthy_opt (name req) = false -> sk_name new = sk_name cur)
  /\ (Js.truthy_opt (description req) = false -> sk_description new = sk_description cur)
  /\ (Js.truthy_opt (mainContent req) = false -> sk_main_content new = sk_main_content cur).
Proof.
  unfold updateFields, assign_all.
  destruct (name req) as [n|]; [destruct (Js.truthy n) eqn:En|];
    (destruct (description req) as [ds|]; [destruct (Js.truthy ds) eqn:Ed|]);
    (destruct (mainContent req) as [m|]; [destruct (Js.truthy m) eqn:Em|]);
    destruct (references req), (tags req); simpl; rewrite ?En, ?Ed, ?Em;
    repeat split; intros; try reflexivity; discriminate.
Qed.

End FalsyFields.

(** C10 (as amended).  Of the fields of an update, only the description
    can reach the update with a falsy value: a request that validation
    accepts carries no empty name and no empty main document.  A PUT
    whose description is the empty string is treated exactly as the
    same PUT without a description: same response, same store.  When
    it is answered with 200, the stored description is the one the
    skill had, the version is one more, and one snapshot has been
    appended, which holds the version, the main document, the
    references and the metadata that the skill had. *)
Theorem falsy_fields_are_not_applied
    (i : Z) (req : SkillsApi.update_request) (now : Z) (d : Store.db) :
  Js.truthy_opt (SkillsApi.description req) = false ->
  SkillsApi.put_skill (Some i) (SkillsApi.omit_description req) now d
  = SkillsApi.put_skill (Some i) req now d
  /\ (SkillsApi.status (fst (SkillsApi.put_skill (Some i) req now d)) = 200 ->
      exists cur new,
        Store.select_by_id i d = Some cur
        /\ Store.select_by_id i (snd (SkillsApi.put_skill (Some i) req now d)) = Some new
        /\ Store.sk_description new = Store.sk_description cur
        /\ Store.sk_version new = Store.sk_version cur + 1
        /\ SkillsApi.body (fst (SkillsApi.put_skill (Some i) req now d))
           = SkillsApi.Updated i (Store.sk_version cur + 1)
        /\ Store.skill_versions (snd (SkillsApi.put_skill (Some i) req now d))
           = (Store.skill_versions d
                ++ [{| Store.sv_skill_id := i;
                       Store.sv_version := Store.sk_version cur;
                       Store.sv_main_content := Store.sk_main_content cur;
                       Store.sv_references := Store.sk_references cur;
                       Store.sv_metadata := Store.sk_metadata cur;
                       Store.sv_created_at := now |}])%list)
  /\ (SkillsApi.UpdateSkillRequestSchema req <> None ->
      Js.truthy_opt (SkillsApi.name req) = Js.defined (SkillsApi.name req)
      /\ Js.truthy_opt (SkillsApi.mainContent req)
         = Js.defined (SkillsApi.mainContent req)).
Proof.
  intros Hd.
  split; [now apply put_skill_omit_description|].
  split.
  - unfold SkillsApi.put_skill.
    destruct (SkillsApi.UpdateSkillRequestSchema req) as [validatedData|] eqn:Hv;
      [|simpl; discriminate].
    assert (validatedData = req).
    { unfold SkillsApi.UpdateSkillRequestSchema in Hv.
      destruct (_ && _); [now inversion Hv | discriminate]. }
    subst validatedData.
    destruct (Store.select_by_id i d) as [cur|] eqn:Hcur; [|simpl; discriminate].
    destruct (SkillsApi.updateSkill i req now d) as [[ver d']|m] eqn:Hup;
      [|simpl; discriminate].
    intros _. simpl.
    pose proof (updateSkill_ok _ _ _ _ _ _ Hup) as (cur' & Hcur' & Hs & Hsv & _ & _ & Hver).
    assert (cur' = cur) by congruence. subst cur'.
    exists cur, (Store.assign_all (SkillsApi.updateFields req cur) now cur).
    split; [reflexivity|]. split.
    { unfold Store.select_by_id. rewrite Hs.
      apply (find_replace i _ _ cur); [|exact Hcur].
      rewrite assign_all_id. now apply select_by_id_some in Hcur. }
    split; [now apply updateFields_keeps|].
    split; [apply updateFields_version|].
    split; [now rewrite Hver | exact Hsv].
  - unfold SkillsApi.UpdateSkillRequestSchema, SkillsApi.opt_all. intros Hv.
    split.
    + destruct (SkillsApi.name req) as [[|c n]|]; try reflexivity.
      exfalso. apply Hv. reflexivity.
    + destruct (SkillsApi.mainContent req) as [[|c m]|]; try reflexivity.
      exfalso. apply Hv. cbv beta iota.
      change (100 <=? Js.len EmptyString) with false.
      now rewrite andb_false_r.
Qed.

(** An update with an empty description is answered with 200: the
    description that generation wrote is kept, the version is 2, and the
    snapshot of version 1 is the only row of the history. *)
Lemma falsy_fields_are_not_applied_witness :
  SkillsApi.put_skill (Some 1) (SkillsApi.omit_description (Samples.describe EmptyString))
    2000 Samples.created
  = SkillsApi.put_skill (Some 1) (Samples.describe EmptyString) 2000 Samples.created
  /\ exists cur new,
       Store.select_by_id 1 Samples.created = Some cur
       /\ Store.select_by_id 1 Samples.after_empty_description = Some new
       /\ Store.sk_description new = Store.sk_description cur
       /\ Store.sk_version new = Store.sk_version cur + 1
       /\ SkillsApi.body (fst (SkillsApi.put_skill (Some 1) (Samples.describe EmptyString)
                                 2000 Samples.created))
          = SkillsApi.Updated 1 (Store.sk_version cur + 1)
       /\ Store.skill_versions Samples.after_empty_description
          = (Store.skill_versions Samples.created
               ++ [{| Store.sv_skill_id := 1;
                      Store.sv_version := Store.sk_version cur;
                      Store.sv_main_content := Store.sk_main_content cur;
                      Store.sv_references := Store.sk_references cur;
                      Store.sv_metadata := Store.sk_metadata cur;
                      Store.sv_created_at := 2000 |}])%list.
Proof.
  destruct (falsy_fields_are_not_applied 1 (Samples.describe EmptyString) 2000
              Samples.created) as (H1 & H2 & _); [reflexivity|].
  split; [exact H1|].
  apply H2. vm_compute. reflexivity.
Defined.

(** The update with an empty description on the sample store, field by
    field. *)
Example empty_description_update :
  fst (SkillsApi.put_skill (Some 1) (Samples.describe EmptyString) 2000 Samples.created)
  = {| SkillsApi.status := 200; SkillsApi.body := SkillsApi.Updated 1 2 |}
  /\ option_map Store.sk_description
       (Store.select_by_id 1 Samples.after_empty_description)
     = Some "Claude skill for process tasks"
  /\ Store.skill_versions Samples.after_empty_description
     = [{| Store.sv_skill_id := 1;
           Store.sv_version := 1;
           Store.sv_main_content := "# my-skill skill";
           Store.sv_references := [("practices.md", "# Practices");
                                   ("structure.md", "# Structure");
                                   ("examples.md", "# Examples")];
           Store.sv_metadata := Store.sk_metadata Samples.created_row;
           Store.sv_created_at := 2000 |}].
Proof. vm_compute. repeat split. Qed.

(** C10 (as stated) fails for the name and the main document: a PUT
    whose name (or main document) is the empty string is refused with
    400, the version stays and no snapshot is written, while the same
    PUT without the field is answered with 200, increments the version
    and writes a snapshot. *)
Lemma empty_name_is_refused :
  SkillsApi.put_skill (Some 1) (Samples.rename EmptyString) 2000 Samples.created
  = ({| SkillsApi.status := 400;
        SkillsApi.body := SkillsApi.Failure "Validation failed" EmptyString |},
     Samples.created)
  /\ SkillsApi.put_skill (Some 1) Samples.empty_main_document 2000 Samples.created
     = ({| SkillsApi.status := 400;
           SkillsApi.body := SkillsApi.Failure "Validation failed" EmptyString |},
        Samples.created)
  /\ option_map Store.sk_version (Store.select_by_id 1 Samples.created) = Some 1
  /\ Store.skill_versions Samples.created = []
  /\ fst (SkillsApi.put_skill (Some 1) Samples.no_fields 2000 Samples.created)
     = {| SkillsApi.status := 200; SkillsApi.body := SkillsApi.Updated 1 2 |}
  /\ length (Store.skill_versions
               (snd (SkillsApi.put_skill (Some 1) Samples.no_fields 2000
                       Samples.created))) = 1%nat.
Proof. vm_compute. repeat split. Qed.

(** ** Names of stored skills: what does hold *)

Section StoredNames.
Import Store SkillsApi Lifecycle.

Variable Handlebars :
  string -> SkillGeneration.template -> SkillGeneration.template_data -> string.
Variable generateDescription : SkillGeneration.analysis_data -> string -> string.

Lemma replace_absent i new (l : list skill) :
  (forall s, In s l -> sk_id s <> i) ->
  map (fun s => if sk_id s =? i then new else s) l = l.
Proof.
  induction l as [|s r IH]; simpl; intros H; [reflexivity|].
  rewrite IH by auto.
  destruct (Z.eqb_spec (sk_id s) i) as [E|_]; [|reflexivity].
  destruct (H s (or_introl eq_refl) E).
Qed.

Lemma replace_names i new (l : list skill) :
  List.NoDup (map sk_id l) -> List.NoDup (map sk_name l) ->
  (forall s, In s l -> sk_id s <> i -> sk_name s <> sk_name new) ->
  List.NoDup (map sk_name (map (fun s => if sk_id s =? i then new else s) l)).
Proof.
  induction l as [|s r IH]; simpl; intros Hi Hn Hother; [constructor|].
  inversion Hi as [|? ? Hi1 Hi2]; inversion Hn as [|? ? Hn1 Hn2]; subst.
  destruct (Z.eqb_spec (sk_id s) i) as [E|E].
  - rewrite replace_absent.
    + constructor; [|exact Hn2].
      intros Hin. apply in_map_iff in Hin as (s' & Hs' & Hin).
      apply (Hother s' (or_intror Hin)); [|exact Hs'].
      intros E'. apply Hi1. apply in_map_iff. exists s'. split; [congruence | exact Hin].
    + intros s' Hin E'. apply Hi1. apply in_map_iff. exists s'.
      split; [congruence | exact Hin].
  - constructor; [|apply IH; auto].
    intros Hin. apply in_map_iff in Hin as (s' & Hs' & Hin).
    apply in_map_iff in Hin as (s0 & Hs0 & Hin).
    destruct (Z.eqb_spec (sk_id s0) i).
    + subst s'. apply (Hother s (or_introl eq_refl) E). congruence.
    + subst s0. apply Hn1. apply in_map_iff. eauto.
Qed.

(** The UNIQUE constraint on [name], as a successful UPDATE leaves it. *)
Lemma update_skill_names sets id now d d' old :
  update_skill sets id now d = Ok d' ->
  select_by_id id d = Some old ->
  forall s, In s (skills d) -> sk_id s <> id ->
            sk_name s <> sk_name (assign_all sets now old).
Proof.
  unfold update_skill. intros H Ho. rewrite Ho in H.
  destruct (existsb _ _) eqn:Ex; [discriminate|].
  intros s Hin Hne Hname.
  assert (existsb (fun s0 => negb (sk_id s0 =? id)
                             && String.eqb (sk_name s0) (sk_name (assign_all sets now old)))
                  (skills d) = true); [|congruence].
  apply existsb_exists. exists s. split; [exact Hin|].
  apply andb_true_intro. split.
  - apply negb_true_iff, Z.eqb_neq, Hne.
  - apply String.eqb_eq, Hname.
Qed.

Lemma update_names sets id now d d' :
  List.NoDup (map sk_id (skills d)) -> List.NoDup (map sk_name (skills d)) ->
  update_skill sets id now d = Ok d' ->
  List.NoDup (map sk_name (skills d')).
Proof.
  intros Hi Hn H.
  destruct (update_skill_ok _ _ _ _ _ H) as [[_ ->]|(old & Ho & Hs & _)]; [exact Hn|].
  rewrite Hs. apply replace_names; auto.
  apply (update_skill_names _ _ _ _ _ _ H Ho).
Qed.

Lemma updateSkill_names i req now d ver d' :
  List.NoDup (map sk_id (skills d)) -> List.NoDup (map sk_name (skills d)) ->
  updateSkill i req now d = Ok (ver, d') ->
  List.NoDup (map sk_name (skills d')).
Proof.
  intros Hi Hn. unfold updateSkill.
  destruct (select_by_id i d) as [cur|]; [|discriminate].
  destruct (insert_version _ d) as [d1|] eqn:H1; [|discriminate].
  unfold insert_version in H1.
  destruct (existsb _ _); [discriminate|].
  destruct (_ && _); [discriminate|].
  inversion H1; subst d1; clear H1.
  destruct (update_skill _ i now _) as [d2|] eqn:H2; [|discriminate].
  apply update_names in H2; [|exact Hi|exact Hn].
  destruct (select_by_id i d2); [|discriminate].
  intros H. now inversion H; subst.
Qed.

Lemma exec_names c d o :
  consistent c d -> List.NoDup (map sk_name (skills d)) ->
  List.NoDup (map sk_name (skills (exec Handlebars generateDescription o d))).
Proof.
  intros Hc Hn. pose proof (ids_distinct _ _ Hc) as Hi.
  destruct o as [a n t ds tg now | [i|] req now | [i|] | [i|] tok pub now];
    simpl; auto.
  - destruct (SkillGeneration.generateSkill _ _ _ _ _ _ _ _ _) as [[p d']|] eqn:H; auto.
    apply generateSkill_ok in H as (x & Hins & _).
    apply insert_skill_ok in Hins as (row & Hs & _ & _ & Hname & Hfree & _).
    rewrite Hs, map_app. apply List.NoDup_app; [exact Hn | repeat constructor; intros [] |].
    intros nm Hin [E|[]]. simpl in E. subst nm.
    apply in_map_iff in Hin as (s & Es & Hin).
    unfold select_by_name in Hfree.
    pose proof (find_none _ _ Hfree s Hin) as Hf. simpl in Hf.
    apply String.eqb_neq in Hf. congruence.
  - destruct (UpdateSkillRequestSchema req) as [vd|]; simpl; auto.
    destruct (select_by_id i d); simpl; auto.
    destruct (updateSkill i vd now d) as [[ver d']|] eqn:Hup; simpl; auto.
    now apply (updateSkill_names _ _ _ _ _ _ Hi Hn Hup).
  - destruct (select_by_id i d); simpl; auto.
    now apply NoDup_map_filter.
  - destruct (negb (Js.truthy_opt tok)); simpl; auto.
    destruct (select_by_id i d); simpl; auto.
    destruct pub as [info|]; simpl; auto.
    destruct (update_skill _ i now d) as [d'|] eqn:Hup; simpl; auto.
    now apply (update_names _ _ _ _ _ Hi Hn Hup).
Qed.

(** The names of the stored skills are distinct after every sequence of
    operations. *)
Lemma names_stay_unique (fk : bool) (ops : list op) :
  List.NoDup (map sk_name (skills (run Handlebars generateDescription ops (empty fk)))).
Proof.
  assert (H : forall ops c d, consistent c d -> List.NoDup (map sk_name (skills d)) ->
              List.NoDup (map sk_name (skills (run Handlebars generateDescription ops d)))).
  { clear ops. induction ops as [|o r IH]; intros c d Hc Hn; simpl; [exact Hn|].
    eapply IH; [apply exec_consistent, Hc | now apply (exec_names c)]. }
  apply (H ops _ _ (empty_consistent fk)). constructor.
Qed.

Lemma exec_slugs d o :
  renames o = false ->
  Forall (fun s => SkillName.slug_regex_test (sk_name s) = true) (skills d) ->
  Forall (fun s => SkillName.slug_regex_test (sk_name s) = true)
         (skills (exec Handlebars generateDescription o d)).
Proof.
  intros Hr Hs.
  destruct o as [a n t ds tg now | [i|] req now | [i|] | [i|] tok pub now];
    simpl; auto.
  - destruct (SkillGeneration.generateSkill _ _ _ _ _ _ _ _ _) as [[p d']|] eqn:H; auto.
    apply generateSkill_ok in H as (x & Hins & _ & Hname & Hslug).
    apply insert_skill_ok in Hins as (row & Hrows & _ & _ & Hrow & _).
    rewrite Hrows. apply Forall_app. split; [exact Hs|].
    repeat constructor. now rewrite Hrow, Hname.
  - destruct (UpdateSkillRequestSchema req) as [vd|] eqn:Hv; simpl; auto.
    destruct (select_by_id i d); simpl; auto.
    destruct (updateSkill i vd now d) as [[ver d']|] eqn:Hup; simpl; auto.
    apply updateSkill_ok in Hup as (cur & Hcur & Hrows & _).
    assert (vd = req).
    { unfold UpdateSkillRequestSchema in Hv. destruct (_ && _); congruence. }
    subst vd. rewrite Hrows. rewrite List.Forall_forall in *.
    intros s' Hin. apply in_replace in Hin as [[-> _]|[Hin _]]; [|auto].
    rewrite (proj1 (updateFields_keeps req cur now) Hr).
    apply Hs. now apply select_by_id_some in Hcur.
  - destruct (select_by_id i d); simpl; auto.
    rewrite List.Forall_forall in *. intros s' Hin.
    apply filter_In in Hin as [Hin _]. auto.
  - destruct (negb (Js.truthy_opt tok)); simpl; auto.
    destruct (select_by_id i d); simpl; auto.
    destruct pub as [info|]; simpl; auto.
    destruct (update_skill _ i now d) as [d'|] eqn:Hup; simpl; auto.
    apply update_skill_ok in Hup as [[_ ->]|(old & Ho & Hrows & _)]; [exact Hs|].
    rewrite Hrows. rewrite List.Forall_forall in *.
    intros s' Hin. apply in_replace in Hin as [[-> _]|[Hin _]]; [|auto].
    simpl. apply Hs. now apply select_by_id_some in Ho.
Qed.

(** As long as no update carries a name, every stored name is the slug
    that generation gave it. *)
Lemma names_stay_slugs_without_renames (fk : bool) (ops : list op) :
  Forall (fun o => renames o = false) ops ->
  Forall (fun s => SkillName.slug_regex_test (sk_name s) = true)
         (skills (run Handlebars generateDescription ops (empty fk))).
Proof.
  intros Hops.
  assert (H : forall d,
             Forall (fun s => SkillName.slug_regex_test (sk_name s) = true) (skills d) ->
             Forall (fun s => SkillName.slug_regex_test (sk_name s) = true)
                    (skills (run Handlebars generateDescription ops d))).
  { induction Hops as [|o r Ho Hr IH]; intros d Hd; simpl; [exact Hd|].
    apply IH. now apply exec_slugs. }
  apply H. constructor.
Qed.

End StoredNames.

(** ** The archive of a skill *)

(** The archive that generation builds holds the rendered main document
    at the root and every rendered reference document under references/,
    and it is generated with DEFLATE at level 9. *)
Lemma generated_archive_round_trip
    (Handlebars : string -> SkillGeneration.template -> SkillGeneration.template_data -> string)
    (skillType : string) (data : SkillGeneration.template_data)
    (files : SkillGeneration.skill_files) (skillName : string) :
  SkillGeneration.generateSkillFiles Handlebars skillType data = Ok files ->
  JSZip.unpack (SkillGeneration.createSkillZip files skillName)
  = ("skill.md", SkillGeneration.main_doc files)
    :: map (fun '(n, c) => ("references/" ++ n, c)) (SkillGeneration.references files)
  /\ JSZip.generated_with (SkillGeneration.createSkillZip files skillName)
     = {| JSZip.compression := "DEFLATE"; JSZip.level := 9 |}.
Proof.
  unfold SkillGeneration.generateSkillFiles.
  destruct (negb _); [discriminate|].
  intros H. inversion H; subst; clear H. split; reflexivity.
Qed.

(** The download route that files the main document under 'skill.md'
    returns it in the archive. *)
Example download_skill_md_archive :
  match SkillsApi.body (SkillsApi.download_skill_md (Some 1) Samples.created) with
  | SkillsApi.Zip filename zipBuffer =>
      filename = "my-skill.zip"
      /\ JSZip.unpack zipBuffer
         = [("skill.md", "# my-skill skill");
            ("references/practices.md", "# Practices");
            ("references/structure.md", "# Structure");
            ("references/examples.md", "# Examples")]
  | _ => False
  end.
Proof. split; reflexivity. Qed.

(** C7 fails on the download route of the later copy of api/skills.js:
    it files the main document under 'SKILL.md', createSkillZip reads
    'skill.md', and the archive's skill.md is empty although the stored
    main document is not. *)
Theorem download_archive_has_empty_main_document :
  map Store.sk_main_content (Store.skills Samples.created) = ["# my-skill skill"]
  /\ match SkillsApi.body (SkillsApi.download (Some 1) Samples.created) with
     | SkillsApi.Zip filename zipBuffer =>
         JSZip.unpack zipBuffer
         = [("skill.md", EmptyString);
            ("references/practices.md", "# Practices");
            ("references/structure.md", "# Structure");
            ("references/examples.md", "# Examples")]
     | _ => False
     end.
Proof. split; reflexivity. Qed.



(** ** The built-ins used to run the model *)

(** The test suite of RFC 1321. *)
Example md5_test_suite :
  Md5.md5_hex EmptyString = "d41d8cd98f00b204e9800998ecf8427e"
  /\ Md5.md5_hex "a" = "0cc175b9c0f1b6a831c399e269772661"
  /\ Md5.md5_hex "abc" = "900150983cd24fb0d6963f7d28e17f72"
  /\ Md5.md5_hex "message digest" = "f96b697d7cb7938d525a2f31aaf161d0"
  /\ Md5.md5_hex "abcdefghijklmnopqrstuvwxyz" = "c3fcd3d76192e4007dfb496cca67e13b"
  /\ Md5.md5_hex "12345678901234567890123456789012345678901234567890123456789012345678901234567890"
     = "57edf4a22be3c955ac49da2e2107b67a".
Proof. vm_compute. repeat split. Qed.

Example JSON_parse_response :
  JsonText.JSON_parse Samples.good_response = Some Samples.good_value.
Proof. vm_compute. reflexivity. Qed.

Example JSON_parse_numbers :
  JsonText.JSON_parse "0.1" = Some (Json.Num (Json.Fin (3602879701896397 # 36028797018963968)))
  /\ JsonText.JSON_parse "9007199254740993" = Some (Json.Num (Json.Fin 9007199254740992))
  /\ JsonText.JSON_parse "-1e-400" = Some (Json.Num (Json.Fin 0))
  /\ JsonText.JSON_parse "1e309" = Some (Json.Num Json.PosInf)
  /\ JsonText.JSON_parse "01" = None
  /\ JsonText.JSON_parse "[1,]" = None.
Proof. vm_compute. repeat split. Qed.

(** ** Input validation of an analysis request *)

(** C9.  Content shorter than 10 characters is refused before anything
    else happens: [analyzeContent] throws its validation error (an
    AnalysisError, not retryable) and the route answers 400, and in both
    cases the process state is untouched, so no call of the service, no
    write to the cache and no acquisition of the rate limiter took
    place. *)
Theorem short_content_is_refused_first
    (JSON_parse : string -> option Json.value) (service : nat -> ClaudeClient.reply)
    (md5_hex : string -> string) (content contentType : string) (w : Runtime.world) :
  Js.len content < 10 ->
  ContentAnalysis.analyzeContent JSON_parse service md5_hex content contentType w
  = (Throw (ClaudeClient.newAnalysisError "Content too short for analysis"), w)
  /\ AnalyzeApi.post_analyze JSON_parse service md5_hex
       {| AnalyzeApi.content := content; AnalyzeApi.contentType := contentType |} w
     = ({| AnalyzeApi.status := 400; AnalyzeApi.body := AnalyzeApi.ValidationFailed |}, w).
Proof.
  intros H. split.
  - unfold ContentAnalysis.analyzeContent, ContentAnalysis.analyzeContent_try.
    replace (Js.len content <? 10) with true by lia.
    now rewrite orb_true_r.
  - unfold AnalyzeApi.post_analyze, AnalyzeApi.AnalyzeRequestSchema. simpl.
    replace (10 <=? Js.len content) with false by lia. reflexivity.
Qed.

(** The five characters of "hello" are refused and the process stays in
    its initial state. *)
Lemma short_content_is_refused_first_witness :
  Samples.analyze Samples.always_good "hello" "process" Runtime.initial
  = (Throw (ClaudeClient.newAnalysisError "Content too short for analysis"),
     Runtime.initial).
Proof.
  apply (short_content_is_refused_first JsonText.JSON_parse Samples.always_good
           Md5.md5_hex "hello" "process" Runtime.initial).
  reflexivity.
Defined.

(** ** Retries *)

Section Retries.
Import Runtime ClaudeClient.

Variable service : nat -> reply.

Lemma classify_429 error :
  status_is 429 error = true ->
  classify error
  = newRateLimitError
      ("Rate limit exceeded. Retry after " ++ retry_text (retry_hint error) ++ "s")
      (retry_hint error).
Proof. unfold classify, retry_hint. now intros ->. Qed.

Lemma rate_limit_retryable error :
  status_is 429 error = true ->
  retryable (classify error) = true
  /\ class (classify error) = RateLimitError
  /\ retryAfter (classify error) = Some (retry_hint error).
Proof.
  intros H. rewrite (classify_429 _ H). repeat split.
  unfold newRateLimitError, retry_hint. simpl.
  destruct (sdk_retry_after error) as [text|]; [|reflexivity].
  destruct (Js.truthy text) eqn:E; simpl; now rewrite ?E.
Qed.

Lemma callClaudeAPI_calls w :
  w_calls (snd (callClaudeAPI service w)) = S (w_calls w).
Proof. unfold callClaudeAPI. now destruct (outcome (service (w_calls w))). Qed.

Lemma callClaudeAPI_throw w error :
  outcome (service (w_calls w)) = Throw error ->
  callClaudeAPI service w
  = (Throw (classify error), advance (latency (service (w_calls w))) (count_call w)).
Proof. unfold callClaudeAPI. now intros ->. Qed.

Lemma callClaudeAPI_ok w text :
  outcome (service (w_calls w)) = Ok text ->
  callClaudeAPI service w
  = (Ok text, advance (latency (service (w_calls w))) (count_call w)).
Proof. unfold callClaudeAPI. now intros ->. Qed.

(** A rejected attempt that is not the last one is followed, after the
    back-off, by the next attempt. *)
Lemma retry_loop_rejected k attempt maxRetries last w error :
  outcome (service (w_calls w)) = Throw error ->
  status_is 429 error = true ->
  attempt <> maxRetries ->
  retry_loop service (S k) attempt maxRetries last w
  = retry_loop service k (attempt + 1) maxRetries (Some (classify error))
      (sleep (Z.min (2 ^ attempt * 1000) 30000)
             (advance (latency (service (w_calls w))) (count_call w))).
Proof.
  intros Ho Hs Hne. simpl. rewrite (callClaudeAPI_throw _ _ Ho).
  rewrite (proj1 (rate_limit_retryable _ Hs)). simpl.
  now apply Z.eqb_neq in Hne as ->.
Qed.

(** The last attempt decides. *)
Lemma retry_loop_last k maxRetries last w :
  retry_loop service (S k) maxRetries maxRetries last w
  = match outcome (service (w_calls w)) with
    | Ok text => (Ok text, advance (latency (service (w_calls w))) (count_call w))
    | Throw error =>
        (Throw (Some (classify error)),
         advance (latency (service (w_calls w))) (count_call w))
    end.
Proof.
  simpl. unfold callClaudeAPI.
  destruct (outcome (service (w_calls w))); [reflexivity|].
  rewrite Z.eqb_refl. now destruct (retryable (classify e)).
Qed.

End Retries.

(** C3 (as amended).  With maxRetries = 3 the service is called three
    times at most.  After two rejections with HTTP 429 the third attempt
    decides: when it succeeds the operation succeeds, and when it is
    rejected with 429 as well the operation fails with the
    RateLimitError of that last rejection, carrying its retry-after
    value; a fourth attempt is never made. *)
Theorem three_attempts_in_all
    (service : nat -> ClaudeClient.reply) (w : Runtime.world)
    (e1 e2 : ClaudeClient.sdk_error) :
  ClaudeClient.outcome (service (Runtime.w_calls w)) = Throw e1 ->
  ClaudeClient.status_is 429 e1 = true ->
  ClaudeClient.outcome (service (S (Runtime.w_calls w))) = Throw e2 ->
  ClaudeClient.status_is 429 e2 = true ->
  Runtime.w_calls (snd (ClaudeClient.callClaudeWithRetry service 3 w))
  = (3 + Runtime.w_calls w)%nat
  /\ match ClaudeClient.outcome (service (S (S (Runtime.w_calls w)))) with
     | Ok text => fst (ClaudeClient.callClaudeWithRetry service 3 w) = Ok text
     | Throw e3 =>
         fst (ClaudeClient.callClaudeWithRetry service 3 w)
         = Throw (Some (ClaudeClient.classify e3))
         /\ (ClaudeClient.status_is 429 e3 = true ->
             ClaudeClient.class (ClaudeClient.classify e3) = ClaudeClient.RateLimitError
             /\ ClaudeClient.retryAfter (ClaudeClient.classify e3)
                = Some (ClaudeClient.retry_hint e3))
     end.
Proof.
  intros H1 S1 H2 S2.
  unfold ClaudeClient.callClaudeWithRetry.
  change (Z.to_nat 3) with 3%nat.
  rewrite (retry_loop_rejected service _ 1 3 None w e1 H1 S1); [|discriminate].
  rewrite (retry_loop_rejected service _ (1 + 1) 3 _ _ e2); [|exact H2|exact S2|discriminate].
  change (1 + 1 + 1) with 3.
  rewrite retry_loop_last. simpl Runtime.w_calls.
  destruct (ClaudeClient.outcome (service (S (S (Runtime.w_calls w))))) as [text|e3].
  - split; reflexivity.
  - split; [reflexivity|]. split; [reflexivity|].
    intros S3. apply (rate_limit_retryable e3 S3).
Qed.

(** Two rejections, then a good answer: the third attempt succeeds. *)
Lemma three_attempts_in_all_witness :
  Runtime.w_calls
    (snd (ClaudeClient.callClaudeWithRetry Samples.rejects_twice 3 Runtime.initial)) = 3%nat
  /\ fst (ClaudeClient.callClaudeWithRetry Samples.rejects_twice 3 Runtime.initial)
     = Ok Samples.good_response.
Proof.
  apply (three_attempts_in_all Samples.rejects_twice Runtime.initial
           {| ClaudeClient.sdk_status := Some 429;
              ClaudeClient.sdk_retry_after := Some "10";
              ClaudeClient.sdk_code := None;
              ClaudeClient.sdk_message := "Too Many Requests" |}
           {| ClaudeClient.sdk_status := Some 429;
              ClaudeClient.sdk_retry_after := None;
              ClaudeClient.sdk_code := None;
              ClaudeClient.sdk_message := "Too Many Requests" |});
    reflexivity.
Defined.

(** C3 (as stated) fails: when the service rejects three attempts and
    would accept a fourth, the operation fails after the third attempt
    with the RateLimitError of the third rejection; the service is called
    three times. *)
Lemma fourth_attempt_is_never_made :
  ClaudeClient.outcome (Samples.rejects_three_times 3) = Ok Samples.good_response
  /\ fst (ClaudeClient.callClaudeWithRetry Samples.rejects_three_times 3 Runtime.initial)
     = Throw (Some (ClaudeClient.newRateLimitError
                      "Rate limit exceeded. Retry after 30s"
                      (ClaudeClient.HeaderValue "30")))
  /\ Runtime.w_calls
       (snd (ClaudeClient.callClaudeWithRetry Samples.rejects_three_times 3 Runtime.initial))
     = 3%nat.
Proof. repeat split. Qed.

(** When every attempt is rejected, the error of the last attempt is
    the one that surfaces. *)
Example always_rejected :
  fst (ClaudeClient.callClaudeWithRetry Samples.rejects_always 3 Runtime.initial)
  = Throw (Some (ClaudeClient.newRateLimitError
                   "Rate limit exceeded. Retry after 30s"
                   (ClaudeClient.HeaderValue "30"))).
Proof. reflexivity. Qed.

(** ** Validation of the parsed response *)

Section Validation.
Import ClaudeClient.

Lemma assoc_set_same k v fields :
  Json.assoc k (Json.assoc_set k v fields) = Some v.
Proof.
  induction fields as [|[k' v'] r IH]; simpl.
  - now rewrite String.eqb_refl.
  - destruct (String.eqb k k') eqn:E; simpl; [now rewrite String.eqb_refl|].
    now rewrite E.
Qed.

Lemma assoc_set_other k k' v fields :
  k' <> k -> Json.assoc k' (Json.assoc_set k v fields) = Json.assoc k' fields.
Proof.
  intros Hne. induction fields as [|[k0 v0] r IH]; simpl.
  - now apply String.eqb_neq in Hne as ->.
  - destruct (String.eqb k k0) eqn:E; simpl.
    + apply String.eqb_eq in E. subst k0.
      now apply String.eqb_neq in Hne as ->.
    + now rewrite IH.
Qed.

Lemma valid_confidence_range c :
  invalid_confidence c = false ->
  exists q, c = Some (Json.Num (Json.Fin q)) /\ (0 <= q <= 1)%Q.
Proof.
  destruct c as [[| |n| | |]|]; try discriminate.
  destruct n as [q| |]; simpl; try discriminate.
  intros H. apply orb_false_elim in H as [H0 H1].
  apply negb_false_iff in H0, H1.
  exists q. split; [reflexivity|]. split; now apply Qle_bool_iff.
Qed.

End Validation.

(** C2 (as amended).  Validation succeeds exactly when the parsed
    response is an object whose extractedData is present and truthy.
    When it succeeds the confidence of the result is a number in [0,1]:
    the response's own value when that is a number in [0,1], and the
    default 0.5 when it is missing, not a number or out of range; the
    extracted data are passed on unchanged. *)
Theorem validated_confidence_is_a_probability (parsed : Json.value) :
  match ClaudeClient.validateAnalysisResponse parsed with
  | Ok validated =>
      Json.truthy_opt (Json.get "extractedData" parsed) = true
      /\ Json.get "extractedData" validated = Json.get "extractedData" parsed
      /\ exists q,
           Json.get "confidence" validated = Some (Json.Num (Json.Fin q))
           /\ (0 <= q <= 1)%Q
           /\ (if ClaudeClient.invalid_confidence (Json.get "confidence" parsed)
               then q = 1 # 2
               else validated = parsed)
  | Throw _ => Json.truthy_opt (Json.get "extractedData" parsed) = false
  end.
Proof.
  unfold ClaudeClient.validateAnalysisResponse.
  destruct parsed as [|b|n|s|items|fields]; simpl; try reflexivity.
  - now destruct b.
  - now destruct (negb (Json.is_zero n)).
  - now destruct (Js.truthy s).
  - destruct (Json.truthy_opt (Json.assoc "extractedData" fields)) eqn:He; simpl;
      [|reflexivity].
    destruct (ClaudeClient.invalid_confidence (Json.assoc "confidence" fields)) eqn:Hc.
    + split; [reflexivity|]. simpl. split.
      * apply assoc_set_other. discriminate.
      * exists (1 # 2). rewrite assoc_set_same. repeat split; discriminate.
    + split; [reflexivity|]. split; [reflexivity|].
      apply valid_confidence_range in Hc as (q & Hq & Hr).
      exists q. simpl. now rewrite Hq.
Qed.

(** C2 (as stated) fails: a response whose extractedData field is
    present but null, or present but the empty string, is refused. *)
Lemma null_extractedData_is_refused :
  Json.get "extractedData"
    (Json.Obj [("extractedData", Json.Null); ("confidence", Json.Num (Json.Fin (9 # 10)))])
  = Some Json.Null
  /\ ClaudeClient.validateAnalysisResponse
       (Json.Obj [("extractedData", Json.Null); ("confidence", Json.Num (Json.Fin (9 # 10)))])
     = Throw (ClaudeClient.plainError "Missing extractedData field")
  /\ ClaudeClient.validateAnalysisResponse
       (Json.Obj [("extractedData", Json.Str EmptyString);
                  ("confidence", Json.Num (Json.Fin (9 # 10)))])
     = Throw (ClaudeClient.plainError "Missing extractedData field").
Proof. repeat split. Qed.

Example confidence_defaults :
  ClaudeClient.validateAnalysisResponse
    (Json.Obj [("extractedData", Json.Obj []); ("confidence", Json.Num (Json.Fin (3 # 2)))])
  = Ok (Json.Obj [("extractedData", Json.Obj []); ("confidence", Json.Num (Json.Fin (1 # 2)))])
  /\ ClaudeClient.validateAnalysisResponse
       (Json.Obj [("extractedData", Json.Obj []); ("confidence", Json.Str "high")])
     = Ok (Json.Obj [("extractedData", Json.Obj []); ("confidence", Json.Num (Json.Fin (1 # 2)))])
  /\ ClaudeClient.validateAnalysisResponse (Json.Obj [("extractedData", Json.Obj [])])
     = Ok (Json.Obj [("extractedData", Json.Obj []); ("confidence", Json.Num (Json.Fin (1 # 2)))])
  /\ ClaudeClient.validateAnalysisResponse
       (Json.Obj [("extractedData", Json.Obj []); ("confidence", Json.Num Json.PosInf)])
     = Ok (Json.Obj [("extractedData", Json.Obj []); ("confidence", Json.Num (Json.Fin (1 # 2)))]).
Proof. repeat split. Qed.


(** ** Parsing the text of the response *)

Section ParseText.
Import ClaudeClient.

#[local] Arguments String.append : simpl nomatch.




Lemma strip_prefix_spec pat s rest :
  Js.strip_prefix pat s = Some rest <-> s = pat ++ rest.
Proof.
  revert s. induction pat as [|a p IH]; intros s; simpl.
  - split; congruence.
  - destruct s as [|c r]; [split; discriminate|].
    destruct (Ascii.eqb_spec a c) as [->|Hne].
    + rewrite IH. split; congruence.
    + split; [discriminate | congruence].
Qed.

Lemma split_first_sound pat s before rest :
  Js.split_first pat s = Some (before, rest) -> s = before ++ pat ++ rest.
Proof.
  revert before. induction s as [|c r IH]; intros before; simpl.
  - destruct (Js.strip_prefix pat EmptyString) as [x|] eqn:E; [|discriminate].
    intros H. inversion H; subst. now apply strip_prefix_spec in E.
  - destruct (Js.strip_prefix pat (String c r)) as [x|] eqn:E.
    + intros H. inversion H; subst. now apply strip_prefix_spec in E.
    + destruct (Js.split_first pat r) as [[b a]|]; [|discriminate].
      intros H. inversion H; subst. simpl. now rewrite <- (IH b).
Qed.

Lemma split_first_none pat s :
  Js.split_first pat s = None -> forall before rest, s <> before ++ pat ++ rest.
Proof.
  induction s as [|c r IH]; simpl.
  - destruct (Js.strip_prefix pat EmptyString) as [x|] eqn:E; [discriminate|].
    intros _ [|d b] rest H; simpl in H; [|discriminate].
    apply strip_prefix_spec in H. congruence.
  - destruct (Js.strip_prefix pat (String c r)) as [x|] eqn:E; [discriminate|].
    destruct (Js.split_first pat r) as [[b a]|] eqn:Er; [discriminate|].
    intros _ [|d b] rest H; simpl in H.
    + apply strip_prefix_spec in H. congruence.
    + inversion H. now apply (IH eq_refl b rest).
Qed.









Lemma first_fenced_block_fenced text inner :
  first_fenced_block text inner -> fenced_block text inner.
Proof. intros (before & rest & Ht & _). now exists before, rest. Qed.



End ParseText.


(** Of two fenced blocks the first is taken, and of two closing fences
    the first ends the block. *)
Example first_fenced_block_is_taken :
  ClaudeClient.match_fenced
    ("```json" ++ ClaudeClient.nl ++ "1" ++ ClaudeClient.nl ++ "```"
       ++ "```json" ++ ClaudeClient.nl ++ "2" ++ ClaudeClient.nl ++ "```") = Some "1"
  /\ ClaudeClient.parseClaudeResponse JsonText.JSON_parse
       ("x```json" ++ ClaudeClient.nl ++ "1" ++ ClaudeClient.nl ++ "```"
          ++ "```json" ++ ClaudeClient.nl ++ "2" ++ ClaudeClient.nl ++ "```")
     = Ok (Json.Num (Json.Fin 1)).
Proof. vm_compute. split; reflexivity. Qed.


Example parse_fenced_response :
  ClaudeClient.parseClaudeResponse JsonText.JSON_parse
    ("Here is the analysis:" ++ ClaudeClient.nl ++ "```json" ++ ClaudeClient.nl
       ++ Samples.good_response ++ ClaudeClient.nl ++ "```" ++ ClaudeClient.nl)
  = Ok Samples.good_value
  /\ ClaudeClient.parseClaudeResponse JsonText.JSON_parse
       ("Result: " ++ Samples.good_response ++ " (end)")
     = Ok Samples.good_value.
Proof. vm_compute. repeat split. Qed.

(** ** The cache of analysis results *)

Section Cache.
Import Runtime ClaudeClient ContentAnalysis.

(** What the timers that are due at time [T] leave of the cache. *)
Lemma run_timers_lookup T timers (cache : gmap string analysis_result) k :
  run_timers T timers cache !! k
  = if existsb (fun timer => due T timer && String.eqb (snd timer) k) timers
    then None else cache !! k.
Proof.
  unfold run_timers. revert cache.
  induction timers as [|timer r IH]; intros cache; simpl; [reflexivity|].
  rewrite IH. destruct (due T timer); simpl; [|reflexivity].
  destruct (String.eqb_spec (snd timer) k) as [->|Hne]; simpl.
  - rewrite lookup_delete_eq. now destruct (existsb _ r).
  - now rewrite lookup_delete_ne.
Qed.

Lemma no_timer_stable key : stable (no_timer key).
Proof.
  unfold stable, no_timer. repeat split; intros; simpl; auto.
  intros Hin. apply filter_In in Hin as [Hin _]. now apply (H t).
Qed.

Lemma existsb_false {A} (f : A -> bool) l :
  (forall x, In x l -> f x = false) -> existsb f l = false.
Proof.
  induction l as [|x r IH]; simpl; intros H; [reflexivity|].
  rewrite (H x (or_introl eq_refl)). auto.
Qed.

Lemma one_timer_per_key (timers : list (Z * string)) t t' k :
  List.NoDup (map snd timers) -> In (t, k) timers -> In (t', k) timers -> t = t'.
Proof.
  induction timers as [|x r IH]; simpl; [intros _ []|].
  intros Hd Hin Hin'. inversion Hd as [|? ? Hn Hr]; subst.
  destruct Hin as [->|Hin], Hin' as [E|Hin']; auto.
  - congruence.
  - exfalso. apply Hn. apply in_map_iff. now exists (t', k).
  - exfalso. apply Hn. subst x. apply in_map_iff. now exists (t, k).
Qed.

Lemma advance_consistent ms w : timers_consistent w -> timers_consistent (advance ms w).
Proof.
  intros [Hd Hc]. split; simpl.
  - now apply NoDup_map_filter.
  - intros t k Hin. apply filter_In in Hin as [Hin Hnd].
    rewrite run_timers_lookup, existsb_false; [eauto|].
    intros [t' k'] Hin'. simpl.
    destruct (due _ (t', k')) eqn:Hdue; [|reflexivity]. simpl.
    apply String.eqb_neq. intros ->.
    rewrite (one_timer_per_key _ _ _ _ Hd Hin Hin') in Hnd.
    rewrite Hdue in Hnd. discriminate.
Qed.

Lemma timers_consistent_stable : stable timers_consistent.
Proof.
  split; [|split].
  - intros ms w. apply advance_consistent.
  - intros w H. exact H.
  - intros l w H. exact H.
Qed.

Variable JSON_parse : string -> option Json.value.
Variable md5_hex : string -> string.

(** Calling the service only lets time pass, counts calls and writes
    the ledger. *)
Section Stable.

Variable P : world -> Prop.
Hypothesis P_stable : stable P.
Variable service : nat -> reply.

Lemma acquire_stable w : P w -> P (acquire w).
Proof.
  destruct P_stable as (Ha & _ & Hr).
  unfold acquire. generalize (S (length (w_requests w))). intros fuel.
  revert w. induction fuel as [|k IH]; intros w Hw; simpl.
  - destruct (maxRequests <=? _); now apply Hr.
  - destruct (maxRequests <=? _); [|now apply Hr].
    apply IH. unfold sleep. apply Ha. now apply Hr.
Qed.

Lemma callClaudeAPI_stable w : P w -> P (snd (callClaudeAPI service w)).
Proof.
  destruct P_stable as (Ha & Hc & _). intros Hw. unfold callClaudeAPI.
  destruct (outcome (service (w_calls w))); simpl; apply Ha, Hc, Hw.
Qed.

Lemma retry_loop_stable remaining :
  forall attempt maxRetries last w,
    P w -> P (snd (retry_loop service remaining attempt maxRetries last w)).
Proof.
  induction remaining as [|k IH]; intros attempt maxRetries last w Hw; simpl;
    [exact Hw|].
  pose proof (callClaudeAPI_stable w Hw) as H1.
  destruct (callClaudeAPI service w) as [[text|error] w1]; simpl in *; [exact H1|].
  destruct (negb (retryable error)); [exact H1|].
  destruct (attempt =? maxRetries); [exact H1|].
  apply IH. unfold sleep. now apply (proj1 P_stable).
Qed.

Lemma callClaudeWithRateLimit_stable w :
  P w -> P (snd (callClaudeWithRateLimit service w)).
Proof.
  intros Hw. unfold callClaudeWithRateLimit, callClaudeWithRetry.
  apply retry_loop_stable, acquire_stable, Hw.
Qed.

End Stable.

(** A result that has just been cached is still there as long as less
    than the time to live has passed. *)
Lemma cached_for_ttl key r w dt :
  no_timer key w -> 0 <= dt < ttl ->
  w_cache (advance dt (cache_set key r ttl w)) !! key = Some r.
Proof.
  intros Hn Hdt. simpl. rewrite run_timers_lookup.
  rewrite existsb_app. simpl.
  rewrite existsb_false.
  - unfold due. simpl.
    replace (w_now w + ttl <=? w_now w + Z.max 0 dt) with false by lia.
    simpl. apply lookup_insert_eq.
  - intros [t k] Hin. simpl.
    destruct (String.eqb_spec k key) as [->|Hne]; [|apply andb_false_r].
    destruct (Hn t Hin).
Qed.

(** A call that finds nothing cached and returns a result has cached
    it, at a moment when no timer was pending for its key. *)
Lemma analyzeContent_caches service content contentType w r w1 :
  timers_consistent w ->
  w_cache w !! getCacheKey md5_hex content contentType = None ->
  analyzeContent JSON_parse service md5_hex content contentType w = (Ok r, w1) ->
  (negb (Js.truthy content) || (Js.len content <? 10) = false
   /\ (50000 <? Js.len content) = false
   /\ negb (has_framework contentType) = false)
  /\ exists w2,
       no_timer (getCacheKey md5_hex content contentType) w2
       /\ w1 = cache_set (getCacheKey md5_hex content contentType) r ttl w2.
Proof.
  intros Hc Hmiss. unfold analyzeContent, analyzeContent_try.
  destruct (negb (Js.truthy content) || (Js.len content <? 10)); [discriminate|].
  destruct (50000 <? Js.len content); [discriminate|].
  destruct (negb (has_framework contentType)); [discriminate|].
  rewrite Hmiss.
  destruct (negb (shouldAnalyzeContent content)); [discriminate|].
  unfold analyze_uncached.
  assert (Hnt : no_timer (getCacheKey md5_hex content contentType) w).
  { intros t Hin. apply (proj2 Hc) in Hin. rewrite Hmiss in Hin.
    now destruct Hin. }
  pose proof (callClaudeWithRateLimit_stable _ (no_timer_stable _) service w Hnt) as Hs.
  destruct (callClaudeWithRateLimit service w) as [[text|[error|]] wa]; simpl in Hs.
  - destruct (parseClaudeResponse JSON_parse text) as [parsed|e].
    + destruct (validateAnalysisResponse parsed) as [validated|e]; simpl.
      * intros H. inversion H; subst; clear H.
        split; [auto|]. eexists. split; [|reflexivity]. exact Hs.
      * destruct (known_error e); discriminate.
    + destruct (known_error e); discriminate.
  - destruct (known_error error); discriminate.
  - discriminate.
Qed.

Lemma stable_and (P Q : world -> Prop) :
  stable P -> stable Q -> stable (fun w => P w /\ Q w).
Proof.
  intros (P1 & P2 & P3) (Q1 & Q2 & Q3).
  repeat split; intros; try tauto;
    first [apply P1 | apply P2 | apply P3 | apply Q1 | apply Q2 | apply Q3]; tauto.
Qed.

Lemma cache_set_consistent key r w :
  timers_consistent w -> no_timer key w ->
  timers_consistent (cache_set key r ttl w).
Proof.
  intros [Hd Hc] Hn. split; simpl.
  - rewrite map_app. apply List.NoDup_app; [exact Hd | repeat constructor; intros [] |].
    intros k Hk [E|[]]. simpl in E. subst k.
    apply in_map_iff in Hk as ([t k] & Ek & Hin). simpl in Ek. subst k.
    now apply (Hn t).
  - intros t k Hin. apply in_app_or in Hin as [Hin|[E|[]]].
    + destruct (String.eqb_spec key k) as [->|Hne].
      * rewrite lookup_insert_eq. eauto.
      * rewrite lookup_insert_ne; eauto.
    + inversion E; subst. rewrite lookup_insert_eq. eauto.
Qed.

Lemma initial_consistent : timers_consistent initial.
Proof. split; simpl; [constructor | intros ? ? []]. Qed.

(** Calls that do not overlap keep the timers consistent. *)
Lemma analyzeContent_consistent service content contentType w :
  timers_consistent w ->
  timers_consistent
    (snd (analyzeContent JSON_parse service md5_hex content contentType w)).
Proof.
  intros Hc. unfold analyzeContent, analyzeContent_try.
  destruct (negb (Js.truthy content) || (Js.len content <? 10)); [exact Hc|].
  destruct (50000 <? Js.len content); [exact Hc|].
  destruct (negb (has_framework contentType)); [exact Hc|].
  destruct (w_cache w !! getCacheKey md5_hex content contentType) eqn:Hmiss;
    [exact Hc|].
  destruct (negb (shouldAnalyzeContent content)); [exact Hc|].
  unfold analyze_uncached.
  assert (Hnt : no_timer (getCacheKey md5_hex content contentType) w).
  { intros t Hin. apply (proj2 Hc) in Hin. rewrite Hmiss in Hin.
    now destruct Hin. }
  pose proof (callClaudeWithRateLimit_stable _
                (stable_and _ _ timers_consistent_stable (no_timer_stable _))
                service w (conj Hc Hnt)) as [Hs Hn].
  destruct (callClaudeWithRateLimit service w) as [[text|[error|]] wa]; simpl in Hs, Hn.
  - destruct (parseClaudeResponse JSON_parse text) as [parsed|e].
    + destruct (validateAnalysisResponse parsed) as [validated|e]; simpl.
      * now apply cache_set_consistent.
      * now destruct (known_error e).
    + now destruct (known_error e).
  - now destruct (known_error error).
  - exact Hs.
Qed.

(** An entry stays in the cache until its own timer is due, whatever
    else the process does in the meantime. *)
Lemma cached_until_stable key r t :
  stable (fun w => timers_consistent w /\ cached_until key r t w).
Proof.
  split; [|split].
  - intros ms w [Hc H]. split; [now apply advance_consistent|].
    intros Hnow. simpl in Hnow.
    destruct H as [Hl Hin]; [lia|].
    split; simpl.
    + rewrite run_timers_lookup, existsb_false; [exact Hl|].
      intros [t' k'] Hin'. simpl.
      destruct (due _ (t', k')) eqn:Hdue; [|reflexivity]. simpl.
      apply String.eqb_neq. intros ->.
      rewrite (one_timer_per_key _ _ _ _ (proj1 Hc) Hin' Hin) in Hdue.
      unfold due in Hdue. simpl in Hdue. lia.
    + apply filter_In. split; [exact Hin|].
      unfold due. simpl. apply negb_true_iff. lia.
  - intros w H. exact H.
  - intros l w H. exact H.
Qed.

Lemma not_cached_stable key : stable (fun w => w_cache w !! key = None).
Proof.
  split; [|split]; intros; simpl; auto.
  rewrite run_timers_lookup. now destruct (existsb _ _).
Qed.

(** A call of analyzeContent, for whatever content and type, leaves
    the entry where it is. *)
Lemma analyzeContent_keeps_entry key r t service content contentType w :
  timers_consistent w /\ cached_until key r t w ->
  let w' := snd (analyzeContent JSON_parse service md5_hex content contentType w) in
  timers_consistent w' /\ cached_until key r t w'.
Proof.
  intros [Hc Hk].
  split; [now apply analyzeContent_consistent|].
  cbv zeta. unfold analyzeContent, analyzeContent_try.
  destruct (negb (Js.truthy content) || (Js.len content <? 10)); [exact Hk|].
  destruct (50000 <? Js.len content); [exact Hk|].
  destruct (negb (has_framework contentType)); [exact Hk|].
  destruct (w_cache w !! getCacheKey md5_hex content contentType) eqn:Hmiss;
    [exact Hk|].
  destruct (negb (shouldAnalyzeContent content)); [exact Hk|].
  unfold analyze_uncached.
  pose proof (callClaudeWithRateLimit_stable _
                (stable_and _ _ (cached_until_stable key r t)
                   (not_cached_stable (getCacheKey md5_hex content contentType)))
                service w (conj (conj Hc Hk) Hmiss)) as [[_ Hs] Hn].
  destruct (callClaudeWithRateLimit service w) as [[text|[error|]] wa]; simpl in Hs, Hn.
  - destruct (parseClaudeResponse JSON_parse text) as [parsed|e].
    + destruct (validateAnalysisResponse parsed) as [validated|e]; simpl.
      * intros Hnow. simpl in Hnow. destruct (Hs Hnow) as [Hl Hin].
        split; simpl.
        -- rewrite lookup_insert_ne; [exact Hl|]. intros E. rewrite E in Hn. congruence.
        -- apply in_or_app. now left.
      * now destruct (known_error e).
    + now destruct (known_error e).
  - now destruct (known_error error).
  - exact Hs.
Qed.

Lemma replay_keeps_entry key r t service events :
  forall w,
    timers_consistent w /\ cached_until key r t w ->
    timers_consistent (replay JSON_parse service md5_hex events w)
    /\ cached_until key r t (replay JSON_parse service md5_hex events w).
Proof.
  unfold replay.
  induction events as [|e events IH]; intros w H; simpl; [exact H|].
  apply IH. destruct e as [content contentType|ms]; simpl.
  - now apply analyzeContent_keeps_entry.
  - now apply (proj1 (cached_until_stable key r t)).
Qed.

End Cache.

(** C5 (as amended).  When a call of analyzeContent finds nothing cached
    for (content, contentType) and returns a result, a second call with
    the same content and type that starts less than 15 minutes later
    returns that same result from the cache, whatever the process has
    done in between (other calls of analyzeContent, for any content and
    type, and waiting, one after the other) and whatever the service
    would answer; and it leaves the process as it is: the service is
    not called, no time passes, nothing is written. *)
Theorem cached_result_is_reused
    (JSON_parse : string -> option Json.value) (md5_hex : string -> string)
    (service between service' : nat -> ClaudeClient.reply)
    (content contentType : string) (w w1 : Runtime.world)
    (r : Runtime.analysis_result) (events : list ContentAnalysis.event) :
  Runtime.timers_consistent w ->
  Runtime.w_cache w !! ContentAnalysis.getCacheKey md5_hex content contentType = None ->
  ContentAnalysis.analyzeContent JSON_parse service md5_hex content contentType w
  = (Ok r, w1) ->
  Runtime.w_now (ContentAnalysis.replay JSON_parse between md5_hex events w1)
  < Runtime.w_now w1 + ContentAnalysis.ttl ->
  ContentAnalysis.analyzeContent JSON_parse service' md5_hex content contentType
    (ContentAnalysis.replay JSON_parse between md5_hex events w1)
  = (Ok r, ContentAnalysis.replay JSON_parse between md5_hex events w1).
Proof.
  intros Hc Hmiss Hfirst Hnow.
  pose proof (analyzeContent_consistent JSON_parse md5_hex service content contentType
                w Hc) as Hc1.
  rewrite Hfirst in Hc1. simpl in Hc1.
  destruct (analyzeContent_caches JSON_parse md5_hex service content contentType w r w1
              Hc Hmiss Hfirst) as ((C1 & C2 & C3) & w2 & Hnt & E).
  assert (Hk : ContentAnalysis.cached_until
                 (ContentAnalysis.getCacheKey md5_hex content contentType) r
                 (Runtime.w_now w1 + ContentAnalysis.ttl) w1).
  { intros _. subst w1. simpl. split; [apply lookup_insert_eq|].
    apply in_or_app. right. now left. }
  destruct (replay_keeps_entry JSON_parse md5_hex _ r _ between events w1 (conj Hc1 Hk))
    as [_ Hk'].
  destruct (Hk' Hnow) as [Hl _].
  unfold ContentAnalysis.analyzeContent, ContentAnalysis.analyzeContent_try.
  rewrite C1, C2, C3.
  now rewrite Hl.
Qed.

(** After a first analysis the process analyzes the same content as a
    technical text, and a minute passes; the first request is then
    answered from the cache, although the service would now reject
    every call. *)
Lemma cached_result_is_reused_witness :
  Samples.analyze Samples.rejects_always Samples.content "process"
    (ContentAnalysis.replay JsonText.JSON_parse Samples.always_good Md5.md5_hex
       [ContentAnalysis.Analyze Samples.content "technical"; ContentAnalysis.Wait 60000]
       Samples.after_first)
  = (Ok Samples.first_result,
     ContentAnalysis.replay JsonText.JSON_parse Samples.always_good Md5.md5_hex
       [ContentAnalysis.Analyze Samples.content "technical"; ContentAnalysis.Wait 60000]
       Samples.after_first).
Proof.
  apply (cached_result_is_reused JsonText.JSON_parse Md5.md5_hex
           Samples.always_good Samples.always_good Samples.rejects_always
           Samples.content "process" Runtime.initial Samples.after_first
           Samples.first_result
           [ContentAnalysis.Analyze Samples.content "technical";
            ContentAnalysis.Wait 60000]).
  - apply initial_consistent.
  - reflexivity.
  - vm_compute. reflexivity.
  - vm_compute. reflexivity.
Defined.

(** Between the two calls the process has made another call of the
    service and holds two cached results. *)
Example cached_result_is_reused_after_other_calls :
  let w :=
    ContentAnalysis.replay JsonText.JSON_parse Samples.always_good Md5.md5_hex
      [ContentAnalysis.Analyze Samples.content "technical"; ContentAnalysis.Wait 60000]
      Samples.after_first in
  Runtime.w_calls Samples.after_first = 1%nat
  /\ Runtime.w_calls w = 2%nat
  /\ length (Runtime.w_timers w) = 2%nat
  /\ Runtime.w_calls
       (snd (Samples.analyze Samples.rejects_always Samples.content "process" w)) = 2%nat.
Proof. vm_compute. repeat split. Qed.

(** C5 (as stated) fails: when the answer to the first call cannot be
    parsed, nothing is cached, and a second call one second later calls
    the service again.  And a first call that succeeds on its second
    attempt has called the service twice by itself. *)
Lemma failed_analysis_is_not_cached :
  fst (Samples.analyze Samples.garbled_once Samples.content "process" Runtime.initial)
  = Throw (ClaudeClient.newAnalysisError
             "Analysis failed: No valid JSON found in response")
  /\ Runtime.w_calls Samples.after_garbled = 1%nat
  /\ Runtime.w_calls
       (snd (Samples.analyze Samples.garbled_once Samples.content "process"
               (Runtime.advance 1000 Samples.after_garbled))) = 2%nat
  /\ Runtime.w_calls Samples.after_retry = 2%nat
  /\ Runtime.w_calls
       (snd (Samples.analyze Samples.rejects_once Samples.content "process"
               (Runtime.advance 1000 Samples.after_retry))) = 2%nat.
Proof. vm_compute. repeat split. Qed.

(** ** The rate limiter *)

Section RateLimiter.
Import Runtime ClaudeClient.

Lemma minimum_in (l : list Z) : l <> [] -> In (minimum l) l.
Proof.
  destruct l as [|x r]; [congruence|]. intros _. simpl.
  revert x. induction r as [|y r IH]; intros x; simpl; [auto|].
  specialize (IH (Z.min x y)).
  destruct (Z.min_spec x y) as [[_ E]|[_ E]]; rewrite E in *;
    destruct IH as [H|H]; auto.
Qed.

Lemma filter_shorter {A} (f : A -> bool) l x :
  In x l -> f x = false -> (length (List.filter f l) < length l)%nat.
Proof.
  induction l as [|y r IH]; simpl; [intros []|].
  intros [->|Hin] Hx.
  - rewrite Hx. pose proof (List.filter_length_le f r). lia.
  - specialize (IH Hin Hx). destruct (f y); simpl; lia.
Qed.

(** With more fuel than the ledger has entries in the window, [acquire]
    ends by recording the grant at the time it returns. *)
Lemma acquire_loop_grants fuel :
  forall w,
    (length (List.filter (fun time => (w_now w - time <? windowMs)%Z) (w_requests w))
     < fuel)%nat ->
    exists l, w_requests (acquire_loop fuel w) = (l ++ [w_now (acquire_loop fuel w)])%list.
Proof.
  induction fuel as [|k IH]; intros w Hlen; [lia|].
  simpl.
  set (requests := List.filter (fun time => w_now w - time <? windowMs) (w_requests w)) in *.
  destruct (maxRequests <=? Z.of_nat (length requests)) eqn:Hfull.
  - apply IH. simpl.
    assert (Hne : requests <> []).
    { intros E. rewrite E in Hfull. discriminate. }
    pose proof (minimum_in requests Hne) as Hmin.
    assert (Hwin : w_now w - minimum requests < windowMs).
    { apply filter_In in Hmin as [_ H]. lia. }
    eapply Nat.lt_le_trans; [apply (filter_shorter _ _ _ Hmin)|lia].
    lia.
  - eexists. reflexivity.
Qed.

Lemma acquire_grants w :
  exists l, w_requests (acquire w) = (l ++ [w_now (acquire w)])%list.
Proof.
  apply acquire_loop_grants.
  pose proof (List.filter_length_le (fun time => w_now w - time <? windowMs) (w_requests w)).
  lia.
Qed.

End RateLimiter.

(** ** The rate limiter's window *)

Section RateLimiterWindow.
Import Runtime ClaudeClient.

(** The entries of the ledger that are younger than the window. *)
Lemma acquire_loop_window fuel :
  forall w,
    (length (List.filter (fun time => (w_now w - time <? windowMs)%Z) (w_requests w))
     < fuel)%nat ->
    exists l,
      w_requests (acquire_loop fuel w) = (l ++ [w_now (acquire_loop fuel w)])%list
      /\ Z.of_nat (length l) < maxRequests
      /\ Forall (fun time => w_now (acquire_loop fuel w) - time < windowMs) l
      /\ w_now w <= w_now (acquire_loop fuel w).
Proof.
  induction fuel as [|k IH]; intros w Hlen; [lia|].
  simpl.
  set (requests := List.filter (fun time => w_now w - time <? windowMs) (w_requests w)) in *.
  destruct (maxRequests <=? Z.of_nat (length requests)) eqn:Hfull.
  - assert (Hne : requests <> []).
    { intros E. rewrite E in Hfull. discriminate. }
    pose proof (minimum_in requests Hne) as Hmin.
    assert (Hwin : w_now w - minimum requests < windowMs).
    { apply filter_In in Hmin as [_ H]. lia. }
    destruct (IH (sleep (windowMs - (w_now w - minimum requests)) (set_requests requests w)))
      as (l & Hl & Hn & Hw & Hle).
    + simpl. eapply Nat.lt_le_trans; [apply (filter_shorter _ _ _ Hmin)|lia]. lia.
    + exists l. repeat split; auto. simpl in Hle. lia.
  - exists requests. simpl. repeat split; [lia | | lia].
    apply List.Forall_forall. intros time Hin.
    apply filter_In in Hin as [_ H]. lia.
Qed.

End RateLimiterWindow.

(** When [acquire] returns, the ledger ends with the grant it has just
    recorded at the current time, holds at most 50 entries, and every
    entry is younger than the window of 60 s; the clock has not gone
    back. *)
Theorem acquire_keeps_window (w : Runtime.world) :
  let w' := ClaudeClient.acquire w in
  (exists l, Runtime.w_requests w' = (l ++ [Runtime.w_now w'])%list)
  /\ Z.of_nat (length (Runtime.w_requests w')) <= ClaudeClient.maxRequests
  /\ Forall (fun time => Runtime.w_now w' - time < ClaudeClient.windowMs)
            (Runtime.w_requests w')
  /\ Runtime.w_now w <= Runtime.w_now w'.
Proof.
  intros w'. subst w'.
  destruct (acquire_loop_window (S (length (Runtime.w_requests w))) w)
    as (l & Hl & Hn & Hw & Hle).
  { pose proof (List.filter_length_le
                  (fun time => Runtime.w_now w - time <? ClaudeClient.windowMs)
                  (Runtime.w_requests w)). lia. }
  fold (ClaudeClient.acquire w) in *.
  assert (Hall : Forall (fun time => Runtime.w_now (ClaudeClient.acquire w) - time
                                     < ClaudeClient.windowMs)
                        (Runtime.w_requests (ClaudeClient.acquire w))).
  { rewrite Hl. apply Forall_app. split; [exact Hw|].
    repeat constructor. unfold ClaudeClient.windowMs. lia. }
  split; [eauto|]. split; [rewrite Hl, length_app; simpl; lia|].
  split; [exact Hall | exact Hle].
Qed.



(** ** How often the service is called *)

Section ServiceCalls.
Import Runtime ClaudeClient.

Variable service : nat -> reply.

Lemma acquire_loop_calls fuel : forall w, w_calls (acquire_loop fuel w) = w_calls w.
Proof.
  induction fuel as [|k IH]; intros w; simpl.
  - now destruct (maxRequests <=? _).
  - destruct (maxRequests <=? _); [|reflexivity]. now rewrite IH.
Qed.

Lemma retry_loop_calls remaining :
  forall attempt maxRetries last w,
    (w_calls w <= w_calls (snd (retry_loop service remaining attempt maxRetries last w))
     <= w_calls w + remaining)%nat.
Proof.
  induction remaining as [|k IH]; intros attempt maxRetries last w; simpl; [lia|].
  pose proof (callClaudeAPI_calls service w) as Hc.
  destruct (callClaudeAPI service w) as [[text|error] w1]; simpl in *; [lia|].
  destruct (negb (retryable error)); simpl; [lia|].
  destruct (attempt =? maxRetries); simpl; [lia|].
  specialize (IH (attempt + 1) maxRetries (Some error) (sleep (Z.min (2 ^ attempt * 1000) 30000) w1)).
  simpl in IH. lia.
Qed.

(** The first attempt is always made when the loop may run at all. *)
Lemma retry_loop_first remaining attempt maxRetries last w :
  (S (w_calls w)
   <= w_calls (snd (retry_loop service (S remaining) attempt maxRetries last w)))%nat.
Proof.
  simpl.
  pose proof (callClaudeAPI_calls service w) as Hc.
  destruct (callClaudeAPI service w) as [[text|error] w1]; simpl in *; [lia|].
  destruct (negb (retryable error)); simpl; [lia|].
  destruct (attempt =? maxRetries); simpl; [lia|].
  pose proof (retry_loop_calls remaining (attempt + 1) maxRetries (Some error)
                (sleep (Z.min (2 ^ attempt * 1000) 30000) w1)) as H.
  simpl in H. lia.
Qed.

(** An error that the loop throws comes from the classification of an
    error of the service, unless it is the one the loop started with. *)
Lemma retry_loop_throws remaining :
  forall attempt maxRetries last w e w',
    retry_loop service remaining attempt maxRetries last w = (Throw e, w') ->
    e = last \/ exists error, e = Some (classify error).
Proof.
  induction remaining as [|k IH]; intros attempt maxRetries last w e w'; simpl.
  - intros H. inversion H. auto.
  - unfold callClaudeAPI.
    destruct (outcome (service (w_calls w))) as [text|error]; [discriminate|].
    destruct (retryable (classify error)) eqn:Hr; simpl.
    + destruct (attempt =? maxRetries).
      * intros H. inversion H. eauto.
      * intros H. apply IH in H as [->|H]; eauto.
    + intros H. inversion H. eauto.
Qed.

End ServiceCalls.

(** Whatever the service answers, [callClaudeWithRetry] calls it at
    most [maxRetries] times, and [callClaudeWithRateLimit] calls it at
    least once and at most three times. *)
Theorem service_calls_are_bounded
    (service : nat -> ClaudeClient.reply) (maxRetries : Z) (w : Runtime.world) :
  (Runtime.w_calls w
   <= Runtime.w_calls (snd (ClaudeClient.callClaudeWithRetry service maxRetries w))
   <= Runtime.w_calls w + Z.to_nat maxRetries)%nat
  /\ (1 + Runtime.w_calls w
      <= Runtime.w_calls (snd (ClaudeClient.callClaudeWithRateLimit service w))
      <= 3 + Runtime.w_calls w)%nat.
Proof.
  split.
  - apply retry_loop_calls.
  - unfold ClaudeClient.callClaudeWithRateLimit, ClaudeClient.callClaudeWithRetry.
    change (Z.to_nat 3) with 3%nat.
    pose proof (retry_loop_calls service 3 1 3 None (ClaudeClient.acquire w)) as H.
    pose proof (retry_loop_first service 2 1 3 None (ClaudeClient.acquire w)) as H1.
    unfold ClaudeClient.acquire in *. rewrite acquire_loop_calls in *. lia.
Qed.

(** An error that is not retryable (an API key that is refused, a
    request that is invalid, an error of unknown kind) ends
    [callClaudeWithRetry] at once: one call of the service, no back-off,
    and the classified error is thrown. *)
Theorem non_retryable_error_is_not_retried
    (service : nat -> ClaudeClient.reply) (maxRetries : Z) (w : Runtime.world)
    (error : ClaudeClient.sdk_error) :
  1 <= maxRetries ->
  ClaudeClient.outcome (service (Runtime.w_calls w)) = Throw error ->
  ClaudeClient.retryable (ClaudeClient.classify error) = false ->
  ClaudeClient.callClaudeWithRetry service maxRetries w
  = (Throw (Some (ClaudeClient.classify error)),
     Runtime.advance (ClaudeClient.latency (service (Runtime.w_calls w)))
                     (Runtime.count_call w)).
Proof.
  intros Hm Ho Hr. unfold ClaudeClient.callClaudeWithRetry.
  destruct (Z.to_nat maxRetries) as [|k] eqn:Hk; [lia|].
  simpl. rewrite (callClaudeAPI_throw _ _ _ Ho). now rewrite Hr.
Qed.

(** A refused API key: one call, and the error is the AUTH_ERROR. *)
Lemma non_retryable_error_is_not_retried_witness :
  ClaudeClient.callClaudeWithRetry Samples.always_unauthorized 3 Runtime.initial
  = (Throw (Some (ClaudeClient.newClaudeAPIError "Invalid API key" "AUTH_ERROR" 401 false)),
     Runtime.advance 100 (Runtime.count_call Runtime.initial)).
Proof.
  apply (non_retryable_error_is_not_retried Samples.always_unauthorized 3 Runtime.initial
           {| ClaudeClient.sdk_status := Some 401;
              ClaudeClient.sdk_retry_after := None;
              ClaudeClient.sdk_code := None;
              ClaudeClient.sdk_message := "invalid x-api-key" |});
    [lia | reflexivity | reflexivity].
Defined.

(** ** The errors of an analysis *)

Section AnalysisErrors.
Import Runtime ClaudeClient ContentAnalysis.

Variable JSON_parse : string -> option Json.value.
Variable service : nat -> reply.
Variable md5_hex : string -> string.

Lemma parseClaudeResponse_throws text e :
  parseClaudeResponse JSON_parse text = Throw e -> exists m, e = plainError m.
Proof.
  unfold parseClaudeResponse.
  destruct (JSON_parse text); [discriminate|].
  destruct (match_fenced text) as [inner|].
  - destruct (JSON_parse inner); [discriminate|]. intros H. inversion H. eauto.
  - destruct (match_braces text) as [object|].
    + destruct (JSON_parse object); [discriminate|]. intros H. inversion H. eauto.
    + intros H. inversion H. eauto.
Qed.

Lemma validateAnalysisResponse_throws parsed e :
  validateAnalysisResponse parsed = Throw e -> exists m, e = plainError m.
Proof.
  unfold validateAnalysisResponse.
  destruct (_ || _); [intros H; inversion H; eauto|].
  destruct (negb _); [intros H; inversion H; eauto|].
  destruct (invalid_confidence _); [|discriminate].
  destruct parsed; discriminate.
Qed.

(** The content that passes the length check is never too large for
    the token estimate. *)
Lemma short_enough_to_analyze content :
  (50000 <? Js.len content) = false -> shouldAnalyzeContent content = true.
Proof.
  unfold shouldAnalyzeContent, estimateTokens. intros H.
  apply Z.ltb_ge in H. apply Z.leb_le.
  assert (Js.len content + 3 <= 50003) by lia.
  transitivity (50003 / 4); [now apply Z.div_le_mono | now vm_compute].
Qed.

Lemma wrapped_message m :
  ("Analysis failed: " ++ m)%string
  <> "Content too large for analysis. Consider breaking it into smaller chunks.".
Proof. intros H. cbv [String.append] in H. discriminate H. Qed.

(** What [classify] makes of an error of the service, as far as
    [analyzeContent] tells the classes apart. *)
Lemma classify_cases error :
  (status_is 429 error = true /\ class (classify error) = RateLimitError)
  \/ classify error = newServiceError "Claude API server error" true
  \/ class (classify error) = ClaudeAPIError.
Proof.
  unfold classify.
  destruct (status_is 429 error); [left; split; reflexivity|].
  destruct (status_is 401 error); [right; right; reflexivity|].
  destruct (match sdk_status error with Some st => 500 <=? st | None => false end);
    [right; left; reflexivity|].
  destruct (status_is 400 error); [right; right; reflexivity|].
  destruct (_ || _); right; right; reflexivity.
Qed.

Lemma retry_hint_truthy error : retry_truthy (retry_hint error) = true.
Proof.
  unfold retry_hint. destruct (sdk_retry_after error) as [text|]; [|reflexivity].
  destruct (Js.truthy text) eqn:E; [exact E | reflexivity].
Qed.

Lemma analyzeContent_throws content contentType w e :
  fst (analyzeContent JSON_parse service md5_hex content contentType w) = Throw e ->
  (exists m, e = newAnalysisError m
             /\ m <> "Content too large for analysis. Consider breaking it into smaller chunks.")
  \/ (exists error, status_is 429 error = true /\ e = classify error)
  \/ e = newServiceError "Claude API server error" true.
Proof.
  assert (Hwrap : forall x : js_error, class x = Error \/ class x = ClaudeAPIError ->
            forall w',
            fst (if known_error x then (Throw x, w')
                 else (Throw (newAnalysisError ("Analysis failed: " ++ message x)), w')
                 : result js_error analysis_result * world) = Throw e ->
            exists m, e = newAnalysisError m
              /\ m <> "Content too large for analysis. Consider breaking it into smaller chunks.").
  { intros x Hx w'. unfold known_error.
    destruct Hx as [-> | ->]; simpl; intros H; inversion H; eexists;
      (split; [reflexivity | apply wrapped_message]). }
  unfold analyzeContent, analyzeContent_try.
  destruct (negb (Js.truthy content) || (Js.len content <? 10)).
  { simpl. intros H. inversion H. left. eexists. split; [reflexivity | discriminate]. }
  destruct (50000 <? Js.len content) eqn:Hlong.
  { simpl. intros H. inversion H. left. eexists. split; [reflexivity | discriminate]. }
  destruct (negb (has_framework contentType)).
  { simpl. intros H. inversion H. left. eexists. split; [reflexivity|].
    intros E. cbv [String.append] in E. discriminate E. }
  destruct (w_cache w !! getCacheKey md5_hex content contentType); [discriminate|].
  rewrite (short_enough_to_analyze _ Hlong). simpl.
  unfold analyze_uncached.
  destruct (callClaudeWithRateLimit service w) as [[text|[error|]] wa] eqn:Hcall.
  - destruct (parseClaudeResponse JSON_parse text) as [parsed|x] eqn:Hp.
    + destruct (validateAnalysisResponse parsed) as [validated|x] eqn:Hv.
      * discriminate.
      * apply validateAnalysisResponse_throws in Hv as [m ->].
        intros H. left. apply (Hwrap (plainError m) (or_introl eq_refl) wa H).
    + apply parseClaudeResponse_throws in Hp as [m ->].
      intros H. left. apply (Hwrap (plainError m) (or_introl eq_refl) wa H).
  - unfold callClaudeWithRateLimit, callClaudeWithRetry in Hcall.
    apply retry_loop_throws in Hcall as [Hcall|[err Hcall]]; [discriminate|].
    inversion Hcall; subst error; clear Hcall.
    destruct (classify_cases err) as [[Hs Hc]|[Hc|Hc]].
    + unfold known_error. rewrite Hc. simpl. intros H. inversion H. eauto.
    + rewrite Hc. simpl. intros H. inversion H. auto.
    + intros H. left. apply (Hwrap (classify err) (or_intror Hc) wa H).
  - intros H. left.
    apply (Hwrap (plainError "Cannot read properties of undefined (reading 'message')")
                 (or_introl eq_refl) wa H).
Qed.

End AnalysisErrors.

(** Every error that [analyzeContent] throws is an AnalysisError, the
    RateLimitError made from a rejection with HTTP 429, or the
    ServiceError made from a failure of the service with a status of 500
    or more; a plain Error or a ClaudeAPIError of another kind (a refused
    API key, an invalid request, a timeout) never leaves it unwrapped. *)
Theorem analyzeContent_error_classes
    (JSON_parse : string -> option Json.value) (service : nat -> ClaudeClient.reply)
    (md5_hex : string -> string) (content contentType : string) (w : Runtime.world) :
  match fst (ContentAnalysis.analyzeContent JSON_parse service md5_hex
               content contentType w) with
  | Ok _ => True
  | Throw e =>
      match ClaudeClient.class e with
      | ClaudeClient.AnalysisError => exists m, e = ClaudeClient.newAnalysisError m
      | ClaudeClient.RateLimitError =>
          exists error,
            ClaudeClient.status_is 429 error = true /\ e = ClaudeClient.classify error
      | ClaudeClient.ServiceError =>
          e = ClaudeClient.newServiceError "Claude API server error" true
      | ClaudeClient.Error | ClaudeClient.ClaudeAPIError => False
      end
  end.
Proof.
  destruct (fst _) as [r|e] eqn:H; [exact I|].
  apply analyzeContent_throws in H as [(m & -> & _)|[(error & Hs & ->)| ->]]; simpl; eauto.
  destruct (rate_limit_retryable error Hs) as (_ & -> & _). eauto.
Qed.

(** The branch of [analyzeContent] that refuses content as too large
    for the token estimate is never taken: content of at most 50,000
    characters is estimated at 12,500 tokens at most. *)
Theorem content_too_large_is_never_reported
    (JSON_parse : string -> option Json.value) (service : nat -> ClaudeClient.reply)
    (md5_hex : string -> string) (content contentType : string) (w : Runtime.world) :
  match fst (ContentAnalysis.analyzeContent JSON_parse service md5_hex
               content contentType w) with
  | Ok _ => True
  | Throw e =>
      ClaudeClient.message e
      <> "Content too large for analysis. Consider breaking it into smaller chunks."
  end.
Proof.
  destruct (fst _) as [r|e] eqn:H; [exact I|].
  apply analyzeContent_throws in H as [(m & -> & Hm)|[(error & Hs & ->)| ->]]; simpl.
  - exact Hm.
  - rewrite (classify_429 _ Hs). simpl. intros E. cbv [String.append] in E. discriminate E.
  - discriminate.
Qed.

(** POST /api/analyze answers 200 with the analysis, 400, 429 or 500.
    The retry-after value of a 429 is the number 60 or the text of a
    retry-after header that is not empty (so it is truthy; the text may
    be "0").  A failed analysis is answered with 400 and retryable
    false, or with 500 and retryable true; and with 500 only for the
    error 'Claude API server error', which is made from a failure of
    the service with a status of 500 or more. *)
Theorem post_analyze_statuses
    (JSON_parse : string -> option Json.value) (service : nat -> ClaudeClient.reply)
    (md5_hex : string -> string) (req : AnalyzeApi.analyze_request) (w : Runtime.world) :
  let response := fst (AnalyzeApi.post_analyze JSON_parse service md5_hex req w) in
  match AnalyzeApi.body response with
  | AnalyzeApi.Analysis _ => AnalyzeApi.status response = 200
  | AnalyzeApi.ValidationFailed => AnalyzeApi.status response = 400
  | AnalyzeApi.RateLimited retryAfter _ =>
      AnalyzeApi.status response = 429 /\ ClaudeClient.retry_truthy retryAfter = true
      /\ (retryAfter = ClaudeClient.Seconds 60
          \/ exists text, text <> EmptyString
                          /\ retryAfter = ClaudeClient.HeaderValue text)
  | AnalyzeApi.Failed error message retryable =>
      error = "Analysis failed"
      /\ ((AnalyzeApi.status response = 400 /\ retryable = false)
          \/ (AnalyzeApi.status response = 500
              /\ message = "Claude API server error" /\ retryable = true))
  end.
Proof.
  unfold AnalyzeApi.post_analyze.
  destruct (AnalyzeApi.AnalyzeRequestSchema req) as [validatedData|]; [|reflexivity].
  destruct (ContentAnalysis.analyzeContent _ _ _ _ _ _) as [[r|e] w'] eqn:H; [reflexivity|].
  pose proof (analyzeContent_throws JSON_parse service md5_hex
                (AnalyzeApi.content validatedData) (AnalyzeApi.contentType validatedData)
                w e) as Hc.
  rewrite H in Hc. specialize (Hc eq_refl).
  destruct Hc as [(m & -> & _)|[(error & Hs & ->)| ->]]; simpl.
  - auto.
  - rewrite (classify_429 _ Hs). simpl. split; [reflexivity|].
    rewrite !retry_hint_truthy. split; [reflexivity|].
    unfold ClaudeClient.retry_hint.
    destruct (ClaudeClient.sdk_retry_after error) as [text|]; [|now left].
    destruct text as [|c text]; [now left|].
    right. exists (String c text). split; [discriminate | reflexivity].
  - auto.
Qed.

(** A rejection whose retry-after header is the text 0 is answered
    with 429 and that text. *)
Example post_analyze_retry_after_zero :
  fst (AnalyzeApi.post_analyze JsonText.JSON_parse
         (fun _ => Samples.rate_limited (Some "0")) Md5.md5_hex
         {| AnalyzeApi.content := Samples.content; AnalyzeApi.contentType := "process" |}
         Runtime.initial)
  = {| AnalyzeApi.status := 429;
       AnalyzeApi.body :=
         AnalyzeApi.RateLimited (ClaudeClient.HeaderValue "0")
           "Rate limit exceeded. Retry after 0s" |}.
Proof. vm_compute. reflexivity. Qed.

(** A refused API key is answered with 400, and a failing service with
    500 after three attempts. *)
Example post_analyze_upstream_failures :
  fst (AnalyzeApi.post_analyze JsonText.JSON_parse Samples.always_unauthorized Md5.md5_hex
         {| AnalyzeApi.content := Samples.content; AnalyzeApi.contentType := "process" |}
         Runtime.initial)
  = {| AnalyzeApi.status := 400;
       AnalyzeApi.body :=
         AnalyzeApi.Failed "Analysis failed" "Analysis failed: Invalid API key" false |}
  /\ fst (AnalyzeApi.post_analyze JsonText.JSON_parse Samples.always_unavailable Md5.md5_hex
            {| AnalyzeApi.content := Samples.content; AnalyzeApi.contentType := "process" |}
            Runtime.initial)
     = {| AnalyzeApi.status := 500;
          AnalyzeApi.body :=
            AnalyzeApi.Failed "Analysis failed" "Claude API server error" true |}
  /\ Runtime.w_calls
       (snd (AnalyzeApi.post_analyze JsonText.JSON_parse Samples.always_unavailable
               Md5.md5_hex
               {| AnalyzeApi.content := Samples.content;
                  AnalyzeApi.contentType := "process" |}
               Runtime.initial)) = 3%nat.
Proof. vm_compute. repeat split. Qed.

(** ** Cache keys and cached results *)

Section CachedResults.
Import Runtime ClaudeClient ContentAnalysis.

#[local] Arguments String.append : simpl nomatch.

Lemma has_char_tail c a s : has_char c s -> has_char c (String a s).
Proof. intros (before & rest & ->). now exists (String a before), rest. Qed.

(** Two texts that agree and whose parts before the first colon hold
    no colon agree part by part. *)
Lemma colon_split t1 :
  forall t2 h1 h2,
    ~ has_char ":"%char t1 -> ~ has_char ":"%char t2 ->
    (t1 ++ ":" ++ h1 = t2 ++ ":" ++ h2)%string -> t1 = t2 /\ h1 = h2.
Proof.
  induction t1 as [|a r IH]; intros [|b r2] h1 h2 H1 H2 E; simpl in E.
  - inversion E. auto.
  - inversion E; subst b. destruct H2. now exists EmptyString, r2.
  - inversion E; subst a. destruct H1. now exists EmptyString, r.
  - inversion E; subst b.
    destruct (IH r2 h1 h2) as [-> ->]; auto.
    + intros H. apply H1. now apply has_char_tail.
    + intros H. apply H2. now apply has_char_tail.
Qed.

Lemma has_char_in c s : has_char c s -> In c (Js.chars s).
Proof.
  intros (before & rest & ->). induction before as [|a r IH]; simpl; auto.
Qed.

Lemma framework_colon_free t : has_framework t = true -> ~ has_char ":"%char t.
Proof.
  intros H Hc. apply has_char_in in Hc.
  assert (Hin : In t (framework_keys ++ prototype_keys)%list).
  { unfold has_framework, Store.mem in H. apply in_or_app.
    apply orb_prop in H as [H|H]; [left|right];
      apply existsb_exists in H as (x & Hx & E);
      apply String.eqb_eq in E; now subst x. }
  unfold framework_keys, prototype_keys in Hin. simpl in Hin.
  repeat (destruct Hin as [<-|Hin]; [vm_compute in Hc; intuition discriminate|]).
  destruct Hin.
Qed.

(** What a response that passes validation holds. *)
Lemma validated_response parsed v :
  validateAnalysisResponse parsed = Ok v ->
  Json.truthy_opt (Json.get "extractedData" v) = true
  /\ exists q, Json.get "confidence" v = Some (Json.Num (Json.Fin q)) /\ (0 <= q <= 1)%Q.
Proof.
  unfold validateAnalysisResponse.
  destruct (_ || _); [discriminate|].
  destruct (Json.truthy_opt (Json.get "extractedData" parsed)) eqn:He; [|discriminate].
  simpl.
  destruct (invalid_confidence (Json.get "confidence" parsed)) eqn:Hc.
  - destruct parsed as [| | | | |fields]; intros H; inversion H; subst v; clear H;
      try discriminate He.
    simpl in *. split.
    + rewrite assoc_set_other; [exact He | discriminate].
    + exists (1 # 2). rewrite assoc_set_same. repeat split; discriminate.
  - intros H. inversion H; subst v; clear H. split; [exact He|].
    apply valid_confidence_range in Hc as (q & Hq & Hr). eauto.
Qed.

Lemma cache_validated_stable : stable cache_validated.
Proof.
  unfold cache_validated. split; [|split]; intros; simpl in *; eauto.
  rewrite run_timers_lookup in H0.
  destruct (existsb _ _); [discriminate | eauto].
Qed.

Variable JSON_parse : string -> option Json.value.
Variable service : nat -> reply.
Variable md5_hex : string -> string.

Lemma analyzeContent_validated content contentType w :
  cache_validated w ->
  match analyzeContent JSON_parse service md5_hex content contentType w with
  | (Ok r, w') =>
      Runtime.contentType r = contentType /\ validated r /\ cache_validated w'
  | (Throw _, w') => cache_validated w'
  end.
Proof.
  intros Hw. unfold analyzeContent, analyzeContent_try.
  destruct (negb (Js.truthy content) || (Js.len content <? 10)); [exact Hw|].
  destruct (50000 <? Js.len content); [exact Hw|].
  destruct (has_framework contentType) eqn:Hf; [|exact Hw]. simpl.
  destruct (w_cache w !! getCacheKey md5_hex content contentType) as [cached|] eqn:Hhit.
  { destruct (Hw _ _ Hhit) as (Hv & digest & Hk).
    split; [|auto]. unfold getCacheKey in Hk.
    apply colon_split in Hk as [E _]; auto using framework_colon_free.
    apply framework_colon_free, Hv. }
  destruct (negb (shouldAnalyzeContent content)); [exact Hw|].
  unfold analyze_uncached.
  pose proof (callClaudeWithRateLimit_stable _ cache_validated_stable service w Hw) as Hs.
  destruct (callClaudeWithRateLimit service w) as [[text|[error|]] wa]; simpl in Hs.
  - destruct (parseClaudeResponse JSON_parse text) as [parsed|e].
    + destruct (validateAnalysisResponse parsed) as [v|e] eqn:Hv; simpl.
      * apply validated_response in Hv as (He & Hq).
        assert (Hr : forall t, validated
                  {| analysisId := w_uuids wa; Runtime.contentType := contentType;
                     extractedData := Json.get "extractedData" v;
                     confidence := Json.get "confidence" v;
                     processingTime := (w_now wa - w_now w) # 1000;
                     notes := match Json.get "notes" v with
                              | Some x => if Json.truthy x then x else Json.Str EmptyString
                              | None => Json.Str EmptyString
                              end;
                     timestamp := t |}).
        { intros t. repeat split; simpl; auto. }
        split; [reflexivity|]. split; [apply Hr|].
        intros k r. simpl.
        destruct (String.eqb_spec (getCacheKey md5_hex content contentType) k) as [<-|Hne].
        -- rewrite lookup_insert_eq. intros H. inversion H; subst r; clear H.
           split; [apply Hr|]. eexists. reflexivity.
        -- rewrite lookup_insert_ne by exact Hne. apply Hs.
      * now destruct (known_error e).
    + now destruct (known_error e).
  - now destruct (known_error error).
  - exact Hs.
Qed.

End CachedResults.

(** Two requests whose content types have a framework get the same
    cache key only when the types are the same and the digests of their
    contents agree: the type in front of the key keeps the results of
    different types apart, although the digest is taken of the content
    and the type written one after the other. *)
Theorem cache_keys_separate_types
    (md5_hex : string -> string) (content1 type1 content2 type2 : string) :
  ContentAnalysis.has_framework type1 = true ->
  ContentAnalysis.has_framework type2 = true ->
  ContentAnalysis.getCacheKey md5_hex content1 type1
  = ContentAnalysis.getCacheKey md5_hex content2 type2 ->
  type1 = type2 /\ md5_hex (content1 ++ type1) = md5_hex (content2 ++ type2).
Proof.
  intros H1 H2 E. unfold ContentAnalysis.getCacheKey in E.
  apply colon_split in E; auto using framework_colon_free.
Qed.

(** The same content under two types has two keys. *)
Lemma cache_keys_separate_types_witness :
  ContentAnalysis.getCacheKey Md5.md5_hex Samples.content "process"
  <> ContentAnalysis.getCacheKey Md5.md5_hex Samples.content "technical".
Proof.
  intros E.
  destruct (cache_keys_separate_types Md5.md5_hex Samples.content "process"
              Samples.content "technical" eq_refl eq_refl E) as [H _].
  discriminate H.
Defined.

(** As long as every cached result is a validated one filed under a
    key of its own content type, [analyzeContent] returns only results
    that carry the requested content type, truthy extracted data and a
    confidence in [0,1], from the cache or from the service, and it
    leaves the cache in that state. *)
Theorem analysis_results_are_validated
    (JSON_parse : string -> option Json.value) (service : nat -> ClaudeClient.reply)
    (md5_hex : string -> string) (content contentType : string) (w : Runtime.world) :
  ContentAnalysis.cache_validated w ->
  match ContentAnalysis.analyzeContent JSON_parse service md5_hex content contentType w with
  | (Ok r, w') =>
      Runtime.contentType r = contentType
      /\ ContentAnalysis.validated r
      /\ ContentAnalysis.cache_validated w'
  | (Throw _, w') => ContentAnalysis.cache_validated w'
  end.
Proof. apply analyzeContent_validated. Qed.

(** The first analysis of a fresh process. *)
Lemma analysis_results_are_validated_witness :
  Runtime.contentType Samples.first_result = "process"
  /\ ContentAnalysis.validated Samples.first_result
  /\ ContentAnalysis.cache_validated Samples.after_first.
Proof.
  assert (H := analysis_results_are_validated JsonText.JSON_parse Samples.always_good
                 Md5.md5_hex Samples.content "process" Runtime.initial).
  replace (ContentAnalysis.analyzeContent JsonText.JSON_parse Samples.always_good
             Md5.md5_hex Samples.content "process" Runtime.initial)
    with (Ok (E := ClaudeClient.js_error) Samples.first_result, Samples.after_first)
    in H by (vm_compute; reflexivity).
  apply H. intros k r Hk. simpl in Hk. rewrite lookup_empty in Hk. discriminate Hk.
Defined.

(** ** Retrying an analysis *)

Section RetryAnalysis.
Import Runtime ClaudeClient ContentAnalysis.

Variable JSON_parse : string -> option Json.value.
Variable service : nat -> reply.
Variable md5_hex : string -> string.

(** One analysis calls the service three times at most. *)
Lemma analyzeContent_calls content contentType w :
  (w_calls w
   <= w_calls (snd (analyzeContent JSON_parse service md5_hex content contentType w))
   <= w_calls w + 3)%nat.
Proof.
  unfold analyzeContent, analyzeContent_try.
  destruct (negb (Js.truthy content) || (Js.len content <? 10)); [simpl; lia|].
  destruct (50000 <? Js.len content); [simpl; lia|].
  destruct (negb (has_framework contentType)); [simpl; lia|].
  destruct (w_cache w !! getCacheKey md5_hex content contentType); [simpl; lia|].
  destruct (negb (shouldAnalyzeContent content)); [simpl; lia|].
  unfold analyze_uncached.
  pose proof (retry_loop_calls service 3 1 3 None (acquire w)) as H.
  unfold callClaudeWithRateLimit, callClaudeWithRetry.
  change (Z.to_nat 3) with 3%nat.
  assert (Hacq : w_calls (acquire w) = w_calls w)
    by (unfold acquire; apply acquire_loop_calls).
  rewrite Hacq in H.
  destruct (retry_loop service 3 1 3 None (acquire w)) as [[text|[error|]] wa];
    simpl in H.
  - destruct (parseClaudeResponse JSON_parse text) as [parsed|e].
    + destruct (validateAnalysisResponse parsed) as [v|e]; simpl; [lia|].
      destruct (known_error e); simpl; lia.
    + destruct (known_error e); simpl; lia.
  - destruct (known_error error); simpl; lia.
  - simpl. lia.
Qed.

Lemma retry_analysis_calls remaining :
  forall attempt maxRetries last content contentType w,
    (w_calls w
     <= w_calls (snd (retry_analysis JSON_parse service md5_hex remaining attempt
                        maxRetries last content contentType w))
     <= w_calls w + 3 * remaining)%nat.
Proof.
  induction remaining as [|k IH]; intros attempt maxRetries last content contentType w;
    simpl; [lia|].
  pose proof (analyzeContent_calls content contentType w) as Hc.
  destruct (analyzeContent JSON_parse service md5_hex content contentType w)
    as [[r|error] w1]; simpl in *; [lia|].
  destruct (isAnalysisError error && negb (retryable error)); simpl; [lia|].
  destruct ((attempt <? maxRetries) && isRetryableError error).
  - specialize (IH (attempt + 1) maxRetries (Some error) content contentType
                   (sleep (2 ^ attempt * 1000) w1)).
    simpl in IH. lia.
  - specialize (IH (attempt + 1) maxRetries (Some error) content contentType w1). lia.
Qed.

End RetryAnalysis.

(** [analyzeContentWithRetry] calls the service at most three times
    for each of its [maxRetries] attempts: six times with the default of
    two attempts. *)
Theorem analyzeContentWithRetry_calls_are_bounded
    (JSON_parse : string -> option Json.value) (service : nat -> ClaudeClient.reply)
    (md5_hex : string -> string) (content contentType : string) (maxRetries : Z)
    (w : Runtime.world) :
  (Runtime.w_calls w
   <= Runtime.w_calls
        (snd (ContentAnalysis.analyzeContentWithRetry JSON_parse service md5_hex
                content contentType maxRetries w))
   <= Runtime.w_calls w + 3 * Z.to_nat maxRetries)%nat.
Proof. apply retry_analysis_calls. Qed.

(** A service that always fails with 503 is called six times by
    [analyzeContentWithRetry] with two attempts, and the ServiceError
    of the last call is thrown. *)
Example analyzeContentWithRetry_six_calls :
  Runtime.w_calls
    (snd (ContentAnalysis.analyzeContentWithRetry JsonText.JSON_parse
            Samples.always_unavailable Md5.md5_hex Samples.content "process" 2
            Runtime.initial)) = 6%nat
  /\ fst (ContentAnalysis.analyzeContentWithRetry JsonText.JSON_parse
            Samples.always_unavailable Md5.md5_hex Samples.content "process" 2
            Runtime.initial)
     = Throw (Some (ClaudeClient.newServiceError "Claude API server error" true)).
Proof. vm_compute. split; reflexivity. Qed.

(** An AnalysisError of the first attempt ends [analyzeContentWithRetry]
    at once, with that error and without a pause: only a rejection with
    429 and a failure of the service are tried again.  So an answer of
    the service that cannot be parsed or validated, a refused API key
    and a timeout that outlasts the retries of the call are not tried
    again. *)
Theorem analysis_error_is_not_retried
    (JSON_parse : string -> option Json.value) (service : nat -> ClaudeClient.reply)
    (md5_hex : string -> string) (content contentType : string) (maxRetries : Z)
    (w w1 : Runtime.world) (e : ClaudeClient.js_error) :
  1 <= maxRetries ->
  ContentAnalysis.analyzeContent JSON_parse service md5_hex content contentType w
  = (Throw e, w1) ->
  ClaudeClient.class e = ClaudeClient.AnalysisError ->
  ContentAnalysis.analyzeContentWithRetry JSON_parse service md5_hex
    content contentType maxRetries w
  = (Throw (Some e), w1).
Proof.
  intros Hm Ha Hc. unfold ContentAnalysis.analyzeContentWithRetry.
  destruct (Z.to_nat maxRetries) as [|k] eqn:Hk; [lia|].
  simpl. rewrite Ha.
  pose proof (analyzeContent_throws JSON_parse service md5_hex content contentType w e) as Ht.
  rewrite Ha in Ht. specialize (Ht eq_refl).
  destruct Ht as [(m & -> & _)|[(error & Hs & ->)| ->]].
  - reflexivity.
  - destruct (rate_limit_retryable error Hs) as (_ & Hcl & _). congruence.
  - discriminate Hc.
Qed.

(** The first answer of the service is no JSON and the second would be
    fine: the analysis fails after one call. *)
Lemma analysis_error_is_not_retried_witness :
  ContentAnalysis.analyzeContentWithRetry JsonText.JSON_parse Samples.garbled_once
    Md5.md5_hex Samples.content "process" 2 Runtime.initial
  = (Throw (Some (ClaudeClient.newAnalysisError
                    "Analysis failed: No valid JSON found in response")),
     Samples.after_garbled)
  /\ Runtime.w_calls Samples.after_garbled = 1%nat.
Proof.
  split; [|reflexivity].
  apply (analysis_error_is_not_retried JsonText.JSON_parse Samples.garbled_once
           Md5.md5_hex Samples.content "process" 2 Runtime.initial);
    [lia | vm_compute; reflexivity | reflexivity].
Defined.

(** ** The quality of a validated analysis *)

(** The assessment of a validated result never throws, and it does not
    depend on how JavaScript converts a value that is not a number: the
    confidence is a number, and the extracted data are neither null nor
    undefined.  A result that is found valid has a confidence of 0.7 at
    least, and it needs no review exactly when its confidence is 0.8 at
    least. *)
Theorem validated_results_can_be_assessed (r : Runtime.analysis_result) :
  ContentAnalysis.validated r ->
  exists q c,
    Runtime.confidence r = Some (Json.Num (Json.Fin c))
    /\ (forall ToNumber, ContentAnalysis.validateAnalysisQuality ToNumber r = Ok q)
    /\ (ContentAnalysis.isValid q = true ->
        Json.lt (Json.Fin c) ContentAnalysis.seven_tenths = false
        /\ ContentAnalysis.requiresReview q
           = Json.lt (Json.Fin c) ContentAnalysis.eight_tenths).
Proof.
  intros (_ & He & c & Hc & _).
  destruct (Runtime.extractedData r) as [data|] eqn:Hd; [|discriminate He].
  assert (Hq : forall ToNumber,
             ContentAnalysis.validateAnalysisQuality ToNumber r
             = ContentAnalysis.validateAnalysisQuality (fun _ => Ok None) r).
  { intros ToNumber. unfold ContentAnalysis.validateAnalysisQuality.
    now rewrite Hc, Hd. }
  unfold ContentAnalysis.validateAnalysisQuality in Hq at 2.
  rewrite Hc, Hd in Hq. cbn [ContentAnalysis.less_than] in Hq.
  assert (Hnn : forall A (x y : A),
             match data with Json.Null => x | _ => y end = y).
  { intros A x y. destruct data; try reflexivity. discriminate He. }
  rewrite Hnn in Hq.
  match type of Hq with
  | forall T, _ = match (if negb (Nat.eqb (length ?l) 0) then _ else _) with _ => _ end =>
      set (issues := l) in *
  end.
  exists {| ContentAnalysis.isValid := Nat.eqb (length issues) 0;
            ContentAnalysis.issues := issues;
            ContentAnalysis.requiresReview :=
              if negb (Nat.eqb (length issues) 0) then true
              else Json.lt (Json.Fin c) ContentAnalysis.eight_tenths |}, c.
  split; [exact Hc|]. split.
  - intros ToNumber. rewrite Hq. now destruct (negb (Nat.eqb (length issues) 0)).
  - cbn [ContentAnalysis.isValid ContentAnalysis.requiresReview].
    intros Hv. rewrite Hv. split; [|reflexivity].
    subst issues.
    destruct (Json.lt (Json.Fin c) ContentAnalysis.seven_tenths);
      [discriminate Hv | reflexivity].
Qed.

(** The result of the first sample analysis, with its confidence of
    0.75, is assessed as valid and in need of review. *)
Lemma validated_results_can_be_assessed_witness :
  exists q c,
    Runtime.confidence Samples.first_result = Some (Json.Num (Json.Fin c))
    /\ (forall ToNumber,
          ContentAnalysis.validateAnalysisQuality ToNumber Samples.first_result = Ok q)
    /\ (ContentAnalysis.isValid q = true ->
        Json.lt (Json.Fin c) ContentAnalysis.seven_tenths = false
        /\ ContentAnalysis.requiresReview q
           = Json.lt (Json.Fin c) ContentAnalysis.eight_tenths).
Proof.
  apply (validated_results_can_be_assessed Samples.first_result).
  split; [reflexivity|]. split; [reflexivity|].
  exists (3 # 4). split; [reflexivity|]. unfold Qle. simpl. lia.
Defined.

Example first_result_quality :
  ContentAnalysis.validateAnalysisQuality (fun _ => Ok None) Samples.first_result
  = Ok {| ContentAnalysis.isValid := true;
          ContentAnalysis.issues := [];
          ContentAnalysis.requiresReview := true |}.
Proof. reflexivity. Qed.

(** ** The life of a stored skill *)

Section StoredSkills.
Import Store SkillsApi Lifecycle.

Variable Handlebars :
  string -> SkillGeneration.template -> SkillGeneration.template_data -> string.
Variable generateDescription : SkillGeneration.analysis_data -> string -> string.

Lemma run_app ops1 ops2 d :
  run Handlebars generateDescription (ops1 ++ ops2) d
  = run Handlebars generateDescription ops2 (run Handlebars generateDescription ops1 d).
Proof. revert d. induction ops1 as [|o r IH]; intros d; simpl; auto. Qed.

(** What a successful generation has done: the row it has added, under
    the next id, and what it has returned. *)
Lemma generateSkill_row analysisData skillName skillType description tags now d p d' :
  SkillGeneration.generateSkill Handlebars generateDescription
    analysisData skillName skillType description tags now d = Ok (p, d') ->
  exists row,
    skills d' = (skills d ++ [row])%list
    /\ skill_versions d' = skill_versions d
    /\ skills_seq d' = skills_seq d + 1
    /\ foreign_keys d' = foreign_keys d
    /\ SkillGeneration.p_skillId p = skills_seq d + 1
    /\ row = {| sk_id := skills_seq d + 1;
                sk_name := SkillName.formatSkillName skillName;
                sk_description :=
                  if Js.truthy_opt description
                  then match description with Some s => s | None => EmptyString end
                  else match analysisData with
                       | Some a => generateDescription a skillType
                       | None => EmptyString
                       end;
                sk_type := skillType;
                sk_version := 1;
                sk_main_content := SkillGeneration.main_doc (SkillGeneration.p_files p);
                sk_references := SkillGeneration.references (SkillGeneration.p_files p);
                sk_metadata := SkillGeneration.p_metadata p;
                sk_created_at := now;
                sk_updated_at := now |}
    /\ SkillGeneration.p_skillName p = SkillName.formatSkillName skillName
    /\ SkillGeneration.generateSkillFiles Handlebars skillType
         {| SkillGeneration.t_skillName := SkillName.formatSkillName skillName;
            SkillGeneration.t_description := sk_description row;
            SkillGeneration.t_extractedData :=
              match analysisData with
              | Some a => SkillGeneration.a_extractedData a
              | None => None
              end;
            SkillGeneration.t_contentType := skillType |}
       = Ok (SkillGeneration.p_files p)
    /\ SkillGeneration.p_zipBuffer p
       = SkillGeneration.createSkillZip (SkillGeneration.p_files p)
           (SkillName.formatSkillName skillName)
    /\ SkillGeneration.calculateTotalSize (SkillGeneration.p_files p)
       = Ok (md_totalSize (SkillGeneration.p_metadata p))
    /\ md_fileCount (SkillGeneration.p_metadata p)
       = 1 + Z.of_nat (length (SkillGeneration.references (SkillGeneration.p_files p)))
    /\ select_by_name (SkillName.formatSkillName skillName) d = None
    /\ SkillName.slug_regex_test (SkillName.formatSkillName skillName) = true.
Proof.
  unfold SkillGeneration.generateSkill, SkillGeneration.generateSkill_body.
  destruct (SkillGeneration.validateSkillName skillName d) eqn:Hname; [|discriminate].
  destruct (SkillGeneration.validateSkillType skillType); [|discriminate].
  destruct analysisData as [analysis|]; [|discriminate].
  destruct (negb _); [discriminate|].
  destruct (SkillGeneration.generateSkillFiles _ _ _) as [files|] eqn:Hfiles; [|discriminate].
  destruct (SkillGeneration.calculateTotalSize files) as [total|] eqn:Htotal; [|discriminate].
  unfold SkillGeneration.saveSkillToDatabase, insert_skill.
  cbv zeta. cbn [sd_name sd_skill_type SkillGeneration.t_skillName].
  destruct (negb (mem skillType skill_types)); [discriminate|].
  destruct (select_by_name (SkillName.formatSkillName skillName) d) eqn:Hsel;
    cbn [Js.defined]; [discriminate|].
  intros H. inversion H; subst p d'; clear H. cbn.
  eexists. repeat split; try reflexivity; auto.
  unfold SkillGeneration.validateSkillName in Hname.
  destruct (_ || _); [discriminate|].
  destruct (50 <? _); [discriminate|].
  destruct (SkillName.slug_regex_test _); [reflexivity | discriminate].
Qed.

(** The counter of ids never goes down, and the pragma stays. *)
Lemma exec_seq d o :
  skills_seq d <= skills_seq (exec Handlebars generateDescription o d)
  /\ foreign_keys (exec Handlebars generateDescription o d) = foreign_keys d.
Proof.
  destruct o as [a n t ds tg now | [i|] req now | [i|] | [i|] tok pub now];
    simpl; try (split; [lia | reflexivity]).
  - destruct (SkillGeneration.generateSkill _ _ _ _ _ _ _ _ _) as [[p d']|] eqn:H;
      [|split; [lia | reflexivity]].
    apply generateSkill_row in H as (row & _ & _ & Hq & Hf & _). split; [lia | exact Hf].
  - destruct (UpdateSkillRequestSchema req) as [vd|]; simpl; [|split; [lia | reflexivity]].
    destruct (select_by_id i d); simpl; [|split; [lia | reflexivity]].
    destruct (updateSkill i vd now d) as [[ver d']|] eqn:Hup; simpl;
      [|split; [lia | reflexivity]].
    apply updateSkill_ok in Hup as (cur & _ & _ & _ & Hq & Hf & _). split; [lia | exact Hf].
  - destruct (select_by_id i d); simpl; split; first [lia | reflexivity].
  - destruct (negb (Js.truthy_opt tok)); simpl; [split; [lia | reflexivity]|].
    destruct (select_by_id i d); simpl; [|split; [lia | reflexivity]].
    destruct pub as [info|]; simpl; [|split; [lia | reflexivity]].
    destruct (update_skill _ i now d) as [d'|] eqn:Hup; simpl; [|split; [lia | reflexivity]].
    apply update_skill_ok in Hup as [[_ ->]|(old & _ & _ & _ & Hq & Hf)];
      split; first [lia | assumption | reflexivity].
Qed.

Lemma run_seq ops :
  forall d,
    skills_seq d <= skills_seq (run Handlebars generateDescription ops d)
    /\ foreign_keys (run Handlebars generateDescription ops d) = foreign_keys d.
Proof.
  induction ops as [|o r IH]; intros d; simpl; [split; [lia | reflexivity]|].
  destruct (IH (exec Handlebars generateDescription o d)) as [H1 H2].
  destruct (exec_seq d o) as [H3 H4]. split; [lia | congruence].
Qed.

(** The id of a skill is never given out again, not even after the
    skill has been deleted: a skill that is generated after any
    sequence of operations gets an id above the id of every skill the
    store has held on the way. *)
Theorem ids_are_never_reused
    (fk : bool) (ops1 ops2 : list op) (s : skill)
    (analysisData : option SkillGeneration.analysis_data) (skillName skillType : string)
    (description : option string) (tags : option (list string)) (now : Z)
    (p : SkillGeneration.skill_package) (d' : db) :
  In s (skills (run Handlebars generateDescription ops1 (empty fk))) ->
  SkillGeneration.generateSkill Handlebars generateDescription
    analysisData skillName skillType description tags now
    (run Handlebars generateDescription (ops1 ++ ops2) (empty fk)) = Ok (p, d') ->
  sk_id s < SkillGeneration.p_skillId p.
Proof.
  intros Hin Hgen.
  pose proof (run_consistent Handlebars generateDescription ops1 _ _ (empty_consistent fk))
    as Hc.
  pose proof (ids_given _ _ Hc s Hin) as Hs.
  apply generateSkill_row in Hgen as (row & _ & _ & _ & _ & Hid & _).
  rewrite run_app in Hid.
  pose proof (proj1 (run_seq ops2 (run Handlebars generateDescription ops1 (empty fk)))).
  lia.
Qed.

Lemma find_last {A} (f : A -> bool) l x :
  (forall y, In y l -> f y = false) -> f x = true -> find f (l ++ [x]) = Some x.
Proof.
  induction l as [|y r IH]; simpl; intros Hl Hx; [now rewrite Hx|].
  rewrite (Hl y (or_introl eq_refl)). auto.
Qed.

(** The row that a generation has added is the one its id selects. *)
Lemma select_generated c d d' row :
  consistent c d ->
  skills d' = (skills d ++ [row])%list -> sk_id row = skills_seq d + 1 ->
  select_by_id (skills_seq d + 1) d' = Some row.
Proof.
  intros Hc Hs Hid. unfold select_by_id. rewrite Hs. apply find_last.
  - intros s Hin. pose proof (ids_given _ _ Hc s Hin). lia.
  - lia.
Qed.

(** With foreign keys enforced, every snapshot belongs to a skill
    that is stored: the update writes snapshots of existing skills only,
    and the deletion of a skill takes its snapshots along. *)
Theorem snapshots_belong_to_stored_skills (ops : list op) :
  let d := run Handlebars generateDescription ops (empty true) in
  Forall (fun v => exists s, In s (skills d) /\ sk_id s = sv_skill_id v)
         (skill_versions d).
Proof.
  assert (Hexec : forall o d, foreign_keys d = true ->
            Forall (fun v => exists s, In s (skills d) /\ sk_id s = sv_skill_id v)
                   (skill_versions d) ->
            Forall (fun v => exists s,
                        In s (skills (exec Handlebars generateDescription o d))
                        /\ sk_id s = sv_skill_id v)
                   (skill_versions (exec Handlebars generateDescription o d))).
  { intros o d Hfk Hd. rewrite List.Forall_forall in Hd.
    assert (Hmap : forall i new l v,
              sk_id new = i ->
              (exists s, In s l /\ sk_id s = sv_skill_id v) ->
              exists s, In s (map (fun s => if sk_id s =? i then new else s) l)
                        /\ sk_id s = sv_skill_id v).
    { intros i new l v Hn (s & Hin & Hs).
      exists (if sk_id s =? i then new else s). split.
      - apply in_map_iff. eauto.
      - destruct (Z.eqb_spec (sk_id s) i); congruence. }
    apply List.Forall_forall.
    destruct o as [a n t ds tg now | [i|] req now | [i|] | [i|] tok pub now];
      simpl; auto.
    - destruct (SkillGeneration.generateSkill _ _ _ _ _ _ _ _ _) as [[p d']|] eqn:H; auto.
      apply generateSkill_row in H as (row & Hs & Hv & _).
      rewrite Hs, Hv. intros v Hin. destruct (Hd v Hin) as (s & Hs' & E).
      exists s. split; [apply in_or_app; auto | exact E].
    - destruct (UpdateSkillRequestSchema req) as [vd|]; simpl; auto.
      destruct (select_by_id i d); simpl; auto.
      destruct (updateSkill i vd now d) as [[ver d']|] eqn:Hup; simpl; auto.
      apply updateSkill_ok in Hup as (cur & Hcur & Hs & Hv & _).
      rewrite Hs, Hv. intros v Hin.
      apply select_by_id_some in Hcur as [Hcur Hid].
      apply Hmap; [now rewrite assign_all_id|].
      apply in_app_or in Hin as [Hin|[<-|[]]]; [auto|].
      exists cur. simpl. tauto.
    - destruct (select_by_id i d); simpl; auto.
      rewrite Hfk. intros v Hin. apply filter_In in Hin as [Hin Hne].
      destruct (Hd v Hin) as (s0 & Hs0 & E). exists s0. split; [|exact E].
      apply filter_In. split; [exact Hs0|]. now rewrite E.
    - destruct (negb (Js.truthy_opt tok)); simpl; auto.
      destruct (select_by_id i d); simpl; auto.
      destruct pub as [info|]; simpl; auto.
      destruct (update_skill _ i now d) as [d'|] eqn:Hup; simpl; auto.
      apply update_skill_ok in Hup as [[_ ->]|(old & Ho & Hs & Hv & _)]; [auto|].
      rewrite Hs, Hv. intros v Hin.
      apply Hmap; [|auto]. rewrite assign_all_id. now apply select_by_id_some in Ho. }
  intros d. subst d.
  assert (H : forall d, foreign_keys d = true ->
            Forall (fun v => exists s, In s (skills d) /\ sk_id s = sv_skill_id v)
                   (skill_versions d) ->
            Forall (fun v => exists s,
                        In s (skills (run Handlebars generateDescription ops d))
                        /\ sk_id s = sv_skill_id v)
                   (skill_versions (run Handlebars generateDescription ops d))).
  { induction ops as [|o r IH]; intros d Hfk Hd; simpl; [exact Hd|].
    apply IH; [rewrite (proj2 (exec_seq d o)); exact Hfk | now apply Hexec]. }
  apply H; [reflexivity | constructor].
Qed.

(** A generated skill can be read back at once under its id: GET
    /api/skills/:id answers 200 with the normalized name, version 1, the
    rendered documents and the metadata that the generation returned. *)
Theorem generated_skill_can_be_read
    (fk : bool) (ops : list op)
    (analysisData : option SkillGeneration.analysis_data) (skillName skillType : string)
    (description : option string) (tags : option (list string)) (now : Z)
    (p : SkillGeneration.skill_package) (d' : db) :
  SkillGeneration.generateSkill Handlebars generateDescription
    analysisData skillName skillType description tags now
    (run Handlebars generateDescription ops (empty fk)) = Ok (p, d') ->
  exists row,
    get_skill (Some (SkillGeneration.p_skillId p)) d' = (200, Ok row)
    /\ sk_id row = SkillGeneration.p_skillId p
    /\ sk_name row = SkillName.formatSkillName skillName
    /\ sk_name row = SkillGeneration.p_skillName p
    /\ sk_type row = skillType
    /\ sk_version row = 1
    /\ sk_main_content row = SkillGeneration.main_doc (SkillGeneration.p_files p)
    /\ sk_references row = SkillGeneration.references (SkillGeneration.p_files p)
    /\ sk_metadata row = SkillGeneration.p_metadata p
    /\ sk_created_at row = now /\ sk_updated_at row = now.
Proof.
  intros Hgen.
  pose proof (run_consistent Handlebars generateDescription ops _ _ (empty_consistent fk))
    as Hc.
  apply generateSkill_row in Hgen
    as (row & Hs & _ & _ & _ & Hid & Hrow & Hname & _).
  exists row. unfold get_skill. rewrite Hid.
  rewrite (select_generated _ _ _ row Hc Hs) by (rewrite Hrow; reflexivity).
  rewrite Hrow. cbn. rewrite Hname. repeat split; reflexivity.
Qed.

(** The archive that GET /api/skills/:id/download of the first copy of
    api/skills.js builds for a skill that has just been generated
    unpacks to the files that the archive of the generation unpacks to:
    the main document as skill.md and each reference document under
    references/, with the contents that were rendered.  It is sent
    under the name of the skill. *)
Theorem download_holds_generated_files
    (fk : bool) (ops : list op)
    (analysisData : option SkillGeneration.analysis_data) (skillName skillType : string)
    (description : option string) (tags : option (list string)) (now : Z)
    (p : SkillGeneration.skill_package) (d' : db) :
  SkillGeneration.generateSkill Handlebars generateDescription
    analysisData skillName skillType description tags now
    (run Handlebars generateDescription ops (empty fk)) = Ok (p, d') ->
  exists zipBuffer,
    download_skill_md (Some (SkillGeneration.p_skillId p)) d'
    = {| status := 200;
         body := Zip (SkillGeneration.p_skillName p ++ ".zip") zipBuffer |}
    /\ JSZip.unpack zipBuffer = JSZip.unpack (SkillGeneration.p_zipBuffer p)
    /\ JSZip.unpack zipBuffer
       = ("skill.md", SkillGeneration.main_doc (SkillGeneration.p_files p))
         :: map (fun '(filename, content) => ("references/" ++ filename, content))
                (SkillGeneration.references (SkillGeneration.p_files p)).
Proof.
  intros Hgen.
  pose proof (run_consistent Handlebars generateDescription ops _ _ (empty_consistent fk))
    as Hc.
  apply generateSkill_row in Hgen
    as (row & Hs & _ & _ & _ & Hid & Hrow & Hname & Hfiles & Hzip & _).
  unfold download_skill_md, download_with. rewrite Hid.
  rewrite (select_generated _ _ _ row Hc Hs) by (rewrite Hrow; reflexivity).
  rewrite Hrow, Hname, Hzip. cbn [sk_name sk_main_content sk_references].
  unfold SkillGeneration.generateSkillFiles in Hfiles.
  destruct (negb _) in Hfiles; [discriminate|].
  inversion Hfiles as [Hf]. eexists. split; [reflexivity|].
  split; reflexivity.
Qed.

(** The archive and the size of a main document with the three
    reference documents. *)
Lemma archive_of_three main r1 r2 r3 skillName :
  let files :=
    {| SkillGeneration.main_key := "skill.md";
       SkillGeneration.main_doc := main;
       SkillGeneration.references :=
         [("practices.md", r1); ("structure.md", r2); ("examples.md", r3)] |} in
  JSZip.unpack (SkillGeneration.createSkillZip files skillName)
  = [("skill.md", main); ("references/practices.md", r1);
     ("references/structure.md", r2); ("references/examples.md", r3)]
  /\ SkillGeneration.calculateTotalSize files
     = Ok (SkillGeneration.byteLength main + SkillGeneration.byteLength r1
           + SkillGeneration.byteLength r2 + SkillGeneration.byteLength r3).
Proof. split; reflexivity. Qed.

(** The metadata of a generated skill describe its archive: the file
    count is the number of files in the archive, and the total size is
    the sum of the UTF-8 sizes of these files. *)
Theorem metadata_describes_archive
    (analysisData : option SkillGeneration.analysis_data) (skillName skillType : string)
    (description : option string) (tags : option (list string)) (now : Z) (d : db)
    (p : SkillGeneration.skill_package) (d' : db) :
  SkillGeneration.generateSkill Handlebars generateDescription
    analysisData skillName skillType description tags now d = Ok (p, d') ->
  md_fileCount (SkillGeneration.p_metadata p)
  = Z.of_nat (length (JSZip.unpack (SkillGeneration.p_zipBuffer p)))
  /\ md_totalSize (SkillGeneration.p_metadata p)
     = fold_right (fun file n => SkillGeneration.byteLength (snd file) + n) 0
                  (JSZip.unpack (SkillGeneration.p_zipBuffer p))
  /\ md_fileCount (SkillGeneration.p_metadata p) = 4.
Proof.
  intros Hgen.
  apply generateSkill_row in Hgen
    as (row & _ & _ & _ & _ & _ & _ & _ & Hfiles & Hzip & Htotal & Hcount & _).
  unfold SkillGeneration.generateSkillFiles in Hfiles.
  destruct (negb _) in Hfiles; [discriminate|].
  inversion Hfiles as [Hf]. rewrite <- Hf in Htotal, Hcount, Hzip.
  rewrite Hzip, Hcount.
  match type of Hf with
  | {| SkillGeneration.main_doc := ?m;
       SkillGeneration.references := [(_, ?a); (_, ?b); (_, ?c)] |} = _ =>
      destruct (archive_of_three m a b c (SkillName.formatSkillName skillName))
        as [Hu Ht]
  end.
  cbv zeta in Hu, Ht. rewrite Hu. rewrite Ht in Htotal.
  inversion Htotal as [Hsize]. cbn [length fold_right snd SkillGeneration.references].
  repeat split; lia.
Qed.

(** Rows that keep their id and, where the id is [id], their name. *)
Lemma replace_keeps_name (id i : Z) (n : string) (new : skill) (l : list skill) :
  sk_id new = i -> (i = id -> sk_name new = n) ->
  (exists s, In s l /\ sk_id s = id)
  /\ (forall s, In s l -> sk_id s = id -> sk_name s = n) ->
  (exists s, In s (map (fun s => if sk_id s =? i then new else s) l) /\ sk_id s = id)
  /\ (forall s, In s (map (fun s => if sk_id s =? i then new else s) l) ->
      sk_id s = id -> sk_name s = n).
Proof.
  intros Hi Hn [(s & Hin & Hs) Hu]. split.
  - exists (if sk_id s =? i then new else s). split.
    + apply in_map_iff. now exists s.
    + destruct (Z.eqb_spec (sk_id s) i); [congruence | exact Hs].
  - intros x Hx Hxid. apply in_map_iff in Hx as (y & <- & Hy).
    destruct (Z.eqb_spec (sk_id y) i) as [E|E]; [apply Hn; congruence | now apply Hu].
Qed.

Lemma assign_all_metadata_name m now old :
  sk_name (assign_all [SetMetadata m; TouchUpdatedAt] now old) = sk_name old.
Proof. reflexivity. Qed.

(** An operation that is neither a DELETE of skill [id] nor a PUT that
    carries a name for it leaves the skill stored under its name. *)
Lemma exec_keeps_name (id : Z) (n : string) (o : op) (d : db) :
  frees_name id o = false ->
  (exists s, In s (skills d) /\ sk_id s = id)
  /\ (forall s, In s (skills d) -> sk_id s = id -> sk_name s = n)
  /\ id <= skills_seq d ->
  (exists s, In s (skills (exec Handlebars generateDescription o d)) /\ sk_id s = id)
  /\ (forall s, In s (skills (exec Handlebars generateDescription o d)) ->
      sk_id s = id -> sk_name s = n)
  /\ id <= skills_seq (exec Handlebars generateDescription o d).
Proof.
  intros Hfree (He & Hu & Hq).
  assert (Hseq : id <= skills_seq (exec Handlebars generateDescription o d))
    by (pose proof (proj1 (exec_seq d o)); lia).
  enough ((exists s, In s (skills (exec Handlebars generateDescription o d)) /\ sk_id s = id)
          /\ (forall s, In s (skills (exec Handlebars generateDescription o d)) ->
              sk_id s = id -> sk_name s = n)) by tauto.
  clear Hseq.
  destruct o as [a nm t ds tg now | [i|] req now | [i|] | [i|] tok pub now];
    simpl in *; auto.
  - destruct (SkillGeneration.generateSkill _ _ _ _ _ _ _ _ _) as [[p d']|] eqn:H; auto.
    apply generateSkill_row in H as (row & Hs & _ & _ & _ & _ & Hrow & _).
    rewrite Hs. destruct He as (s & Hin & Hsid). split.
    + exists s. split; [apply in_or_app; now left | exact Hsid].
    + intros x Hx Hxid. apply in_app_or in Hx as [Hx|[<-|[]]]; [now apply Hu|].
      rewrite Hrow in Hxid. simpl in Hxid. lia.
  - destruct (UpdateSkillRequestSchema req) as [vd|] eqn:Hv; simpl; auto.
    assert (vd = req).
    { unfold UpdateSkillRequestSchema in Hv.
      destruct (opt_all _ (name req) && _); [now inversion Hv | discriminate]. }
    subst vd.
    destruct (select_by_id i d) as [cur0|]; simpl; auto.
    destruct (updateSkill i req now d) as [[ver d']|] eqn:Hup; simpl; auto.
    apply updateSkill_ok in Hup as (cur & Hcur & Hs & _).
    rewrite Hs. apply select_by_id_some in Hcur as [Hcin Hcid].
    apply replace_keeps_name; [now rewrite assign_all_id | | now split].
    intros E.
    replace (_ =? id) with true in Hfree by (symmetry; apply Z.eqb_eq; congruence).
    simpl in Hfree.
    rewrite (proj1 (updateFields_keeps req cur now) Hfree).
    apply Hu; [exact Hcin | congruence].
  - destruct (select_by_id i d) as [cur|]; simpl; auto.
    destruct He as (s & Hin & Hsid). split.
    + exists s. split; [|exact Hsid]. apply filter_In. split; [exact Hin|].
      apply negb_true_iff, Z.eqb_neq. apply Z.eqb_neq in Hfree. congruence.
    + intros x Hx. apply filter_In in Hx as [Hx _]. now apply Hu.
  - destruct (negb (Js.truthy_opt tok)); simpl; auto.
    destruct (select_by_id i d) as [cur|] eqn:Hcur; simpl; auto.
    destruct pub as [info|]; simpl; auto.
    destruct (update_skill _ i now d) as [d'|] eqn:Hup; simpl; auto.
    apply update_skill_ok in Hup as [[_ ->]|(old & Hold & Hs & _)]; auto.
    rewrite Hs. apply select_by_id_some in Hold as [Hoin Hoid].
    apply replace_keeps_name; [now rewrite assign_all_id | | now split].
    intros E. rewrite assign_all_metadata_name. apply Hu; [exact Hoin | congruence].
Qed.

Lemma run_keeps_name (id : Z) (n : string) (ops : list op) :
  forall d,
    forallb (fun o => negb (frees_name id o)) ops = true ->
    (exists s, In s (skills d) /\ sk_id s = id)
    /\ (forall s, In s (skills d) -> sk_id s = id -> sk_name s = n)
    /\ id <= skills_seq d ->
    exists s, In s (skills (run Handlebars generateDescription ops d)) /\ sk_name s = n.
Proof.
  induction ops as [|o r IH]; intros d Hops H; simpl.
  - destruct H as ((s & Hin & Hs) & Hu & _). exists s. split; [exact Hin | now apply Hu].
  - simpl in Hops. apply andb_prop in Hops as [Ho Hr].
    apply negb_true_iff in Ho.
    apply IH; [exact Hr|]. now apply exec_keeps_name.
Qed.

(** A name is taken as long as a skill is stored under its normalized
    form. *)
Lemma generateSkill_taken analysisData skillName skillType description tags now d s :
  In s (skills d) -> sk_name s = SkillName.formatSkillName skillName ->
  SkillName.slug_regex_test (SkillName.formatSkillName skillName) = true ->
  3 <= Js.len skillName <= 50 ->
  SkillGeneration.generateSkill Handlebars generateDescription
    analysisData skillName skillType description tags now d
  = Throw "Skill generation failed: Skill with this name already exists".
Proof.
  intros Hin Hname Hslug Hlen.
  unfold SkillGeneration.generateSkill, SkillGeneration.generateSkill_body,
    SkillGeneration.validateSkillName.
  assert (Ht : Js.truthy skillName = true).
  { destruct skillName; [unfold Js.len in Hlen; simpl in Hlen; lia | reflexivity]. }
  rewrite Ht. cbn [negb orb].
  replace (Js.len skillName <? 3) with false by lia.
  replace (50 <? Js.len skillName) with false by lia.
  rewrite Hslug. cbn [negb].
  destruct (select_by_name (SkillName.formatSkillName skillName) d) eqn:Hfind;
    [reflexivity|].
  unfold select_by_name in Hfind.
  pose proof (find_none _ _ Hfind s Hin) as Hf.
  cbv beta in Hf. rewrite Hname, String.eqb_refl in Hf. discriminate Hf.
Qed.

(** Once a skill is generated, every further generation under a name
    of 3 to 50 characters with the same normalized form is refused with
    the error that the route answers with 409, in the store that the
    generation left and in every store reached from it by operations
    none of which is a DELETE of the skill or a PUT that carries a name
    for it. *)
Theorem same_slug_is_generated_once
    (fk : bool) (before after : list op)
    (analysisData analysisData' : option SkillGeneration.analysis_data)
    (skillName skillName' skillType skillType' : string)
    (description description' : option string) (tags tags' : option (list string))
    (now now' : Z) (p : SkillGeneration.skill_package) (d' : db) :
  SkillGeneration.generateSkill Handlebars generateDescription
    analysisData skillName skillType description tags now
    (run Handlebars generateDescription before (empty fk)) = Ok (p, d') ->
  SkillName.formatSkillName skillName' = SkillName.formatSkillName skillName ->
  3 <= Js.len skillName' <= 50 ->
  forallb (fun o => negb (frees_name (SkillGeneration.p_skillId p) o)) after = true ->
  SkillGeneration.generateSkill Handlebars generateDescription
    analysisData' skillName' skillType' description' tags' now'
    (run Handlebars generateDescription after d')
  = Throw "Skill generation failed: Skill with this name already exists"
  /\ Js.includes "already exists"
       "Skill generation failed: Skill with this name already exists" = true.
Proof.
  intros Hgen Hsame Hlen Hafter. split; [|reflexivity].
  pose proof (run_consistent Handlebars generateDescription before _ _
                (empty_consistent fk)) as Hc.
  apply generateSkill_row in Hgen
    as (row & Hs & _ & Hq & _ & Hid & Hrow & _ & _ & _ & _ & _ & _ & Hslug).
  destruct (run_keeps_name (SkillGeneration.p_skillId p)
              (SkillName.formatSkillName skillName) after d' Hafter)
    as (s & Hin & Hname).
  { rewrite Hs, Hid, Hq. split; [|split; [|lia]].
    - exists row. split; [apply in_or_app; right; now left | now rewrite Hrow].
    - intros x Hx Hxid. apply in_app_or in Hx as [Hx|[<-|[]]]; [|now rewrite Hrow].
      pose proof (ids_given _ _ Hc x Hx). lia. }
  apply (generateSkill_taken _ _ _ _ _ _ _ s Hin); [congruence | | exact Hlen].
  now rewrite Hsame.
Qed.

(** As long as the generator of descriptions never returns the empty
    string, no stored skill ever has an empty description: generation
    takes the given description only when it is not empty, and an update
    ignores an empty one. *)
Theorem descriptions_are_never_empty (fk : bool) (ops : list op) :
  (forall a skillType, generateDescription a skillType <> EmptyString) ->
  Forall (fun s => sk_description s <> EmptyString)
         (skills (run Handlebars generateDescription ops (empty fk))).
Proof.
  intros Hdesc.
  assert (Htruthy : forall x, Js.truthy x = true -> x <> EmptyString).
  { intros x H ->. discriminate H. }
  assert (Hexec : forall o d,
            Forall (fun s => sk_description s <> EmptyString) (skills d) ->
            Forall (fun s => sk_description s <> EmptyString)
                   (skills (exec Handlebars generateDescription o d))).
  { intros o d Hd.
    destruct o as [a n t ds tg now | [i|] req now | [i|] | [i|] tok pub now];
      simpl; auto.
    - destruct (SkillGeneration.generateSkill _ _ _ _ _ _ _ _ _) as [[p d']|] eqn:H; auto.
      pose proof H as H'.
      apply generateSkill_row in H as (row & Hs & _ & _ & _ & _ & Hrow & _).
      rewrite Hs. apply Forall_app. split; [exact Hd|]. repeat constructor.
      rewrite Hrow. cbn [sk_description].
      destruct ds as [x|]; cbn [Js.truthy_opt].
      + destruct (Js.truthy x) eqn:E; [now apply Htruthy|].
        destruct a; [apply Hdesc|].
        unfold SkillGeneration.generateSkill, SkillGeneration.generateSkill_body in H'.
        destruct (SkillGeneration.validateSkillName _ _); [|discriminate].
        destruct (SkillGeneration.validateSkillType _); discriminate.
      + destruct a; [apply Hdesc|].
        unfold SkillGeneration.generateSkill, SkillGeneration.generateSkill_body in H'.
        destruct (SkillGeneration.validateSkillName _ _); [|discriminate].
        destruct (SkillGeneration.validateSkillType _); discriminate.
    - destruct (UpdateSkillRequestSchema req) as [vd|]; simpl; auto.
      destruct (select_by_id i d); simpl; auto.
      destruct (updateSkill i vd now d) as [[ver d']|] eqn:Hup; simpl; auto.
      apply updateSkill_ok in Hup as (cur & Hcur & Hs & _).
      rewrite Hs. rewrite List.Forall_forall in *.
      intros s' Hin. apply in_replace in Hin as [[-> _]|[Hin _]]; [|auto].
      destruct (Js.truthy_opt (description vd)) eqn:E.
      + destruct (description vd) as [x|] eqn:Ex; [|discriminate E].
        cbn in E. apply Htruthy in E.
        unfold updateFields, assign_all. rewrite Ex.
        destruct (Js.truthy x) eqn:Et; [|now destruct x].
        destruct (name vd) as [nm|]; [destruct (Js.truthy nm)|];
          (destruct (mainContent vd) as [m|]; [destruct (Js.truthy m)|]);
          destruct (references vd), (tags vd); exact E.
      + rewrite (proj1 (proj2 (updateFields_keeps vd cur now)) E).
        apply Hd. now apply select_by_id_some in Hcur.
    - destruct (select_by_id i d); simpl; auto.
      rewrite List.Forall_forall in *. intros s' Hin.
      apply filter_In in Hin as [Hin _]. auto.
    - destruct (negb (Js.truthy_opt tok)); simpl; auto.
      destruct (select_by_id i d); simpl; auto.
      destruct pub as [info|]; simpl; auto.
      destruct (update_skill _ i now d) as [d'|] eqn:Hup; simpl; auto.
      apply update_skill_ok in Hup as [[_ ->]|(old & Ho & Hs & _)]; [exact Hd|].
      rewrite Hs. rewrite List.Forall_forall in *.
      intros s' Hin. apply in_replace in Hin as [[-> _]|[Hin _]]; [|auto].
      simpl. apply Hd. now apply select_by_id_some in Ho. }
  assert (H : forall d,
             Forall (fun s => sk_description s <> EmptyString) (skills d) ->
             Forall (fun s => sk_description s <> EmptyString)
                    (skills (run Handlebars generateDescription ops d))).
  { induction ops as [|o r IH]; intros d Hd; simpl; [exact Hd|]. apply IH, Hexec, Hd. }
  apply H. constructor.
Qed.

End StoredSkills.

(** A skill is generated and deleted; the next skill gets the id 2. *)
Lemma ids_are_never_reused_witness :
  match SkillGeneration.generateSkill Samples.Handlebars Samples.generateDescription
          (Some Samples.analysis) "Second skill" "process" None None 5000
          (Samples.run ([Samples.create] ++ [Lifecycle.Delete (Some 1)])) with
  | Ok (p, _) => Store.sk_id Samples.created_row < SkillGeneration.p_skillId p
  | Throw _ => False
  end.
Proof.
  destruct (SkillGeneration.generateSkill _ _ _ _ _ _ _ _ _) as [[p d']|e] eqn:H.
  - apply (ids_are_never_reused Samples.Handlebars Samples.generateDescription true
             [Samples.create] [Lifecycle.Delete (Some 1)] Samples.created_row
             (Some Samples.analysis) "Second skill" "process" None None 5000 p d');
      [vm_compute; auto | exact H].
  - vm_compute in H. discriminate H.
Defined.

(** After a generation and two updates the two snapshots belong to the
    stored skill; without foreign keys the snapshots of a deleted skill
    stay behind. *)
Example snapshots_after_updates :
  map Store.sv_skill_id (Store.skill_versions (Samples.run Samples.two_updates)) = [1; 1]
  /\ Store.skill_versions
       (Samples.run (Samples.two_updates ++ [Lifecycle.Delete (Some 1)])) = []
  /\ map Store.sv_skill_id
       (Store.skill_versions
          (Lifecycle.run Samples.Handlebars Samples.generateDescription
             (Samples.two_updates ++ [Lifecycle.Delete (Some 1)]) (Store.empty false)))
     = [1; 1].
Proof. repeat split. Qed.

(** The sample skill, read back after its generation. *)
Lemma generated_skill_can_be_read_witness :
  match SkillGeneration.generateSkill Samples.Handlebars Samples.generateDescription
          (Some Samples.analysis) "My Skill!!" "process" None None 1000
          (Samples.run []) with
  | Ok (p, d') =>
      exists row,
        SkillsApi.get_skill (Some (SkillGeneration.p_skillId p)) d' = (200, Ok row)
        /\ Store.sk_name row = "my-skill"
        /\ Store.sk_version row = 1
  | Throw _ => False
  end.
Proof.
  destruct (SkillGeneration.generateSkill _ _ _ _ _ _ _ _ _) as [[p d']|e] eqn:H.
  - destruct (generated_skill_can_be_read Samples.Handlebars Samples.generateDescription
                true [] (Some Samples.analysis) "My Skill!!" "process" None None 1000
                p d' H) as (row & Hget & _ & Hname & _ & _ & Hver & _).
    exists row. repeat split; assumption.
  - vm_compute in H. discriminate H.
Defined.

(** The sample skill, downloaded after its generation. *)
Lemma download_holds_generated_files_witness :
  match SkillGeneration.generateSkill Samples.Handlebars Samples.generateDescription
          (Some Samples.analysis) "My Skill!!" "process" None None 1000
          (Samples.run []) with
  | Ok (p, d') =>
      exists zipBuffer,
        SkillsApi.download_skill_md (Some (SkillGeneration.p_skillId p)) d'
        = {| SkillsApi.status := 200;
             SkillsApi.body :=
               SkillsApi.Zip (SkillGeneration.p_skillName p ++ ".zip") zipBuffer |}
        /\ JSZip.unpack zipBuffer = JSZip.unpack (SkillGeneration.p_zipBuffer p)
        /\ JSZip.unpack zipBuffer
           = ("skill.md", SkillGeneration.main_doc (SkillGeneration.p_files p))
             :: map (fun '(filename, content) => ("references/" ++ filename, content))
                    (SkillGeneration.references (SkillGeneration.p_files p))
  | Throw _ => False
  end.
Proof.
  destruct (SkillGeneration.generateSkill _ _ _ _ _ _ _ _ _) as [[p d']|e] eqn:H.
  - apply (download_holds_generated_files Samples.Handlebars
             Samples.generateDescription true [] (Some Samples.analysis)
             "My Skill!!" "process" None None 1000 p d' H).
  - vm_compute in H. discriminate H.
Defined.

(** The files of the sample skill's download. *)
Example download_of_sample_skill :
  match SkillsApi.body (SkillsApi.download_skill_md (Some 1) Samples.created) with
  | SkillsApi.Zip filename zipBuffer =>
      filename = "my-skill.zip"
      /\ JSZip.unpack zipBuffer
         = [("skill.md", "# my-skill skill");
            ("references/practices.md", "# Practices");
            ("references/structure.md", "# Structure");
            ("references/examples.md", "# Examples")]
  | _ => False
  end.
Proof. vm_compute. split; reflexivity. Qed.

(** The sample skill: four files, 48 bytes. *)
Lemma metadata_describes_archive_witness :
  match SkillGeneration.generateSkill Samples.Handlebars Samples.generateDescription
          (Some Samples.analysis) "My Skill!!" "process" None None 1000
          (Store.empty true) with
  | Ok (p, _) =>
      Store.md_fileCount (SkillGeneration.p_metadata p)
      = Z.of_nat (length (JSZip.unpack (SkillGeneration.p_zipBuffer p)))
      /\ Store.md_totalSize (SkillGeneration.p_metadata p)
         = fold_right (fun file n => SkillGeneration.byteLength (snd file) + n) 0
                      (JSZip.unpack (SkillGeneration.p_zipBuffer p))
      /\ Store.md_fileCount (SkillGeneration.p_metadata p) = 4
  | Throw _ => False
  end.
Proof.
  destruct (SkillGeneration.generateSkill _ _ _ _ _ _ _ _ _) as [[p d']|e] eqn:H.
  - apply (metadata_describes_archive Samples.Handlebars Samples.generateDescription
             (Some Samples.analysis) "My Skill!!" "process" None None 1000
             (Store.empty true) p d' H).
  - vm_compute in H. discriminate H.
Defined.

(** "My Skill!!" is stored as my-skill.  After an update of its
    description, the generation and the deletion of a second skill,
    "my skill" is still refused. *)
Lemma same_slug_is_generated_once_witness :
  match SkillGeneration.generateSkill Samples.Handlebars Samples.generateDescription
          (Some Samples.analysis) "My Skill!!" "process" None None 1000
          (Lifecycle.run Samples.Handlebars Samples.generateDescription []
             (Store.empty true)) with
  | Ok (_, d') =>
      SkillGeneration.generateSkill Samples.Handlebars Samples.generateDescription
        (Some Samples.analysis) "my skill" "technical" (Some "Another one") None 9000
        (Lifecycle.run Samples.Handlebars Samples.generateDescription
           [Lifecycle.Put (Some 1) (Samples.describe "Onboarding, step by step") 2000;
            Samples.create_second;
            Lifecycle.Delete (Some 2)] d')
      = Throw "Skill generation failed: Skill with this name already exists"
  | Throw _ => False
  end.
Proof.
  destruct (SkillGeneration.generateSkill _ _ _ _ _ _ _ _ _) as [[p d']|e] eqn:H.
  - apply (same_slug_is_generated_once Samples.Handlebars Samples.generateDescription
             true []
             [Lifecycle.Put (Some 1) (Samples.describe "Onboarding, step by step") 2000;
              Samples.create_second;
              Lifecycle.Delete (Some 2)]
             (Some Samples.analysis) (Some Samples.analysis) "My Skill!!" "my skill"
             "process" "technical" None (Some "Another one") None None 1000 9000
             p d' H);
      [reflexivity | vm_compute; split; discriminate |].
    vm_compute in H. inversion H. reflexivity.
  - vm_compute in H. discriminate H.
Defined.

(** After the skill is deleted, or renamed, its name is free again. *)
Example name_is_free_after_delete_or_rename :
  (exists r,
     SkillGeneration.generateSkill Samples.Handlebars Samples.generateDescription
       (Some Samples.analysis) "my skill" "process" None None 9000
       (Samples.run [Samples.create; Lifecycle.Delete (Some 1)]) = Ok r)
  /\ (exists r,
        SkillGeneration.generateSkill Samples.Handlebars Samples.generateDescription
          (Some Samples.analysis) "my skill" "process" None None 9000
          (Samples.run [Samples.create;
                        Lifecycle.Put (Some 1) (Samples.rename "other-name") 2000]) = Ok r).
Proof. split; eexists; vm_compute; reflexivity. Qed.

(** The descriptions after an update that carries an empty one. *)
Lemma descriptions_are_never_empty_witness :
  Forall (fun s => Store.sk_description s <> EmptyString)
         (Store.skills
            (Samples.run [Samples.create;
                          Lifecycle.Put (Some 1) (Samples.describe EmptyString) 2000])).
Proof.
  apply (descriptions_are_never_empty Samples.Handlebars Samples.generateDescription true
           [Samples.create; Lifecycle.Put (Some 1) (Samples.describe EmptyString) 2000]).
  intros a skillType H. unfold Samples.generateDescription in H.
  cbv [String.append] in H. discriminate H.
Defined.

(** ** What an update and a deletion change *)

Section UpdateAndDelete.
Import Store SkillsApi.

Lemma updateFields_fixed req cur now :
  let new := assign_all (updateFields req cur) now cur in
  sk_type new = sk_type cur
  /\ sk_created_at new = sk_created_at cur
  /\ sk_updated_at new = now.
Proof.
  unfold updateFields, assign_all.
  destruct (name req) as [n|]; [destruct (Js.truthy n)|];
    (destruct (description req) as [ds|]; [destruct (Js.truthy ds)|]);
    (destruct (mainContent req) as [m|]; [destruct (Js.truthy m)|]);
    destruct (references req), (tags req); repeat split.
Qed.

Lemma updateFields_name req cur now n :
  name req = Some n -> Js.truthy n = true ->
  sk_name (assign_all (updateFields req cur) now cur) = n.
Proof.
  intros Hn Ht. unfold updateFields, assign_all. rewrite Hn, Ht.
  destruct (description req) as [ds|]; [destruct (Js.truthy ds)|];
    (destruct (mainContent req) as [m|]; [destruct (Js.truthy m)|]);
    destruct (references req), (tags req); reflexivity.
Qed.

End UpdateAndDelete.

(** An update that is answered with 200 has replaced the row of the
    skill by one with the same id, type and creation time, the next
    version and the time of the update; it has left every other row as
    it was, and it has appended one snapshot, which holds the version,
    the main document, the references and the metadata that the update
    replaced. *)
Theorem update_touches_one_row
    (i : Z) (req : SkillsApi.update_request) (now : Z) (d d' : Store.db)
    (response : SkillsApi.response) :
  SkillsApi.put_skill (Some i) req now d = (response, d') ->
  SkillsApi.status response = 200 ->
  exists cur new,
    Store.select_by_id i d = Some cur
    /\ Store.skills d'
       = map (fun s => if Store.sk_id s =? i then new else s) (Store.skills d)
    /\ Store.sk_id new = i
    /\ Store.sk_type new = Store.sk_type cur
    /\ Store.sk_created_at new = Store.sk_created_at cur
    /\ Store.sk_updated_at new = now
    /\ Store.sk_version new = Store.sk_version cur + 1
    /\ Store.skill_versions d'
       = (Store.skill_versions d
            ++ [{| Store.sv_skill_id := i;
                   Store.sv_version := Store.sk_version cur;
                   Store.sv_main_content := Store.sk_main_content cur;
                   Store.sv_references := Store.sk_references cur;
                   Store.sv_metadata := Store.sk_metadata cur;
                   Store.sv_created_at := now |}])%list
    /\ Store.skills_seq d' = Store.skills_seq d
    /\ SkillsApi.body response = SkillsApi.Updated i (Store.sk_version cur + 1).
Proof.
  unfold SkillsApi.put_skill.
  destruct (SkillsApi.UpdateSkillRequestSchema req) as [vd|];
    [|intros H; inversion H; subst; discriminate].
  destruct (Store.select_by_id i d) as [s|] eqn:Hsel;
    [|intros H; inversion H; subst; discriminate].
  destruct (SkillsApi.updateSkill i vd now d) as [[ver d1]|] eqn:Hup;
    [|intros H; inversion H; subst; discriminate].
  intros H _. inversion H; subst response d'; clear H.
  apply updateSkill_ok in Hup as (cur & Hcur & Hs & Hv & Hq & _ & Hver).
  rewrite Hsel in Hcur. inversion Hcur; subst s; clear Hcur. rename Hsel into Hcur.
  exists cur, (Store.assign_all (SkillsApi.updateFields vd cur) now cur).
  destruct (updateFields_fixed vd cur now) as (Ht & Hc & Hu).
  pose proof (proj2 (select_by_id_some _ _ _ Hcur)) as Hid.
  rewrite assign_all_id, updateFields_version.
  subst ver. repeat split; auto.
Qed.

(** The second update of the sample skill. *)
Lemma update_touches_one_row_witness :
  exists cur new,
    Store.select_by_id 1
      (Samples.run [Samples.create;
                    Lifecycle.Put (Some 1) (Samples.describe "first") 2000]) = Some cur
    /\ Store.skills (Samples.run Samples.two_updates)
       = map (fun s => if Store.sk_id s =? 1 then new else s)
             (Store.skills
                (Samples.run [Samples.create;
                              Lifecycle.Put (Some 1) (Samples.describe "first") 2000]))
    /\ Store.sk_id new = 1
    /\ Store.sk_type new = Store.sk_type cur
    /\ Store.sk_created_at new = Store.sk_created_at cur
    /\ Store.sk_updated_at new = 3000
    /\ Store.sk_version new = Store.sk_version cur + 1
    /\ Store.skill_versions (Samples.run Samples.two_updates)
       = (Store.skill_versions
            (Samples.run [Samples.create;
                          Lifecycle.Put (Some 1) (Samples.describe "first") 2000])
            ++ [{| Store.sv_skill_id := 1;
                   Store.sv_version := Store.sk_version cur;
                   Store.sv_main_content := Store.sk_main_content cur;
                   Store.sv_references := Store.sk_references cur;
                   Store.sv_metadata := Store.sk_metadata cur;
                   Store.sv_created_at := 3000 |}])%list
    /\ Store.skills_seq (Samples.run Samples.two_updates)
       = Store.skills_seq
           (Samples.run [Samples.create;
                         Lifecycle.Put (Some 1) (Samples.describe "first") 2000])
    /\ SkillsApi.body {| SkillsApi.status := 200; SkillsApi.body := SkillsApi.Updated 1 3 |}
       = SkillsApi.Updated 1 (Store.sk_version cur + 1).
Proof.
  apply (update_touches_one_row 1 (Samples.describe "second") 3000
           (Samples.run [Samples.create;
                         Lifecycle.Put (Some 1) (Samples.describe "first") 2000])
           (Samples.run Samples.two_updates)
           {| SkillsApi.status := 200; SkillsApi.body := SkillsApi.Updated 1 3 |});
    [vm_compute; reflexivity | reflexivity].
Defined.

(** An update that carries the name of another skill fails with 500
    and changes nothing: the snapshot that the transaction has written
    before the UPDATE statement fails is not kept. *)
Theorem rename_to_taken_name_changes_nothing
    (i : Z) (req : SkillsApi.update_request) (now : Z) (d : Store.db)
    (n : string) (cur other : Store.skill) :
  SkillsApi.UpdateSkillRequestSchema req = Some req ->
  SkillsApi.name req = Some n ->
  Store.select_by_id i d = Some cur ->
  In other (Store.skills d) -> Store.sk_id other <> i -> Store.sk_name other = n ->
  exists message,
    SkillsApi.put_skill (Some i) req now d
    = ({| SkillsApi.status := 500;
          SkillsApi.body := SkillsApi.Failure "Failed to update skill" message |}, d).
Proof.
  intros Hschema Hname Hcur Hin Hne Hother.
  assert (Ht : Js.truthy n = true).
  { unfold SkillsApi.UpdateSkillRequestSchema in Hschema. rewrite Hname in Hschema.
    cbn [SkillsApi.opt_all] in Hschema.
    destruct n; [|reflexivity]. discriminate Hschema. }
  unfold SkillsApi.put_skill. rewrite Hschema, Hcur.
  unfold SkillsApi.updateSkill. rewrite Hcur.
  destruct (Store.insert_version _ d) as [d1|e] eqn:H1; [|eauto].
  assert (Hd1 : Store.skills d1 = Store.skills d).
  { unfold Store.insert_version in H1.
    destruct (existsb _ _); [discriminate|].
    destruct (_ && _); [discriminate|]. now inversion H1. }
  unfold Store.update_skill, Store.select_by_id. rewrite Hd1.
  fold (Store.select_by_id i d). rewrite Hcur.
  rewrite (updateFields_name req cur now n Hname Ht).
  replace (existsb _ (Store.skills d)) with true; [eauto|].
  symmetry. apply existsb_exists. exists other. split; [exact Hin|].
  rewrite Hother, String.eqb_refl.
  destruct (Z.eqb_spec (Store.sk_id other) i); [contradiction | reflexivity].
Qed.

(** After a successful DELETE the skill can be neither read nor
    downloaded nor deleted again (404 each), an update is refused
    without a change, every other skill is where it was, and with
    foreign keys enforced the snapshots of the skill are gone. *)
Theorem deleted_skill_is_gone
    (i : Z) (d d' : Store.db) (response : SkillsApi.response) :
  SkillsApi.delete_skill_route (Some i) d = (response, d') ->
  SkillsApi.status response = 200 ->
  fst (SkillsApi.get_skill (Some i) d') = 404
  /\ SkillsApi.status (SkillsApi.download_skill_md (Some i) d') = 404
  /\ SkillsApi.status (SkillsApi.download (Some i) d') = 404
  /\ SkillsApi.status (fst (SkillsApi.delete_skill_route (Some i) d')) = 404
  /\ snd (SkillsApi.delete_skill_route (Some i) d') = d'
  /\ (forall req now,
        snd (SkillsApi.put_skill (Some i) req now d') = d'
        /\ (SkillsApi.status (fst (SkillsApi.put_skill (Some i) req now d')) = 400
            \/ SkillsApi.status (fst (SkillsApi.put_skill (Some i) req now d')) = 404))
  /\ Store.skills d'
     = List.filter (fun s => negb (Store.sk_id s =? i)) (Store.skills d)
  /\ (Store.foreign_keys d = true -> Store.versions_of i d' = []).
Proof.
  unfold SkillsApi.delete_skill_route.
  destruct (Store.select_by_id i d) as [s|];
    [|intros H; inversion H; subst; discriminate].
  intros H _. inversion H; subst response d'; clear H.
  assert (Hnone : Store.select_by_id i (Store.delete_skill i d) = None).
  { unfold Store.select_by_id, Store.delete_skill. cbn [Store.skills].
    destruct (find _ _) eqn:Hf; [|reflexivity].
    apply find_some in Hf as [Hin Hid]. apply filter_In in Hin as [_ Hne].
    rewrite Hid in Hne. discriminate Hne. }
  unfold SkillsApi.get_skill, SkillsApi.download_skill_md, SkillsApi.download,
    SkillsApi.download_with, SkillsApi.put_skill.
  rewrite Hnone. repeat split; try reflexivity.
  - now destruct (SkillsApi.UpdateSkillRequestSchema req).
  - destruct (SkillsApi.UpdateSkillRequestSchema req); auto.
  - intros Hfk. unfold Store.versions_of, Store.delete_skill. cbn [Store.skill_versions].
    rewrite Hfk. apply filter_nothing. intros v Hin.
    apply filter_In in Hin as [_ Hne].
    destruct (Store.sv_skill_id v =? i); [discriminate Hne | reflexivity].
Qed.

(** The sample skill after two updates and its deletion. *)
Lemma deleted_skill_is_gone_witness :
  fst (SkillsApi.get_skill (Some 1)
         (Samples.run (Samples.two_updates ++ [Lifecycle.Delete (Some 1)]))) = 404
  /\ Store.versions_of 1 (Samples.run (Samples.two_updates ++ [Lifecycle.Delete (Some 1)]))
     = [].
Proof.
  assert (H : SkillsApi.delete_skill_route (Some 1) (Samples.run Samples.two_updates)
              = ({| SkillsApi.status := 200;
                    SkillsApi.body := SkillsApi.Deleted 1 "my-skill" |},
                 Samples.run (Samples.two_updates ++ [Lifecycle.Delete (Some 1)])))
    by (vm_compute; reflexivity).
  destruct (deleted_skill_is_gone _ _ _ _ H eq_refl)
    as (Hget & _ & _ & _ & _ & _ & _ & Hv).
  split; [exact Hget | apply Hv; vm_compute; reflexivity].
Defined.

(** The second sample skill cannot take the name of the first. *)
Lemma rename_to_taken_name_changes_nothing_witness :
  exists message,
    SkillsApi.put_skill (Some 2) (Samples.rename "my-skill") 6000 Samples.two_skills
    = ({| SkillsApi.status := 500;
          SkillsApi.body := SkillsApi.Failure "Failed to update skill" message |},
       Samples.two_skills).
Proof.
  apply (rename_to_taken_name_changes_nothing 2 (Samples.rename "my-skill") 6000
           Samples.two_skills "my-skill"
           (Samples.set_row
              {| Store.sk_id := 2; Store.sk_name := "second-skill";
                 Store.sk_description := "Claude skill for process tasks";
                 Store.sk_type := "process"; Store.sk_version := 1;
                 Store.sk_main_content := "# second-skill skill";
                 Store.sk_references := Store.sk_references Samples.created_row;
                 Store.sk_metadata :=
                   {| Store.md_tags := []; Store.md_fileCount := 4;
                      Store.md_totalSize := 52;
                      Store.md_extractedFrom :=
                        Store.md_extractedFrom (Store.sk_metadata Samples.created_row);
                      Store.md_github := None |};
                 Store.sk_created_at := 5000; Store.sk_updated_at := 5000 |}
              1 "Claude skill for process tasks" 5000)
           Samples.created_row);
    [reflexivity | reflexivity | vm_compute; reflexivity | vm_compute; auto
     | discriminate | reflexivity].
Defined.

(** ** The names that validation accepts *)

Section AcceptedNames.
Import SkillName.

Lemma dropWhile_exists {A} (p q : A -> bool) l :
  (forall x, p x = true -> q x = false) ->
  existsb q (Js.dropWhile p l) = existsb q l.
Proof.
  intros H. induction l as [|x r IH]; simpl; [reflexivity|].
  destruct (p x) eqn:E; [|reflexivity]. now rewrite (H x E), IH.
Qed.

Lemma dropWhileEnd_exists {A} (p q : A -> bool) l :
  (forall x, p x = true -> q x = false) ->
  existsb q (Js.dropWhileEnd p l) = existsb q l.
Proof.
  intros H. induction l as [|x r IH]; simpl; [reflexivity|].
  rewrite <- IH.
  destruct (Js.dropWhileEnd p r) as [|y r']; [|reflexivity].
  destruct (p x) eqn:E; simpl; [now rewrite (H x E) | reflexivity].
Qed.

Lemma replace_runs_exists in_run l :
  existsb is_alnum (replace_runs in_run l) = existsb is_alnum l.
Proof.
  revert in_run. induction l as [|c r IH]; intros in_run; simpl; [reflexivity|].
  destruct (is_alnum c) eqn:E; simpl; [now rewrite E, IH|].
  destruct in_run; simpl; now rewrite IH.
Qed.

Lemma space_not_alnum c : Js.is_space c = true -> is_alnum c = false.
Proof.
  unfold Js.is_space, is_alnum, Js.between. generalize (Js.code c). intros z H.
  lia.
Qed.

Lemma hyphen_not_alnum c : is_hyphen c = true -> is_alnum c = false.
Proof.
  unfold is_hyphen, is_alnum, Js.between. generalize (Js.code c). intros z H.
  lia.
Qed.

(** The normalized name has a letter or a digit exactly when the name
    in lower case has one. *)
Lemma formatSkillName_alnum name :
  existsb is_alnum (Js.chars (formatSkillName name))
  = existsb is_alnum (Js.chars (Js.toLowerCase name)).
Proof.
  unfold formatSkillName, strip_hyphens, replace_non_alnum, Js.trim.
  rewrite !chars_str.
  rewrite (dropWhileEnd_exists _ _ _ hyphen_not_alnum).
  rewrite (dropWhile_exists _ _ _ hyphen_not_alnum).
  rewrite replace_runs_exists.
  rewrite (dropWhileEnd_exists _ _ _ space_not_alnum).
  now rewrite (dropWhile_exists _ _ _ space_not_alnum).
Qed.

(** A slug is empty or has a letter or a digit. *)
Lemma slug_regex_alnum name :
  slug_regex_test (formatSkillName name)
  = existsb is_alnum (Js.chars (Js.toLowerCase name)).
Proof.
  rewrite <- formatSkillName_alnum.
  pose proof (formatSkillName_is_slug name) as Hs.
  unfold slug_regex_test. unfold is_slug in Hs.
  apply andb_prop in Hs as [Hs _].
  rewrite (single_hyphens_chars _ _ Hs), andb_true_r.
  rewrite <- (str_chars (formatSkillName name)) at 1.
  destruct (Js.chars (formatSkillName name)) as [|c r]; [reflexivity|].
  simpl in *. destruct (is_alnum c); [reflexivity|].
  rewrite andb_false_r in Hs. discriminate Hs.
Qed.

Lemma dropWhile_length {A} (p : A -> bool) l :
  (length (Js.dropWhile p l) <= length l)%nat.
Proof.
  induction l as [|x r IH]; simpl; [lia|]. destruct (p x); simpl; lia.
Qed.

Lemma dropWhileEnd_length {A} (p : A -> bool) l :
  (length (Js.dropWhileEnd p l) <= length l)%nat.
Proof.
  induction l as [|x r IH]; simpl; [lia|].
  destruct (Js.dropWhileEnd p r); [destruct (p x)|]; simpl in *; lia.
Qed.

Lemma replace_runs_length in_run l :
  (length (replace_runs in_run l) <= length l)%nat.
Proof.
  revert in_run. induction l as [|c r IH]; intros in_run; simpl; [lia|].
  destruct (is_alnum c); simpl; [specialize (IH false); lia|].
  destruct in_run; simpl; specialize (IH true); lia.
Qed.

Lemma str_length l : String.length (Js.str l) = length l.
Proof. induction l as [|c r IH]; simpl; [reflexivity | now rewrite IH]. Qed.

Lemma chars_length s : length (Js.chars s) = String.length s.
Proof. induction s as [|c r IH]; simpl; [reflexivity | now rewrite IH]. Qed.

(** On the code units 0..255, where lower case keeps the length. *)
Lemma formatSkillName_length name :
  Js.len (formatSkillName name) <= Js.len name.
Proof.
  unfold Js.len, formatSkillName, strip_hyphens, replace_non_alnum, Js.trim, Js.toLowerCase.
  rewrite !chars_str, !str_length.
  apply inj_le.
  etransitivity; [apply dropWhileEnd_length|].
  etransitivity; [apply dropWhile_length|].
  etransitivity; [apply replace_runs_length|].
  etransitivity; [apply dropWhileEnd_length|].
  etransitivity; [apply dropWhile_length|].
  now rewrite length_map, chars_length.
Qed.

(** Two hyphens in a row do not occur where hyphens are single. *)
Lemma single_hyphens_no_pair s :
  forall prev, single_hyphens prev (Js.chars s) = true -> Js.split_first "--" s = None.
Proof.
  induction s as [|c r IH]; intros prev H; [reflexivity|].
  cbn [Js.chars list_ascii_of_string] in H. cbn [single_hyphens] in H.
  assert (Hr : Js.split_first "--" r = None).
  { destruct (is_alnum c); [now apply (IH false)|].
    apply andb_prop in H as [_ H]. now apply (IH true). }
  cbn [Js.split_first]. rewrite Hr.
  destruct (Js.strip_prefix "--" (String c r)) as [rest|] eqn:E; [|reflexivity].
  exfalso. cbn [Js.strip_prefix] in E.
  destruct (Ascii.eqb_spec "-"%char c) as [<-|]; [|discriminate E].
  destruct r as [|c2 r2]; [discriminate E|].
  destruct (Ascii.eqb_spec "-"%char c2) as [<-|]; [|discriminate E].
  cbn [Js.chars list_ascii_of_string single_hyphens] in H.
  change (is_alnum "-") with false in H. change (is_hyphen "-") with true in H.
  cbn [negb andb] in H. rewrite andb_false_r in H. discriminate H.
Qed.

End AcceptedNames.

(** Whatever the name, its normalized form is made of lower-case
    letters, digits and hyphens, has no hyphen first or last and no two
    hyphens in a row; so the pattern of the name check accepts it
    unless it is empty. *)
Theorem formatSkillName_yields_slug (name : string) :
  forallb (fun c => SkillName.is_alnum c || SkillName.is_hyphen c)
          (Js.chars (SkillName.formatSkillName name)) = true
  /\ SkillName.starts_hyphen (Js.chars (SkillName.formatSkillName name)) = false
  /\ SkillName.ends_hyphen (Js.chars (SkillName.formatSkillName name)) = false
  /\ Js.includes "--" (SkillName.formatSkillName name) = false
  /\ SkillName.slug_regex_test (SkillName.formatSkillName name)
     = Js.truthy (SkillName.formatSkillName name).
Proof.
  pose proof (formatSkillName_is_slug name) as Hs.
  unfold SkillName.is_slug in Hs. apply andb_prop in Hs as [Hs He].
  apply negb_true_iff in He.
  split; [now apply (single_hyphens_chars true)|].
  split.
  { destruct (Js.chars (SkillName.formatSkillName name)) as [|c r]; [reflexivity|].
    simpl in *. destruct (SkillName.is_alnum c) eqn:Ha.
    - now apply alnum_not_hyphen.
    - rewrite andb_false_r in Hs. discriminate Hs. }
  split; [exact He|].
  split.
  { unfold Js.includes. now rewrite (single_hyphens_no_pair _ true Hs). }
  unfold SkillName.slug_regex_test, Js.truthy.
  rewrite (single_hyphens_chars true _ Hs). apply andb_true_r.
Qed.

(** The character check of [validateSkillName] refuses exactly the
    names of 3 to 50 characters that hold no letter of a-z and no digit
    once they are in lower case: upper-case letters, spaces and
    punctuation are accepted, for they are normalized away. *)
Theorem character_check_refuses_names_without_alnum (name : string) (d : Store.db) :
  SkillGeneration.validateSkillName name d
  = Throw "Skill name must contain only lowercase letters, numbers, and hyphens"
  <-> 3 <= Js.len name <= 50
      /\ existsb SkillName.is_alnum (Js.chars (Js.toLowerCase name)) = false.
Proof.
  unfold SkillGeneration.validateSkillName.
  rewrite slug_regex_alnum.
  destruct (Js.truthy name) eqn:Ht; cbn [negb orb].
  - destruct (Z.ltb_spec (Js.len name) 3) as [H3|H3].
    { split; [discriminate | lia]. }
    destruct (Z.ltb_spec 50 (Js.len name)) as [H50|H50].
    { split; [discriminate | lia]. }
    destruct (existsb SkillName.is_alnum (Js.chars (Js.toLowerCase name))); cbn [negb].
    + destruct (Store.select_by_name _ d); split; try discriminate; intros [_ H];
        discriminate H.
    + split; [intros _; split; [lia | reflexivity] | reflexivity].
  - split; [discriminate|]. intros [Hl _].
    destruct name; [unfold Js.len in Hl; simpl in Hl; lia | discriminate Ht].
Qed.

Example names_of_punctuation :
  SkillGeneration.validateSkillName "!!! ???" (Store.empty true)
  = Throw "Skill name must contain only lowercase letters, numbers, and hyphens"
  /\ SkillGeneration.validateSkillName "My Skill, v2!" (Store.empty true) = Ok tt
  /\ SkillName.formatSkillName "My Skill, v2!" = "my-skill-v2".
Proof. vm_compute. repeat split. Qed.

(** ** The origins that CORS lets in *)

Section Origins.

#[local] Arguments String.append : simpl nomatch.

Lemma includes_spec pat s :
  Js.includes pat s = true <-> exists before rest, s = (before ++ pat ++ rest)%string.
Proof.
  unfold Js.includes. destruct (Js.split_first pat s) as [[before rest]|] eqn:E; simpl.
  - split; [intros _ | reflexivity]. apply split_first_sound in E. eauto.
  - split; [discriminate|]. intros (before & rest & H).
    now apply (split_first_none _ _ E) in H.
Qed.

Lemma startsWith_spec pat s :
  Js.startsWith pat s = true <-> exists rest, s = (pat ++ rest)%string.
Proof.
  unfold Js.startsWith. destruct (Js.strip_prefix pat s) as [rest|] eqn:E; simpl.
  - split; [intros _ | reflexivity]. apply strip_prefix_spec in E. eauto.
  - split; [discriminate|]. intros (rest & H).
    apply strip_prefix_spec in H. congruence.
Qed.

Lemma mem_startsWith o l :
  Store.mem o l = true -> existsb (fun allowed => Js.startsWith allowed o) l = true.
Proof.
  unfold Store.mem. intros H. apply existsb_exists in H as (x & Hin & E).
  apply String.eqb_eq in E. subst x.
  apply existsb_exists. exists o. split; [exact Hin|].
  apply startsWith_spec. exists EmptyString.
  clear. induction o as [|c r IH]; simpl; congruence.
Qed.

End Origins.

(** The origin check of the CORS middleware lets a request in exactly
    when it has no Origin header (or an empty one), when its origin
    contains ".vercel.app" anywhere, or when its origin starts with one
    of the allowed origins; the comparison with the allowed origins and
    the test for the project name add nothing to these three. *)
Theorem cors_lets_in (e : Server.env) (o : option string) :
  Server.origin e o = Ok true
  <-> Js.truthy_opt o = false
      \/ exists origin,
           o = Some origin
           /\ ((exists before rest, origin = before ++ ".vercel.app" ++ rest)
               \/ exists allowed rest,
                    In allowed (Server.allowedOrigins e) /\ origin = allowed ++ rest).
Proof.
  unfold Server.origin.
  destruct (Js.truthy_opt o) eqn:Ht; cbn [negb]; [|split; auto].
  destruct o as [origin|]; [|discriminate Ht].
  destruct (Js.includes ".vercel.app" origin) eqn:Hv.
  - rewrite orb_true_r. cbn [orb]. split; [intros _|reflexivity].
    right. exists origin. split; [reflexivity|]. left. now apply includes_spec.
  - rewrite andb_false_r, !orb_false_r.
    destruct (existsb (fun allowed => Js.startsWith allowed origin)
                      (Server.allowedOrigins e)) eqn:Hs.
    + rewrite orb_true_r. split; [intros _|reflexivity].
      right. exists origin. split; [reflexivity|]. right.
      apply existsb_exists in Hs as (allowed & Hin & H).
      apply startsWith_spec in H as [rest ->]. eauto.
    + destruct (Store.mem origin (Server.allowedOrigins e)) eqn:Hm.
      { apply mem_startsWith in Hm. congruence. }
      cbn [orb]. split; [discriminate|].
      intros [H|(x & E & [H|(allowed & rest & Hin & H)])]; [discriminate H| |].
      * inversion E; subst x. apply includes_spec in H. congruence.
      * inversion E; subst x.
        assert (existsb (fun allowed => Js.startsWith allowed origin)
                        (Server.allowedOrigins e) = true); [|congruence].
        apply existsb_exists. exists allowed. split; [exact Hin|].
        apply startsWith_spec. eauto.
Qed.

(** In production a site of another domain whose origin holds
    ".vercel.app" is let in; in development an origin that only starts
    like the local front end is let in; an unrelated origin is not. *)
Example cors_origins :
  Server.origin {| Server.NODE_ENV := Some "production"; Server.FRONTEND_URL := None |}
    (Some "https://a.vercel.app.example.org") = Ok true
  /\ Server.origin {| Server.NODE_ENV := None; Server.FRONTEND_URL := None |}
       (Some "http://localhost:3000.example.org") = Ok true
  /\ Server.origin {| Server.NODE_ENV := Some "production"; Server.FRONTEND_URL := None |}
       (Some "http://localhost:3000") = Throw "Not allowed by CORS"
  /\ Server.origin {| Server.NODE_ENV := Some "production"; Server.FRONTEND_URL := None |}
       None = Ok true.
Proof. vm_compute. repeat split. Qed.

(** ** Validating twice *)

(** A response that has passed validation passes it again unchanged,
    and validation changes no property but the confidence. *)
Theorem validation_is_idempotent (parsed validated : Json.value) :
  ClaudeClient.validateAnalysisResponse parsed = Ok validated ->
  ClaudeClient.validateAnalysisResponse validated = Ok validated
  /\ forall k, k <> "confidence" -> Json.get k validated = Json.get k parsed.
Proof.
  intros H. pose proof (validated_response _ _ H) as (He & q & Hq & Hr).
  assert (Hobj : exists fields, validated = Json.Obj fields).
  { destruct validated; try discriminate He. eauto. }
  destruct Hobj as [fields ->]. split.
  - unfold ClaudeClient.validateAnalysisResponse. cbn [Json.truthy Json.typeof_object negb orb].
    rewrite He, Hq. cbn [negb ClaudeClient.invalid_confidence].
    destruct Hr as [H0 H1]. apply Qle_bool_iff in H0, H1.
    unfold Json.lt_zero, Json.gt_one. now rewrite H0, H1.
  - intros k Hk. unfold ClaudeClient.validateAnalysisResponse in H.
    destruct (_ || _); [discriminate|].
    destruct (negb _); [discriminate|].
    destruct (ClaudeClient.invalid_confidence _).
    + destruct parsed; inversion H; subst; try reflexivity.
      simpl. now apply assoc_set_other.
    + now inversion H.
Qed.

(** The sample response passes validation twice. *)
Lemma validation_is_idempotent_witness :
  ClaudeClient.validateAnalysisResponse Samples.good_value = Ok Samples.good_value.
Proof.
  apply (validation_is_idempotent Samples.good_value Samples.good_value). reflexivity.
Defined.

(** ** The generated description *)

Section Descriptions.
Import SkillGeneration.

Lemma value_induction (P : Json.value -> Prop) :
  P Json.Null -> (forall b, P (Json.Bool b)) -> (forall n, P (Json.Num n)) ->
  (forall s, P (Json.Str s)) ->
  (forall items, Forall P items -> P (Json.Arr items)) ->
  (forall fields, P (Json.Obj fields)) ->
  forall v, P v.
Proof.
  intros HN HB Hn HS HA HO. fix IH 1.
  intros [| b | n | s | items | fields];
    [exact HN | apply HB | apply Hn | apply HS | | apply HO].
  apply HA. induction items as [|x r IHr]; constructor; [apply IH | exact IHr].
Qed.

Variable Number_toString : Json.number -> string.

(** The only error of the conversion to a string. *)
Lemma ToString_throws :
  forall v e, ToString Number_toString v = Throw e ->
              e = "Cannot convert object to primitive value".
Proof.
  intros v. induction v as [| b | n | s | items Hitems | fields] using value_induction;
    intros e; simpl; try discriminate.
  - match goal with
    | |- match ?f items with _ => _ end = _ -> _ => set (each := f)
    end.
    assert (Heach : forall e, each items = Throw e ->
                              e = "Cannot convert object to primitive value").
    { clear e. induction Hitems as [|x r Hx Hr IHr]; intros e; simpl; [discriminate|].
      destruct (match x with
                | Json.Null => Ok EmptyString
                | _ => ToString Number_toString x
                end) as [sx|ex] eqn:Ex.
      - destruct (each r) as [rest|er]; [discriminate|].
        intros H. inversion H; subst. now apply IHr.
      - intros H. inversion H; subst. destruct x; try discriminate Ex; now apply Hx. }
    destruct (each items) as [l|e0]; [discriminate|].
    intros H. inversion H; subst. now apply Heach.
  - destruct (Js.defined _); [intros H; now inversion H | discriminate].
Qed.

Lemma or_else_throws o fallback e :
  or_else Number_toString o fallback = Throw e ->
  e = "Cannot convert object to primitive value".
Proof.
  unfold or_else. destruct o as [v|]; [|discriminate].
  destruct (Json.truthy v); [apply ToString_throws | discriminate].
Qed.

End Descriptions.

(** The description that is generated for a skill starts with the
    phrase of its type, so it is never empty.  The generation of a
    description fails only for one of the three known types, and then
    only when the analysis has no extracted data or when a value that
    goes into the description is (or holds) an object with a property
    named toString. *)
Theorem generated_description_starts_with_its_phrase
    (Number_toString : Json.number -> string)
    (analysisData : SkillGeneration.analysis_data) (skillType : string) :
  match SkillGeneration.generateDescription Number_toString analysisData skillType with
  | Ok s =>
      s <> EmptyString
      /\ exists rest,
           s = (if String.eqb skillType "copywriting" then "Generates "
                else if String.eqb skillType "process" then "Structured workflow for "
                else if String.eqb skillType "technical" then "Technical guide for "
                else "Claude skill for ") ++ rest
  | Throw e =>
      Store.mem skillType ["copywriting"; "process"; "technical"] = true
      /\ (SkillGeneration.a_extractedData analysisData = None
          \/ SkillGeneration.a_extractedData analysisData = Some Json.Null
          \/ e = "Cannot convert object to primitive value")
  end.
Proof.
  assert (Hne : forall (a b s : string) c, s = (String c a ++ b)%string -> s <> EmptyString).
  { intros a b s c -> H. discriminate H. }
  unfold SkillGeneration.generateDescription, Store.mem. cbn [existsb].
  destruct (String.eqb skillType "copywriting") eqn:E1;
    [|destruct (String.eqb skillType "process") eqn:E2;
      [|destruct (String.eqb skillType "technical") eqn:E3]].
  - destruct (SkillGeneration.a_extractedData analysisData) as [data|];
      [|split; auto].
    assert (Hd : data = Json.Null \/ data <> Json.Null)
      by (destruct data; [left; reflexivity | right; discriminate ..]).
    destruct Hd as [->|Hnn].
    { split; auto. }
    assert (Hread : forall (A : Type) (x y : A),
               match data with Json.Null => x | _ => y end = y).
    { intros A x y. destruct data; try reflexivity. now destruct Hnn. }
    rewrite !Hread.
    destruct (SkillGeneration.or_else _ _ "effective") as [tone|e] eqn:Ho1;
      [|apply or_else_throws in Ho1; auto].
    destruct (SkillGeneration.or_else _ _ "proven") as [flow|e] eqn:Ho2;
      [|apply or_else_throws in Ho2; auto].
    split; [eapply Hne; reflexivity | eexists; reflexivity].
  - destruct (SkillGeneration.a_extractedData analysisData) as [data|];
      [|rewrite orb_true_r; split; auto].
    assert (Hd : data = Json.Null \/ data <> Json.Null)
      by (destruct data; [left; reflexivity | right; discriminate ..]).
    destruct Hd as [->|Hnn].
    { rewrite orb_true_r. split; auto. }
    assert (Hread : forall (A : Type) (x y : A),
               match data with Json.Null => x | _ => y end = y).
    { intros A x y. destruct data; try reflexivity. now destruct Hnn. }
    rewrite !Hread.
    destruct (SkillGeneration.or_else _ _ "process execution") as [step|e] eqn:Ho1;
      [|apply or_else_throws in Ho1; rewrite orb_true_r; auto].
    split; [eapply Hne; reflexivity | eexists; reflexivity].
  - destruct (SkillGeneration.a_extractedData analysisData) as [data|];
      [|rewrite !orb_true_r; split; auto].
    assert (Hd : data = Json.Null \/ data <> Json.Null)
      by (destruct data; [left; reflexivity | right; discriminate ..]).
    destruct Hd as [->|Hnn].
    { rewrite !orb_true_r. split; auto. }
    assert (Hread : forall (A : Type) (x y : A),
               match data with Json.Null => x | _ => y end = y).
    { intros A x y. destruct data; try reflexivity. now destruct Hnn. }
    rewrite !Hread.
    destruct (SkillGeneration.or_else _ _ "implementation") as [concept|e] eqn:Ho1;
      [|apply or_else_throws in Ho1; rewrite !orb_true_r; auto].
    split; [eapply Hne; reflexivity | eexists; reflexivity].
  - split; [eapply Hne; reflexivity | eexists; reflexivity].
Qed.

(** Descriptions of the sample analysis, of an analysis with a first
    step, and of one whose first concept is a list. *)
Example generated_descriptions :
  SkillGeneration.generateDescription (fun _ => "1") Samples.analysis "process"
  = Ok "Structured workflow for process execution"
  /\ SkillGeneration.generateDescription (fun _ => "1")
       {| SkillGeneration.a_analysisId := EmptyString;
          SkillGeneration.a_contentType := "process";
          SkillGeneration.a_extractedData :=
            Some (Json.Obj
                    [("workflow",
                      Json.Obj [("steps",
                                 Json.Arr [Json.Obj [("name", Json.Str "Kick-off call")]])])]);
          SkillGeneration.a_timestamp := EmptyString;
          SkillGeneration.a_confidence := 1 |} "process"
     = Ok "Structured workflow for Kick-off call"
  /\ SkillGeneration.generateDescription (fun _ => "1")
       {| SkillGeneration.a_analysisId := EmptyString;
          SkillGeneration.a_contentType := "technical";
          SkillGeneration.a_extractedData :=
            Some (Json.Obj
                    [("concepts",
                      Json.Obj [("mainConcepts",
                                 Json.Arr [Json.Arr [Json.Str "queues"; Json.Null;
                                                     Json.Str "workers"]])])]);
          SkillGeneration.a_timestamp := EmptyString;
          SkillGeneration.a_confidence := 1 |} "technical"
     = Ok "Technical guide for queues,,workers"
  /\ SkillGeneration.generateDescription (fun _ => "1") Samples.analysis "poetry"
     = Ok "Claude skill for poetry tasks".
Proof. vm_compute. repeat split. Qed.

(** ** The validation of a package *)

Section Packages.
Import SkillGeneration.

Lemma byteLength_length s : Js.len s <= byteLength s.
Proof.
  unfold Js.len, byteLength. rewrite <- chars_length.
  induction (Js.chars s) as [|c r IH]; simpl length; simpl fold_right; [lia|].
  destruct (Js.code c <? 128); lia.
Qed.

Lemma total_size_grows (refs : Store.refs) acc :
  acc <= fold_left (fun n '(_, content) => n + byteLength content) refs acc.
Proof.
  revert acc. induction refs as [|[k c] r IH]; intros acc; simpl; [lia|].
  specialize (IH (acc + byteLength c)).
  pose proof (byteLength_length c). unfold Js.len in *. lia.
Qed.

End Packages.

(** [validateSkillPackage] on a package without a main document under
    'skill.md' does not report the missing file: it throws.  On every
    other package it returns a report whose size is the total size of
    the package, at least the length of the main document, and it finds
    the package valid exactly when the main document has 100 characters
    or more, holds a '#' and no '{{', there is a reference document, and
    the total size is at most 1 MiB. *)
Theorem package_validation (skillFiles : SkillGeneration.skill_files) :
  match SkillGeneration.get_file "skill.md" skillFiles with
  | None =>
      SkillGeneration.validateSkillPackage skillFiles
      = Throw "Cannot read properties of undefined (reading 'includes')"
  | Some main =>
      exists report,
        SkillGeneration.validateSkillPackage skillFiles = Ok report
        /\ SkillGeneration.calculateTotalSize skillFiles
           = Ok (SkillGeneration.packageSize report)
        /\ Js.len main <= SkillGeneration.packageSize report
        /\ (SkillGeneration.isValid report = true
            <-> 100 <= Js.len main
                /\ Js.includes "#" main = true
                /\ Js.includes "{{" main = false
                /\ SkillGeneration.references skillFiles <> []
                /\ SkillGeneration.packageSize report <= 1048576)
  end.
Proof.
  unfold SkillGeneration.validateSkillPackage, SkillGeneration.calculateTotalSize.
  destruct (SkillGeneration.get_file "skill.md" skillFiles) as [main|]; [|reflexivity].
  cbn [SkillGeneration.isValidMarkdown Js.truthy_opt].
  eexists. split; [reflexivity|]. split; [reflexivity|].
  cbn [SkillGeneration.packageSize SkillGeneration.isValid].
  split.
  { pose proof (total_size_grows (SkillGeneration.references skillFiles)
                  (SkillGeneration.byteLength main)).
    pose proof (byteLength_length main) as H0.
    eapply Z.le_trans; [exact H0 | exact H]. }
  change (1024 * 1024) with 1048576.
  destruct (Js.truthy main) eqn:Ht; cbn [negb].
  - destruct (Z.ltb_spec (Js.len main) 100) as [H100|H100].
    { split; [discriminate | lia]. }
    replace (50 <? Js.len main) with true by lia. rewrite andb_true_r.
    destruct (Js.includes "#" main); cbn [andb];
      [|split; [discriminate | intros (_ & H & _); discriminate H]].
    destruct (Js.includes "{{" main); cbn [negb];
      [split; [discriminate | intros (_ & _ & H & _); discriminate H]|].
    destruct (SkillGeneration.references skillFiles) as [|r0 rs] eqn:Hrefs.
    { split; [discriminate | intros (_ & _ & _ & H & _); now destruct H]. }
    destruct (Z.eqb_spec (Z.of_nat (length (r0 :: rs))) 0) as [E|_];
      [simpl length in E; lia|].
    destruct (Z.ltb_spec 1048576
                (fold_left (fun n '(_, content) => n + SkillGeneration.byteLength content)
                           (r0 :: rs) (SkillGeneration.byteLength main))) as [Hbig|Hbig].
    + split; [discriminate | intros (_ & _ & _ & _ & H); lia].
    + split; [intros _; repeat split; try lia; discriminate | reflexivity].
  - split; [discriminate|]. intros (H & _).
    destruct main; [unfold Js.len in H; simpl in H; lia | discriminate Ht].
Qed.

(** The files that the download route of the later copy of
    api/skills.js builds, with the main document under 'SKILL.md',
    make the validation throw. *)
Example package_without_main_document :
  SkillGeneration.validateSkillPackage
    {| SkillGeneration.main_key := "SKILL.md";
       SkillGeneration.main_doc := "# my-skill skill";
       SkillGeneration.references := [("practices.md", "# Practices")] |}
  = Throw "Cannot read properties of undefined (reading 'includes')".
Proof. reflexivity. Qed.

(** ** How long the cache holds a result *)

Section Expiry.
Import Runtime ClaudeClient ContentAnalysis.

Lemma cache_expires_stable : stable cache_expires.
Proof.
  unfold cache_expires. split; [|split]; intros; simpl in *; eauto.
  rewrite run_timers_lookup in H0.
  destruct (existsb _ _) eqn:Hex; [discriminate|].
  destruct (H _ _ H0) as (t & Hin & Ht).
  assert (Hdue : due (w_now w + Z.max 0 ms) (t, k) = false).
  { destruct (due _ (t, k)) eqn:Hd; [|reflexivity].
    assert (existsb (fun timer => due (w_now w + Z.max 0 ms) timer
                                  && String.eqb (snd timer) k) (w_timers w) = true);
      [|congruence].
    apply existsb_exists. exists (t, k). split; [exact Hin|].
    simpl. now rewrite Hd, String.eqb_refl. }
  exists t. split.
  - apply filter_In. split; [exact Hin | now rewrite Hdue].
  - unfold due in Hdue. simpl in Hdue. lia.
Qed.

Lemma cache_set_expires key r w :
  cache_expires w -> cache_expires (cache_set key r ttl w).
Proof.
  unfold cache_expires. intros Hw k r'. simpl.
  destruct (String.eqb_spec key k) as [<-|Hne].
  - intros _. exists (w_now w + ttl). split.
    + apply in_or_app. right. now left.
    + unfold ttl. lia.
  - rewrite lookup_insert_ne by exact Hne. intros H.
    destruct (Hw _ _ H) as (t & Hin & Ht). exists t. split; [|exact Ht].
    apply in_or_app. now left.
Qed.

Variable JSON_parse : string -> option Json.value.
Variable service : nat -> reply.
Variable md5_hex : string -> string.

Lemma analyzeContent_expires content contentType w :
  cache_expires w ->
  cache_expires (snd (analyzeContent JSON_parse service md5_hex content contentType w)).
Proof.
  intros Hw. unfold analyzeContent, analyzeContent_try.
  destruct (negb (Js.truthy content) || (Js.len content <? 10)); [exact Hw|].
  destruct (50000 <? Js.len content); [exact Hw|].
  destruct (negb (has_framework contentType)); [exact Hw|].
  destruct (w_cache w !! getCacheKey md5_hex content contentType); [exact Hw|].
  destruct (negb (shouldAnalyzeContent content)); [exact Hw|].
  unfold analyze_uncached.
  pose proof (callClaudeWithRateLimit_stable _ cache_expires_stable service w Hw) as Hs.
  destruct (callClaudeWithRateLimit service w) as [[text|[error|]] wa]; simpl in Hs.
  - destruct (parseClaudeResponse JSON_parse text) as [parsed|e].
    + destruct (validateAnalysisResponse parsed) as [v|e]; simpl.
      * now apply cache_set_expires.
      * now destruct (known_error e).
    + now destruct (known_error e).
  - now destruct (known_error error).
  - exact Hs.
Qed.

Lemma replay_expires events :
  forall w, cache_expires w ->
            cache_expires (replay JSON_parse service md5_hex events w).
Proof.
  unfold replay. induction events as [|e r IH]; intros w Hw; simpl; [exact Hw|].
  apply IH. destruct e as [content contentType|ms]; simpl.
  - now apply analyzeContent_expires.
  - now apply (proj1 cache_expires_stable).
Qed.

End Expiry.

(** In a process that serves one analysis after the other, every
    cached result has a pending timer that deletes it within 15 minutes,
    so no result is served from the cache more than 15 minutes after it
    was made, and 15 minutes after the last call the cache is empty. *)
Theorem cache_is_empty_after_ttl
    (JSON_parse : string -> option Json.value) (service : nat -> ClaudeClient.reply)
    (md5_hex : string -> string) (events : list ContentAnalysis.event) :
  let w := ContentAnalysis.replay JSON_parse service md5_hex events Runtime.initial in
  ContentAnalysis.cache_expires w
  /\ Runtime.w_cache (Runtime.advance ContentAnalysis.ttl w) = ∅.
Proof.
  intros w.
  assert (Hw : ContentAnalysis.cache_expires w).
  { apply replay_expires. intros k r H. simpl in H. rewrite lookup_empty in H.
    discriminate H. }
  split; [exact Hw|].
  apply map_eq. intros k. rewrite lookup_empty.
  destruct (Runtime.w_cache (Runtime.advance ContentAnalysis.ttl w) !! k) as [r|] eqn:E;
    [|reflexivity].
  exfalso.
  destruct (proj1 cache_expires_stable ContentAnalysis.ttl w Hw k r E) as (t & Hin & Ht).
  simpl in Hin. apply filter_In in Hin as [Hin _].
  simpl in E. rewrite run_timers_lookup in E.
  destruct (existsb _ _) eqn:Hex; [discriminate|].
  destruct (Hw k r E) as (t' & Hin' & Ht').
  assert (existsb (fun timer => Runtime.due (Runtime.w_now w + Z.max 0 ContentAnalysis.ttl)
                                            timer
                                && String.eqb (snd timer) k) (Runtime.w_timers w) = true);
    [|congruence].
  apply existsb_exists. exists (t', k). split; [exact Hin'|].
  simpl. rewrite String.eqb_refl, andb_true_r. unfold Runtime.due. simpl.
  unfold ContentAnalysis.ttl in *. lia.
Qed.

(** One sample analysis: the result is cached for 15 minutes. *)
Example cache_after_sample_analysis :
  Runtime.w_cache
    (ContentAnalysis.replay JsonText.JSON_parse Samples.always_good Md5.md5_hex
       [ContentAnalysis.Analyze Samples.content "process";
        ContentAnalysis.Wait (ContentAnalysis.ttl - 1)] Runtime.initial)
  !! ContentAnalysis.getCacheKey Md5.md5_hex Samples.content "process"
  = Some Samples.first_result
  /\ Runtime.w_cache
       (ContentAnalysis.replay JsonText.JSON_parse Samples.always_good Md5.md5_hex
          [ContentAnalysis.Analyze Samples.content "process";
           ContentAnalysis.Wait ContentAnalysis.ttl] Runtime.initial)
     !! ContentAnalysis.getCacheKey Md5.md5_hex Samples.content "process"
     = None.
Proof. split; vm_compute; reflexivity. Qed.

(** ** Retries and the rate limiter *)

Section Ledger.
Import Runtime ClaudeClient.

Variable service : nat -> reply.

Lemma retry_loop_requests remaining :
  forall attempt maxRetries last w,
    w_requests (snd (retry_loop service remaining attempt maxRetries last w))
    = w_requests w.
Proof.
  induction remaining as [|k IH]; intros attempt maxRetries last w; simpl; [reflexivity|].
  unfold callClaudeAPI.
  destruct (outcome (service (w_calls w))) as [text|error]; simpl; [reflexivity|].
  destruct (negb (retryable (classify error))); simpl; [reflexivity|].
  destruct (attempt =? maxRetries); simpl; [reflexivity|].
  now rewrite IH.
Qed.

End Ledger.

(** The rate limiter counts one request for a call of
    [callClaudeWithRateLimit], however many attempts the call makes:
    the attempts after the first reach the service without a grant, so
    that the service may be called three times as often as the limit
    of 50 requests a minute says. *)
Theorem retries_are_not_rate_limited
    (service : nat -> ClaudeClient.reply) (w : Runtime.world) :
  let w' := snd (ClaudeClient.callClaudeWithRateLimit service w) in
  Runtime.w_requests w' = Runtime.w_requests (ClaudeClient.acquire w)
  /\ (exists l, Runtime.w_requests w'
                = (l ++ [Runtime.w_now (ClaudeClient.acquire w)])%list
                /\ (length l <= length (Runtime.w_requests w))%nat).
Proof.
  intros w'. subst w'.
  unfold ClaudeClient.callClaudeWithRateLimit, ClaudeClient.callClaudeWithRetry.
  rewrite retry_loop_requests. split; [reflexivity|].
  destruct (acquire_loop_window (S (length (Runtime.w_requests w))) w)
    as (l & Hl & _ & _ & _).
  { pose proof (List.filter_length_le
                  (fun time => Runtime.w_now w - time <? ClaudeClient.windowMs)
                  (Runtime.w_requests w)). lia. }
  fold (ClaudeClient.acquire w) in Hl.
  exists l. split; [exact Hl|].
  assert (Hlen : forall fuel w0,
             (length (Runtime.w_requests (ClaudeClient.acquire_loop fuel w0))
              <= S (length (Runtime.w_requests w0)))%nat).
  { induction fuel as [|k IH]; intros w0; simpl.
    - destruct (ClaudeClient.maxRequests <=? _); simpl.
      + pose proof (List.filter_length_le
                      (fun time => Runtime.w_now w0 - time <? ClaudeClient.windowMs)
                      (Runtime.w_requests w0)). lia.
      + rewrite length_app. simpl.
        pose proof (List.filter_length_le
                      (fun time => Runtime.w_now w0 - time <? ClaudeClient.windowMs)
                      (Runtime.w_requests w0)). lia.
    - destruct (ClaudeClient.maxRequests <=? _); simpl.
      + etransitivity; [apply IH|]. simpl.
        pose proof (List.filter_length_le
                      (fun time => Runtime.w_now w0 - time <? ClaudeClient.windowMs)
                      (Runtime.w_requests w0)). lia.
      + rewrite length_app. simpl.
        pose proof (List.filter_length_le
                      (fun time => Runtime.w_now w0 - time <? ClaudeClient.windowMs)
                      (Runtime.w_requests w0)). lia. }
  specialize (Hlen (S (length (Runtime.w_requests w))) w).
  fold (ClaudeClient.acquire w) in Hlen. rewrite Hl, length_app in Hlen.
  simpl in Hlen. lia.
Qed.

(** Three attempts, one entry in the ledger. *)
Example three_calls_one_grant :
  Runtime.w_calls
    (snd (ClaudeClient.callClaudeWithRateLimit Samples.rejects_twice Runtime.initial))
  = 3%nat
  /\ Runtime.w_requests
       (snd (ClaudeClient.callClaudeWithRateLimit Samples.rejects_twice Runtime.initial))
     = [0].
Proof. split; reflexivity. Qed.

(** ** What an update leaves of the metadata *)

(** An update that is answered with 200 never recomputes the file
    count, the total size, the origin or the GitHub entry of the
    metadata: they stay as they were, also when the update replaces the
    main document or the references; only the tags follow the request. *)
Theorem update_keeps_size_metadata
    (i : Z) (req : SkillsApi.update_request) (now : Z) (d d' : Store.db)
    (response : SkillsApi.response) :
  SkillsApi.put_skill (Some i) req now d = (response, d') ->
  SkillsApi.status response = 200 ->
  exists cur new,
    Store.select_by_id i d = Some cur
    /\ Store.select_by_id i d' = Some new
    /\ Store.md_fileCount (Store.sk_metadata new)
       = Store.md_fileCount (Store.sk_metadata cur)
    /\ Store.md_totalSize (Store.sk_metadata new)
       = Store.md_totalSize (Store.sk_metadata cur)
    /\ Store.md_extractedFrom (Store.sk_metadata new)
       = Store.md_extractedFrom (Store.sk_metadata cur)
    /\ Store.md_github (Store.sk_metadata new) = Store.md_github (Store.sk_metadata cur)
    /\ Store.md_tags (Store.sk_metadata new)
       = match SkillsApi.tags req with
         | Some tags => tags
         | None => Store.md_tags (Store.sk_metadata cur)
         end
    /\ Store.sk_references new
       = match SkillsApi.references req with
         | Some references => references
         | None => Store.sk_references cur
         end.
Proof.
  unfold SkillsApi.put_skill.
  destruct (SkillsApi.UpdateSkillRequestSchema req) as [vd|] eqn:Hschema;
    [|intros H; inversion H; subst; discriminate].
  assert (vd = req).
  { unfold SkillsApi.UpdateSkillRequestSchema in Hschema.
    destruct (_ && _); congruence. }
  subst vd.
  destruct (Store.select_by_id i d) as [s|] eqn:Hsel;
    [|intros H; inversion H; subst; discriminate].
  destruct (SkillsApi.updateSkill i req now d) as [[ver d1]|] eqn:Hup;
    [|intros H; inversion H; subst; discriminate].
  intros H _. inversion H; subst response d'; clear H.
  apply updateSkill_ok in Hup as (cur & Hcur & Hs & _).
  rewrite Hsel in Hcur. inversion Hcur; subst s; clear Hcur.
  exists cur, (Store.assign_all (SkillsApi.updateFields req cur) now cur).
  split; [reflexivity|]. split.
  { unfold Store.select_by_id. rewrite Hs.
    apply (find_replace i _ _ cur); [|exact Hsel].
    rewrite assign_all_id. now apply select_by_id_some in Hsel. }
  unfold SkillsApi.updateFields, Store.assign_all.
  destruct (SkillsApi.name req) as [n|]; [destruct (Js.truthy n)|];
    (destruct (SkillsApi.description req) as [ds|]; [destruct (Js.truthy ds)|]);
    (destruct (SkillsApi.mainContent req) as [m|]; [destruct (Js.truthy m)|]);
    destruct (SkillsApi.references req), (SkillsApi.tags req); repeat split.
Qed.

(** An update of the sample skill with a new main document of 120
    characters: the total size stays at the 48 bytes of the generated
    files. *)
Lemma update_keeps_size_metadata_witness :
  exists cur new,
    Store.select_by_id 1 Samples.created = Some cur
    /\ Store.select_by_id 1
         (snd (SkillsApi.put_skill (Some 1) Samples.rewrite_main 2000 Samples.created))
       = Some new
    /\ Store.md_fileCount (Store.sk_metadata new)
       = Store.md_fileCount (Store.sk_metadata cur)
    /\ Store.md_totalSize (Store.sk_metadata new)
       = Store.md_totalSize (Store.sk_metadata cur)
    /\ Store.md_extractedFrom (Store.sk_metadata new)
       = Store.md_extractedFrom (Store.sk_metadata cur)
    /\ Store.md_github (Store.sk_metadata new) = Store.md_github (Store.sk_metadata cur)
    /\ Store.md_tags (Store.sk_metadata new)
       = match SkillsApi.tags Samples.rewrite_main with
         | Some tags => tags
         | None => Store.md_tags (Store.sk_metadata cur)
         end
    /\ Store.sk_references new
       = match SkillsApi.references Samples.rewrite_main with
         | Some references => references
         | None => Store.sk_references cur
         end.
Proof.
  apply (update_keeps_size_metadata 1 Samples.rewrite_main 2000 Samples.created
           (snd (SkillsApi.put_skill (Some 1) Samples.rewrite_main 2000 Samples.created))
           {| SkillsApi.status := 200; SkillsApi.body := SkillsApi.Updated 1 2 |});
    [vm_compute; reflexivity | reflexivity].
Defined.

Example stale_total_size :
  map (fun s => (Js.len (Store.sk_main_content s),
                 Store.md_totalSize (Store.sk_metadata s)))
      (Store.skills
         (snd (SkillsApi.put_skill (Some 1) Samples.rewrite_main 2000 Samples.created)))
  = [(120, 48)].
Proof. vm_compute. reflexivity. Qed.
